(** * py-jsonapi: the schema/field engine and the inclusion resolver

    A shallow embedding of the parts of [jsonapi/schema/base_fields.py],
    [jsonapi/schema/fields.py], [jsonapi/schema/schema.py] and
    [jsonapi/api.py] that encode, decode and validate resources and that
    resolve included relationships, together with the properties of the
    code that have been checked against it.

    Python code raises exceptions and mutates objects in place: the
    embedding threads a [world] (the resource instances) through every
    call and returns either a value or the exception raised.  The state
    reached when an exception is raised is kept, as in Python. *)

From Stdlib Require Import ZArith List String Ascii Bool Lia.
From Stdlib Require Import SpecFloat.
From stdpp Require Import base gmap strings list.

Open Scope string_scope.
Open Scope list_scope.
Open Scope Z_scope.

(** ** Python values *)

(** The values that travel through the engine: what [json.loads] yields
    (None, bool, int, float, str, list, dict with string keys), a reference
    to a resource instance, and the standard-library objects the field
    catalog decodes to and hands to validators ([uuid.UUID],
    [fractions.Fraction], [complex], and [datetime.timedelta], which is a
    number of microseconds).  A float is its IEEE-754 datum. *)
#[warnings="-register-all"]
Inductive value : Type :=
| VNone
| VBool (b : bool)
| VInt (z : Z)
| VFloat (f : spec_float)
| VStr (s : string)
| VList (l : list value)
| VDict (d : list (string * value))
| VObj (a : nat)
| VUUID (int : Z)
| VFraction (numerator : Z) (denominator : positive)
| VComplex (real imag : spec_float)
| VTimeDelta (microseconds : Z).

(** [d.get(k)], [k in d] and [d[k] = v] on the items of a dict. *)
Fixpoint dict_get {A : Type} (d : list (string * A)) (k : string) : option A :=
  match d with
  | [] => None
  | (k', v) :: d' => if String.eqb k' k then Some v else dict_get d' k
  end.

Definition dict_in {A : Type} (k : string) (d : list (string * A)) : bool :=
  match dict_get d k with Some _ => true | None => false end.

Fixpoint dict_set {A : Type} (d : list (string * A)) (k : string) (v : A)
  : list (string * A) :=
  match d with
  | [] => [(k, v)]
  | (k', v') :: d' =>
      if String.eqb k' k then (k', v) :: d' else (k', v') :: dict_set d' k v
  end.

(** *** Numbers and [==] *)

(** The exact value of a number: a rational, an infinity, or not a number. *)
Inductive number : Type :=
| NRat (n : Z) (d : positive)
| NInf (negative : bool)
| NNan.

Definition signed (s : bool) (z : Z) : Z := if s then - z else z.

Definition float_number (f : spec_float) : number :=
  match f with
  | S754_zero _ => NRat 0 1
  | S754_infinity s => NInf s
  | S754_nan => NNan
  | S754_finite s m e =>
      match e with
      | Zneg p => NRat (signed s (Zpos m)) (2 ^ p)%positive
      | _ => NRat (signed s (Zpos m * 2 ^ e)) 1
      end
  end.

Definition number_of (v : value) : option number :=
  match v with
  | VBool b => Some (NRat (if b then 1 else 0) 1)
  | VInt z => Some (NRat z 1)
  | VFloat f => Some (float_number f)
  | VFraction n d => Some (NRat n d)
  | VComplex re (S754_zero _) => Some (float_number re)
  | _ => None
  end.

Definition number_eqb (x y : number) : bool :=
  match x, y with
  | NRat a b, NRat c d => (a * Zpos d =? c * Zpos b)
  | NInf s, NInf t => Bool.eqb s t
  | _, _ => false
  end.

(** Python's [a == b].  Numbers compare by value across bool, int, float,
    Fraction and the complex numbers whose imaginary part is zero; lists
    compare element by element; dicts compare as mappings, whatever the
    order of their items; instances compare by identity. *)
Fixpoint py_eq (a b : value) {struct a} : bool :=
  match number_of a, number_of b with
  | Some x, Some y => number_eqb x y
  | Some _, None | None, Some _ => false
  | None, None =>
      match a, b with
      | VNone, VNone => true
      | VStr s, VStr t => String.eqb s t
      | VObj x, VObj y => Nat.eqb x y
      | VUUID x, VUUID y => (x =? y)
      | VComplex re im, VComplex re' im' =>
          number_eqb (float_number re) (float_number re')
          && number_eqb (float_number im) (float_number im')
      | VTimeDelta x, VTimeDelta y => (x =? y)
      | VList l, VList m =>
          (fix all2 (l : list value) (m : list value) : bool :=
             match l, m with
             | [], [] => true
             | x :: l', y :: m' => py_eq x y && all2 l' m'
             | _, _ => false
             end) l m
      | VDict d, VDict e =>
          Nat.eqb (length d) (length e) &&
          (fix sub (d : list (string * value)) : bool :=
             match d with
             | [] => true
             | (k, x) :: d' =>
                 match dict_get e k with
                 | Some y => py_eq x y && sub d'
                 | None => false
                 end
             end) d
      | _, _ => false
      end
  end.

(** Truth value of an object, as [if x], [x or y] and [bool(x)] test it. *)
Definition truthy (v : value) : bool :=
  match v with
  | VNone => false
  | VBool b => b
  | VInt z => negb (z =? 0)
  | VFloat (S754_zero _) => false
  | VFloat _ => true
  | VStr s => negb (String.eqb s "")
  | VList l => match l with [] => false | _ => true end
  | VDict d => match d with [] => false | _ => true end
  | VObj _ => true
  | VUUID _ => true
  | VFraction n _ => negb (n =? 0)
  | VComplex (S754_zero _) (S754_zero _) => false
  | VComplex _ _ => true
  | VTimeDelta us => negb (us =? 0)
  end.

(** ** JSON pointers *)

(** A [jsonpointer.JSONPointer] is the list of its reference tokens;
    [sp / name] appends one. *)
Definition pointer : Type := list string.

Definition ptr_div (sp : pointer) (name : string) : pointer := sp ++ [name].

Notation "sp // name" := (ptr_div sp name) (at level 40, left associativity).

(** ** Exceptions *)

(** The text of an error: a literal, or a template with the arguments
    [str.format] puts into its [{}] places. *)
Inductive detail : Type :=
| Lit (s : string)
| Format (template : string) (args : list value).

(** Modelled from the spec: the error classes of [jsonapi.errors], a module
    that is not among the sources.  Each one is raised with a [detail] and
    a [source_pointer] into the input document; the spec's taxonomy lists
    InvalidType, InvalidValue, Conflict, and the error for a read-only
    field that is supplied, which the source names [ValidationError] and
    the spec InvalidOperation.  The other constructors are Python's
    built-in exceptions. *)
Inductive exn : Type :=
| InvalidType (d : detail) (source_pointer : option pointer)
| InvalidValue (d : detail) (source_pointer : option pointer)
| ValidationError (d : detail) (source_pointer : option pointer)
| Conflict (d : detail) (source_pointer : option pointer)
| TypeError
| ValueError
| OverflowError
| IndexError
| ZeroDivisionError
| AssertionError
| AttributeError (attr : string)
| NameError (name : string)
| KeyError (k : value)
| RuntimeError (msg : string)
| NotImplementedError.

(** ** The state and exception monad *)

(** A resource instance: its class and its attributes. *)
Record instance : Type := Instance {
  inst_class : string;
  inst_attrs : list (string * value)
}.

(** The instances alive, by address. *)
Definition world : Type := gmap nat instance.

Inductive result (A : Type) : Type :=
| Ok (a : A)
| Raise (e : exn).
Arguments Ok {A} a.
Arguments Raise {A} e.

(** Code that raises but changes nothing is a [result]; code that also
    reads or changes a state [S] is an [ST S]: it returns the value or the
    exception, and the state reached. *)
Definition ST (S A : Type) : Type := S -> result A * S.

#[global] Instance result_ret : MRet result := @Ok.

#[global] Instance result_bind : MBind result :=
  fun A B k c => match c with Ok a => k a | Raise e => Raise e end.

#[global] Instance ST_ret {S : Type} : MRet (ST S) := fun A a s => (Ok a, s).

#[global] Instance ST_bind {S : Type} : MBind (ST S) :=
  fun A B k c s =>
    match c s with
    | (Ok a, s') => k a s'
    | (Raise e, s') => (Raise e, s')
    end.

Definition raise {S A : Type} (e : exn) : ST S A := fun s => (Raise e, s).

Definition lift {S A : Type} (r : result A) : ST S A := fun s => (r, s).

(** The methods of fields and schemas run on the instances. *)
Abbreviation M := (ST world).

(** [assert b]. *)
Definition assert (b : bool) : result unit :=
  if b then Ok tt else Raise AssertionError.

(** [for x in xs: body(x)]. *)
Fixpoint for_each {S A : Type} (xs : list A) (body : A -> ST S unit)
  : ST S unit :=
  match xs with
  | [] => mret tt
  | x :: xs' => body x;; for_each xs' body
  end.

(** [for x in xs: acc = body(acc, x)], for loops that build a value. *)
Fixpoint for_fold {S A B : Type} (xs : list A) (acc : B)
    (body : B -> A -> ST S B) : ST S B :=
  match xs with
  | [] => mret acc
  | x :: xs' => acc' ← body acc x; for_fold xs' acc' body
  end.

(** [getattr(resource, name)] and [setattr(resource, name, data)]. *)
Definition getattr (resource : value) (name : string) : M value :=
  fun w =>
    match resource with
    | VObj a =>
        match w !! a with
        | Some i =>
            match dict_get (inst_attrs i) name with
            | Some v => (Ok v, w)
            | None => (Raise (AttributeError name), w)
            end
        | None => (Raise (AttributeError name), w)
        end
    | _ => (Raise (AttributeError name), w)
    end.

Definition setattr (resource : value) (name : string) (data : value) : M unit :=
  fun w =>
    match resource with
    | VObj a =>
        match w !! a with
        | Some i =>
            (Ok tt,
             <[a := Instance (inst_class i) (dict_set (inst_attrs i) name data)]> w)
        | None => (Raise (AttributeError name), w)
        end
    | _ => (Raise (AttributeError name), w)
    end.

(** ** jsonapi/schema/base_fields.py *)

(** What [BaseField.writable] holds: the str given to the initializer, or
    the tuple the initializer puts in place of ["always"]. *)
Inductive policy : Type :=
| PStr (s : string)
| PTuple (items : list string).

Definition policy_eqb (x : policy) (s : string) : bool :=
  match x with
  | PStr t => String.eqb t s
  | PTuple _ => false
  end.

(** [x in ("always", context)], that is [x == "always" or x == context];
    the context is a str or None, and a tuple is equal to neither. *)
Definition in_always_or (x : policy) (context : option string) : bool :=
  policy_eqb x "always" ||
  match context with
  | Some c => policy_eqb x c
  | None => false
  end.

(** [s in (a, b, ...)] for strs. *)
Definition str_in (s : string) (l : list string) : bool :=
  existsb (String.eqb s) l.

(** [context or fallback]. *)
Definition context_or (context fallback : option string) : option string :=
  match context with
  | Some c => if String.eqb c "" then fallback else Some c
  | None => fallback
  end.

(** An entry of [BaseField.fvalidators]; the function receives the data
    and the source pointer (the schema it also receives is the one the
    field belongs to). *)
Record validator : Type := Validator {
  validator_f : value -> option pointer -> M unit;
  validator_when : string;
  validator_context : string
}.

Definition getter : Type := value -> M value.
Definition setter : Type := value -> value -> option pointer -> M unit.

Module BaseField.

Record t : Type := Make {
  key : option string;
  sp : option pointer;
  name : string;
  mapped_key : string;
  writable : policy;
  required : string;
  fget : option getter;
  fset : option setter;
  fvalidators : list validator
}.

(** The keyword arguments of a call: the ones the signature names, each
    given or left to its default, and the names of any others. *)
Record kwargs : Type := Kwargs {
  kw_name : option string;
  kw_mapped_key : option string;
  kw_writable : option string;
  kw_required : option string;
  kw_fget : option getter;
  kw_fset : option setter;
  kw_unexpected : list string
}.

Definition no_kwargs : kwargs := Kwargs None None None None None None [].

(** [def __init__(self, *, name="", mapped_key="", writable="always",
    required="never", fget=None, fset=None)]: every parameter after
    [self] is keyword-only, so a call with [positional] further
    positional arguments, or with a keyword the signature does not name,
    is a TypeError. *)
Definition __init__ (positional : nat) (kw : kwargs) : result t :=
  if negb (Nat.eqb positional 0) then Raise TypeError
  else if negb (Nat.eqb (length (kw_unexpected kw)) 0) then Raise TypeError
  else
    let name := default "" (kw_name kw) in
    let mapped_key := default "" (kw_mapped_key kw) in
    let writable := default "always" (kw_writable kw) in
    let required := default "never" (kw_required kw) in
    assert (str_in writable ["always"; "never"; "creation"; "update"]);;
    let writable :=
      if String.eqb writable "always"
      then PTuple ["never"; "creation"]
      else PStr writable in
    assert (str_in required ["always"; "never"; "creation"; "update"]);;
    Ok {| key := None; sp := None; name := name; mapped_key := mapped_key;
          writable := writable; required := required;
          fget := kw_fget kw; fset := kw_fset kw; fvalidators := [] |}.

Definition getter (self : t) (f : getter) (f_name : string) : t :=
  {| key := key self; sp := sp self;
     name := if String.eqb (name self) "" then f_name else name self;
     mapped_key := mapped_key self; writable := writable self;
     required := required self; fget := Some f; fset := fset self;
     fvalidators := fvalidators self |}.

Definition setter (self : t) (f : setter) : t :=
  {| key := key self; sp := sp self; name := name self;
     mapped_key := mapped_key self; writable := writable self;
     required := required self; fget := fget self; fset := Some f;
     fvalidators := fvalidators self |}.

(** [validator(f, when="post-decode", context="always")]. *)
Definition validator (self : t) (f : value -> option pointer -> M unit)
    (when context : string) : result t :=
  assert (str_in when ["pre-decode"; "post-decode"]);;
  assert (str_in context ["never"; "always"; "creation"; "update"]);;
  Ok {| key := key self; sp := sp self; name := name self;
        mapped_key := mapped_key self; writable := writable self;
        required := required self; fget := fget self; fset := fset self;
        fvalidators := fvalidators self ++ [Validator f when context] |}.

Definition default_get (self : t) (resource : value) : M value :=
  if negb (String.eqb (mapped_key self) "")
  then getattr resource (mapped_key self)
  else mret VNone.

Definition default_set (self : t) (resource data : value)
    (sp : option pointer) : M unit :=
  if negb (String.eqb (mapped_key self) "")
  then setattr resource (mapped_key self) data
  else mret tt.

Definition get (self : t) (resource : value) : M value :=
  match fget self with
  | Some f => f resource
  | None => default_get self resource
  end.

Definition set (self : t) (resource data : value) (sp : option pointer)
  : M unit :=
  lift (assert (negb (policy_eqb (writable self) "never")));;
  match fset self with
  | Some f => f resource data sp
  | None => default_set self resource data sp
  end.

Definition encode (self : t) (data : value) : M value := mret data.

Definition decode (self : t) (data : value) (sp : option pointer) : M value :=
  mret data.

Definition validate_pre_decode (self : t) (data : value) (sp : pointer)
    (context : option string) : M unit :=
  for_each (fvalidators self) (fun validator =>
    if negb (String.eqb (validator_when validator) "pre-decode") then mret tt
    else if negb (in_always_or (PStr (validator_context validator)) context)
    then mret tt
    else validator_f validator data (Some sp)).

Definition validate_post_decode (self : t) (data : value)
    (sp : option pointer) (context : option string) : M unit :=
  for_each (fvalidators self) (fun validator =>
    if negb (String.eqb (validator_when validator) "post-decode") then mret tt
    else if negb (in_always_or (PStr (validator_context validator)) context)
    then mret tt
    else validator_f validator data sp).

End BaseField.

Module Link.

Record t : Type := Make {
  base : BaseField.t;
  normalize : bool;
  href : string;
  link_of : string
}.

(** The arguments of a call [Link(...)]: [href] may be given by position
    or by keyword, the other parameters by keyword only. *)
Record args : Type := Args {
  positional : list string;
  kw_href : option string;
  kw_link_of : option string;
  kw_name : option string;
  kw_fget : option getter;
  kw_normalize : option bool;
  kw_unexpected : list string
}.

(** [def __init__(self, href="", *, link_of="<resource>", name="",
    fget=None, normalize=True)].  Its first statement is
    [super().__init__(self, name=name, writable="never", fget=fget)]:
    the bound initializer of BaseField is handed [self] once more, as a
    positional argument. *)
Definition __init__ (a : args) : result t :=
  href ← match positional a, kw_href a with
         | [], None => Ok ""
         | [], Some h => Ok h
         | [h], None => Ok h
         | _, _ => Raise TypeError
         end;
  if negb (Nat.eqb (length (kw_unexpected a)) 0) then Raise TypeError
  else
    let link_of := default "<resource>" (kw_link_of a) in
    let name := default "" (kw_name a) in
    let normalize := default true (kw_normalize a) in
    base ← BaseField.__init__ 1
      (BaseField.Kwargs (Some name) None (Some "never") None (kw_fget a)
         None []);
    Ok {| base := base; normalize := normalize; href := href;
          link_of := link_of |}.

End Link.

Module LinksObjectMixin.

(** [self.links = {link.name: link for link in links}]; the default
    [links=None] is not iterable. *)
Definition __init__ (links : option (list Link.t))
  : result (list (string * Link.t)) :=
  match links with
  | None => Raise TypeError
  | Some links =>
      Ok (fold_left
            (fun d link => dict_set d (BaseField.name (Link.base link)) link)
            links [])
  end.

Definition add_link (links : list (string * Link.t)) (link : Link.t)
  : list (string * Link.t) :=
  dict_set links (BaseField.name (Link.base link)) link.

End LinksObjectMixin.

Module Relationship.

Record t : Type := Make {
  base : BaseField.t;
  links : list (string * Link.t);
  dereference : bool;
  foreign_types : gset string;
  finclude : option (value -> M (list value));
  fquery : option (value -> M value);
  require_data : string
}.

Record kwargs : Type := Kwargs {
  kw_dereference : option bool;
  kw_require_data : option string;
  kw_foreign_types : option (list string);
  kw_finclude : option (value -> M (list value));
  kw_fquery : option (value -> M value);
  kw_links : option (list Link.t);
  kargs : BaseField.kwargs
}.

(** The two getters the initializer gives the default links:
    [lambda schema, res: schema.api.relationship_uri(res)] and
    [lambda schema, res: schema.api.related_uri(res)].  The API class of
    [jsonapi/api.py] defines neither method. *)
Definition self_fget : getter :=
  fun res => raise (AttributeError "relationship_uri").
Definition related_fget : getter :=
  fun res => raise (AttributeError "related_uri").

(** [def __init__(self, *, dereference=True, require_data="always",
    foreign_types=None, finclude=None, fquery=None, links=None,
    **kargs)]. *)
Definition __init__ (positional : nat) (kw : kwargs) : result t :=
  if negb (Nat.eqb positional 0) then Raise TypeError
  else
    base ← BaseField.__init__ 0 (kargs kw);
    links ← LinksObjectMixin.__init__ (kw_links kw);
    let dereference := default true (kw_dereference kw) in
    let foreign_types : gset string :=
      list_to_set (default [] (kw_foreign_types kw)) in
    let require_data := default "always" (kw_require_data kw) in
    assert (str_in require_data
              ["never"; "always"; "oncreation"; "onupdate"]);;
    link ← Link.__init__
      (Link.Args ["self"] None None None (Some self_fget) None []);
    let links := LinksObjectMixin.add_link links link in
    link ← Link.__init__
      (Link.Args ["related"] None None None (Some related_fget) None []);
    let links := LinksObjectMixin.add_link links link in
    Ok {| base := base; links := links; dereference := dereference;
          foreign_types := foreign_types; finclude := kw_finclude kw;
          fquery := kw_fquery kw; require_data := require_data |}.

End Relationship.

(** ToOneRelationship defines no initializer of its own. *)
Module ToOneRelationship.

Definition __init__ (positional : nat) (kw : Relationship.kwargs)
  : result Relationship.t :=
  Relationship.__init__ positional kw.

End ToOneRelationship.

Module ToManyRelationship.

Record t : Type := Make {
  relationship : Relationship.t;
  fadd : option setter;
  fremove : option setter;
  pagination : option nat
}.

Record kwargs : Type := Kwargs {
  kw_fadd : option setter;
  kw_fremove : option setter;
  kw_pagination : option nat;
  kargs : Relationship.kwargs
}.

(** [def __init__(self, *, fadd=None, fremove=None, pagination=None,
    **kargs)]. *)
Definition __init__ (positional : nat) (kw : kwargs) : result t :=
  if negb (Nat.eqb positional 0) then Raise TypeError
  else
    relationship ← Relationship.__init__ 0 (kargs kw);
    Ok {| relationship := relationship; fadd := kw_fadd kw;
          fremove := kw_fremove kw; pagination := kw_pagination kw |}.

End ToManyRelationship.

Module Attribute.

Record t : Type := Make {
  base : BaseField.t;
  meta : bool
}.

Record kwargs : Type := Kwargs {
  kw_meta : option bool;
  kargs : BaseField.kwargs
}.

Definition no_kwargs : kwargs := Kwargs None BaseField.no_kwargs.

(** [def __init__(self, *, meta=False, **kargs)]. *)
Definition __init__ (positional : nat) (kw : kwargs) : result t :=
  if negb (Nat.eqb positional 0) then Raise TypeError
  else
    base ← BaseField.__init__ 0 (kargs kw);
    Ok {| base := base; meta := default false (kw_meta kw) |}.

End Attribute.

(** A field as the schema uses it: the attributes every field has, and the
    methods its class gives it, bound to the field. *)
Module Field.

Record t : Type := Make {
  base : BaseField.t;
  validate_pre_decode : value -> pointer -> option string -> M unit;
  decode : value -> option pointer -> M value;
  encode : value -> M value
}.

Definition name (f : t) : string := BaseField.name (base f).
Definition key (f : t) : option string := BaseField.key (base f).
Definition mapped_key (f : t) : string := BaseField.mapped_key (base f).
Definition writable (f : t) : policy := BaseField.writable (base f).
Definition required (f : t) : string := BaseField.required (base f).

Definition get (f : t) : value -> M value := BaseField.get (base f).
Definition set (f : t) : value -> value -> option pointer -> M unit :=
  BaseField.set (base f).
Definition validate_post_decode (f : t)
  : value -> option pointer -> option string -> M unit :=
  BaseField.validate_post_decode (base f).

End Field.

Definition Attribute_as_field (self : Attribute.t) : Field.t :=
  let base := Attribute.base self in
  Field.Make base (BaseField.validate_pre_decode base)
    (BaseField.decode base) (BaseField.encode base).

(** ** Built-in functions the field catalog calls *)

Definition chars (s : string) : list ascii := list_ascii_of_string s.

(** [l] starts with [p]. *)
Fixpoint starts_with (p l : list ascii) : bool :=
  match p, l with
  | [], _ => true
  | c :: p', d :: l' => Ascii.eqb c d && starts_with p' l'
  | _ :: _, [] => false
  end.

(** [s.replace(old, "")]: the occurrences of [old] are removed, scanning
    from the left; [skip] counts the characters of the current occurrence
    still to drop. *)
Fixpoint remove_from (old : list ascii) (skip : nat) (l : list ascii)
  : list ascii :=
  match l with
  | [] => []
  | c :: l' =>
      match skip with
      | S k => remove_from old k l'
      | O =>
          if starts_with old l
          then remove_from old (Nat.pred (length old)) l'
          else c :: remove_from old O l'
      end
  end.

Definition str_remove (old : string) (l : list ascii) : list ascii :=
  remove_from (chars old) O l.

(** [s.strip(cs)]. *)
Fixpoint lstrip (p : ascii -> bool) (l : list ascii) : list ascii :=
  match l with
  | [] => []
  | c :: l' => if p c then lstrip p l' else l
  end.

Definition strip (p : ascii -> bool) (l : list ascii) : list ascii :=
  rev (lstrip p (rev (lstrip p l))).

Definition is_brace (c : ascii) : bool :=
  Ascii.eqb c "{"%char || Ascii.eqb c "}"%char.

(** The characters [int] skips around a literal: the blanks of ASCII, and
    U+0085 and U+00A0.  A character is its code point, below 256. *)
Definition is_space (c : ascii) : bool :=
  let n := nat_of_ascii c in
  ((9 <=? n) && (n <=? 13) || (n =? 32) || (n =? 133) || (n =? 160))%nat.



(** The value of a digit in [int(s, base)]. *)
Definition digit_val (c : ascii) : option Z :=
  let n := Z.of_nat (nat_of_ascii c) in
  if (48 <=? n) && (n <=? 57) then Some (n - 48)
  else if (97 <=? n) && (n <=? 122) then Some (n - 87)
  else if (65 <=? n) && (n <=? 90) then Some (n - 55)
  else None.

(** The digits of an integer literal: at least one digit, and single
    underscores between digits only. *)
Fixpoint digits (base : Z) (after_digit : bool) (acc : Z) (l : list ascii)
  : option Z :=
  match l with
  | [] => if after_digit then Some acc else None
  | c :: l' =>
      if Ascii.eqb c "_"%char
      then (if after_digit then digits base false acc l' else None)
      else
        match digit_val c with
        | Some d => if d <? base then digits base true (acc * base + d) l'
                    else None
        | None => None
        end
  end.

(** [int(s, base)] for base 10 or 16 on a str: blanks around the literal,
    an optional sign, for base 16 an optional [0x] or [0X] which one
    underscore may follow, then the digits.  None stands for ValueError. *)
Definition int_of_str (base : Z) (s : string) : option Z :=
  let l := strip is_space (chars s) in
  let '(negative, l) :=
    match l with
    | c :: l' =>
        if Ascii.eqb c "-"%char then (true, l')
        else if Ascii.eqb c "+"%char then (false, l')
        else (false, l)
    | [] => (false, l)
    end in
  let l :=
    match l with
    | c0 :: c1 :: l' =>
        if (base =? 16) && Ascii.eqb c0 "0"%char
           && (Ascii.eqb c1 "x"%char || Ascii.eqb c1 "X"%char)
        then match l' with
             | c2 :: l'' => if Ascii.eqb c2 "_"%char then l'' else l'
             | [] => l'
             end
        else l
    | _ => l
    end in
  match digits base false 0 l with
  | Some n => Some (signed negative n)
  | None => None
  end.

(** [int(x)]. *)
Definition py_int (x : value) : result Z :=
  match x with
  | VBool b => Ok (if b then 1 else 0)
  | VInt z => Ok z
  | VFloat f =>
      match float_number f with
      | NRat n d => Ok (Z.quot n (Zpos d))
      | NInf _ => Raise OverflowError
      | NNan => Raise ValueError
      end
  | VStr s =>
      match int_of_str 10 s with
      | Some z => Ok z
      | None => Raise ValueError
      end
  | VUUID n => Ok n
  | VFraction n d => Ok (Z.quot n (Zpos d))
  | VNone | VList _ | VDict _ | VObj _ | VComplex _ _ | VTimeDelta _ =>
      Raise TypeError
  end.

(** The int a value stands for when it is an int (a bool is one) or a
    float with [is_integer()]. *)
Definition integral (x : value) : option Z :=
  match x with
  | VBool b => Some (if b then 1 else 0)
  | VInt z => Some z
  | VFloat f =>
      match float_number f with
      | NRat n d => if n mod Zpos d =? 0 then Some (n / Zpos d) else None
      | _ => None
      end
  | _ => None
  end.

(** ['%032x' % n] and its digits, most significant first. *)
Definition hex_char (d : Z) : ascii :=
  ascii_of_nat (Z.to_nat (if d <? 10 then d + 48 else d + 87)).

Fixpoint hex_digits (k : nat) (n : Z) : list ascii :=
  match k with
  | O => []
  | S k' => hex_digits k' (n / 16) ++ [hex_char (n mod 16)]
  end.

(** [uuid.UUID(hex=s).int]. *)
Definition uuid_of_hex (s : string) : result Z :=
  let hex := str_remove "uuid:" (str_remove "urn:" (chars s)) in
  let hex := str_remove "-" (strip is_brace hex) in
  if negb (Nat.eqb (length hex) 32) then Raise ValueError
  else
    match int_of_str 16 (string_of_list_ascii hex) with
    | None => Raise ValueError
    | Some n =>
        if (0 <=? n) && (n <? 2 ^ 128) then Ok n else Raise ValueError
    end.

(** [uuid.UUID.version]: the version number of an RFC 4122 UUID, else
    None. *)
Definition uuid_version (n : Z) : option Z :=
  if Z.testbit n 63 && negb (Z.testbit n 62)
  then Some (Z.land (Z.shiftr n 76) 15)
  else None.

(** [uuid.UUID.hex]. *)
Definition uuid_hex (n : Z) : string :=
  string_of_list_ascii (hex_digits 32 n).

(** ** jsonapi/schema/fields.py *)

(** The class [String] (alias [Str]).  The regular expressions of [re] are
    a parameter: [re_compile] is [re.compile] on a str, [re_fullmatch]
    tells whether [pattern.fullmatch] finds a match.  [str_other] is
    [str(x)] for the values that are not a str, None or a bool. *)
Module Str.
Section Str.

Context {pattern : Type}.
Variable re_compile : string -> result pattern.
Variable re_fullmatch : pattern -> string -> bool.
Variable str_other : value -> string.

Record t : Type := Make {
  attribute : Attribute.t;
  regex : option pattern
}.

Record kwargs : Type := Kwargs {
  kw_regex : option string;
  kargs : Attribute.kwargs
}.

(** [def __init__(self, *, regex=None, **kargs)], whose last statement
    is [self.regex = re.compile(regex)]; [re.compile(None)] is a
    TypeError. *)
Definition __init__ (positional : nat) (kw : kwargs) : result t :=
  if negb (Nat.eqb positional 0) then Raise TypeError
  else
    attribute ← Attribute.__init__ 0 (kargs kw);
    regex ← match kw_regex kw with
            | None => Raise TypeError
            | Some r => re_compile r
            end;
    Ok {| attribute := attribute; regex := Some regex |}.

Definition validate_pre_decode (self : t) (data : value) (sp : pointer)
    (context : option string) : M unit :=
  match data with
  | VStr s =>
      if match regex self with
         | Some r => re_fullmatch r s
         | None => false
         end
      then raise (InvalidValue (Lit "Did not match regex.") (Some sp))
      else BaseField.validate_pre_decode
             (Attribute.base (attribute self)) data sp context
  | _ => raise (InvalidType (Lit "Must be a string.") (Some sp))
  end.

(** [str(data)]. *)
Definition py_str (data : value) : string :=
  match data with
  | VStr s => s
  | VNone => "None"
  | VBool b => if b then "True" else "False"
  | _ => str_other data
  end.

Definition encode (self : t) (data : value) : M value :=
  mret (VStr (py_str data)).

Definition decode (self : t) (data : value) (sp : option pointer)
  : M value :=
  BaseField.decode (Attribute.base (attribute self)) data sp.

Definition as_field (self : t) : Field.t :=
  Field.Make (Attribute.base (attribute self))
    (validate_pre_decode self) (decode self) (encode self).

End Str.
End Str.

Module Integer.

Record t : Type := Make {
  attribute : Attribute.t;
  min : option Z;
  max : option Z
}.

Record kwargs : Type := Kwargs {
  kw_min : option Z;
  kw_max : option Z;
  kargs : Attribute.kwargs
}.

(** [def __init__(self, *, min=None, max=None, **kargs)]. *)
Definition __init__ (positional : nat) (kw : kwargs) : result t :=
  if negb (Nat.eqb positional 0) then Raise TypeError
  else
    attribute ← Attribute.__init__ 0 (kargs kw);
    assert (match kw_min kw, kw_max kw with
            | Some lo, Some hi => lo <=? hi
            | _, _ => true
            end);;
    Ok {| attribute := attribute; min := kw_min kw; max := kw_max kw |}.

Definition validate_pre_decode (self : t) (data : value) (sp : pointer)
    (context : option string) : M unit :=
  match integral data with
  | None => raise (InvalidType (Lit "Must be an integer.") (Some sp))
  | Some z =>
      let check_max :=
        match max self with
        | Some hi =>
            if hi <? z
            then raise (InvalidValue (Format "Must be <= {}." [VInt hi])
                          (Some sp))
            else BaseField.validate_pre_decode
                   (Attribute.base (attribute self)) data sp context
        | None =>
            BaseField.validate_pre_decode
              (Attribute.base (attribute self)) data sp context
        end in
      match min self with
      | Some lo =>
          if lo >? z
          then raise (InvalidValue (Format "Must be >= {}." [VInt lo])
                        (Some sp))
          else check_max
      | None => check_max
      end
  end.

Definition decode (self : t) (data : value) (sp : option pointer)
  : M value :=
  z ← lift (py_int data); mret (VInt z).

Definition encode (self : t) (data : value) : M value :=
  z ← lift (py_int data); mret (VInt z).

Definition as_field (self : t) : Field.t :=
  Field.Make (Attribute.base (attribute self))
    (validate_pre_decode self) (decode self) (encode self).

End Integer.

Module Boolean.

(** Boolean has the initializer of Attribute. *)
Definition validate_pre_decode (self : Attribute.t) (data : value)
    (sp : pointer) (context : option string) : M unit :=
  match data with
  | VBool _ =>
      BaseField.validate_pre_decode (Attribute.base self) data sp context
  | _ => raise (InvalidType (Lit "Must be either 'true' or 'false'.")
                  (Some sp))
  end.

Definition encode (self : Attribute.t) (data : value) : M value :=
  mret (VBool (truthy data)).

Definition decode (self : Attribute.t) (data : value) (sp : option pointer)
  : M value :=
  BaseField.decode (Attribute.base self) data sp.

Definition as_field (self : Attribute.t) : Field.t :=
  Field.Make (Attribute.base self)
    (validate_pre_decode self) (decode self) (encode self).

End Boolean.

Module UUID.

Record t : Type := Make {
  attribute : Attribute.t;
  version : option Z
}.

Record kwargs : Type := Kwargs {
  kw_version : option Z;
  kargs : Attribute.kwargs
}.

(** [def __init__(self, *, version=None, **kargs)]. *)
Definition __init__ (positional : nat) (kw : kwargs) : result t :=
  if negb (Nat.eqb positional 0) then Raise TypeError
  else
    attribute ← Attribute.__init__ 0 (kargs kw);
    Ok {| attribute := attribute; version := kw_version kw |}.

Definition validate_pre_decode (self : t) (data : value) (sp : pointer)
    (context : option string) : M unit :=
  match data with
  | VStr s =>
      match uuid_of_hex s with
      | Raise ValueError =>
          raise (InvalidValue
                   (Lit "The UUID is badly formed (the representation as hexadecimal string is needed).")
                   (Some sp))
      | Raise e => raise e
      | Ok n =>
          match version self with
          | Some v =>
              if match uuid_version n with
                 | Some dv => negb (v =? dv)
                 | None => true
                 end
              then raise (InvalidValue (Format "Not a UUID{}." [VInt v])
                            (Some sp))
              else BaseField.validate_pre_decode
                     (Attribute.base (attribute self)) data sp context
          | None =>
              BaseField.validate_pre_decode
                (Attribute.base (attribute self)) data sp context
          end
      end
  | _ => raise (InvalidType (Lit "The UUID must be a hexadecimal string.")
                  (Some sp))
  end.

(** [uuid.UUID(hex=data)]: with None no argument is given; a value that
    is not a str has no [replace]. *)
Definition decode (self : t) (data : value) (sp : option pointer)
  : M value :=
  match data with
  | VStr s => n ← lift (uuid_of_hex s); mret (VUUID n)
  | VNone => raise TypeError
  | _ => raise (AttributeError "replace")
  end.

(** [data.hex], a property of a UUID.  (For a float the attribute is a
    method, which is no value of this embedding: the embedding raises for
    it as for the values that have no such attribute.) *)
Definition encode (self : t) (data : value) : M value :=
  match data with
  | VUUID n => mret (VStr (uuid_hex n))
  | _ => raise (AttributeError "hex")
  end.

Definition as_field (self : t) : Field.t :=
  Field.Make (Attribute.base (attribute self))
    (validate_pre_decode self) (decode self) (encode self).

End UUID.

(** The class [EMail]; [EMAIL_RE_fullmatch] tells whether
      [EMail.EMAIL_RE.fullmatch] finds a match. *)
Module EMail.
Section EMail.

Variable EMAIL_RE_fullmatch : string -> bool.

Definition validate_pre_decode (self : Attribute.t) (data : value)
    (sp : pointer) (context : option string) : M unit :=
  match data with
  | VStr s =>
      if negb (EMAIL_RE_fullmatch s)
      then raise (InvalidValue (Lit "Not a valid EMail address.") (Some sp))
      else BaseField.validate_pre_decode (Attribute.base self) data sp context
  | _ => raise (InvalidType (Lit "Must be a string.") (Some sp))
  end.

Definition as_field (self : Attribute.t) : Field.t :=
  Field.Make (Attribute.base self) (validate_pre_decode self)
    (BaseField.decode (Attribute.base self))
    (BaseField.encode (Attribute.base self)).

End EMail.
End EMail.

Module Fraction.

(** [data[i]] for an int [i]: the keys of a JSON object are strs, so a
    dict has no key [i]. *)
Definition subscript (data : value) (i : nat) : result value :=
  match data with
  | VDict _ => Raise (KeyError (VInt (Z.of_nat i)))
  | VList l =>
      match nth_error l i with
      | Some x => Ok x
      | None => Raise IndexError
      end
  | VStr s =>
      match nth_error (chars s) i with
      | Some c => Ok (VStr (String c EmptyString))
      | None => Raise IndexError
      end
  | _ => Raise TypeError
  end.

(** [fractions.Fraction(n, d)] for ints: in lowest terms, with a
    positive denominator. *)
Definition make (n d : Z) : result value :=
  if d =? 0 then Raise ZeroDivisionError
  else
    let g := Z.gcd n d in
    let s := if d <? 0 then -1 else 1 in
    Ok (VFraction (s * (n / g)) (Z.to_pos (s * (d / g)))).

(** [return fractions.Fraction(int(data[0]), int(data[1]))]. *)
Definition decode (data : value) (sp : option pointer) : M value :=
  x0 ← lift (subscript data 0);
  n ← lift (py_int x0);
  x1 ← lift (subscript data 1);
  d ← lift (py_int x1);
  lift (make n d).

(** [return {"numerator": data.numerator, "denominator":
    data.denominator}]; ints have these attributes too. *)
Definition encode (data : value) : M value :=
  match data with
  | VFraction n d =>
      mret (VDict [("numerator", VInt n); ("denominator", VInt (Zpos d))])
  | VInt z =>
      mret (VDict [("numerator", VInt z); ("denominator", VInt 1)])
  | VBool b =>
      mret (VDict [("numerator", VInt (if b then 1 else 0));
                   ("denominator", VInt 1)])
  | _ => raise (AttributeError "numerator")
  end.

End Fraction.

(** ** Module namespaces *)

(** A name that a function reads without binding it is looked up, when
    the statement runs, among the names the module binds at its top
    level; a name that is not there is a NameError. *)
Definition global_name (globals : list string) (name : string) : result unit :=
  if str_in name globals then Ok tt else Raise (NameError name).

(** The names [jsonapi/schema/schema.py] binds: its imports, [logger] and
    its two classes. *)
Definition schema_py : list string :=
  ["__all__"; "copy"; "collections"; "contextlib"; "logging";
   "cached_property"; "ensure_pointer"; "BaseField"; "LinksObjectMixin";
   "Link"; "Attribute"; "Relationship"; "ValidationError"; "InvalidValue";
   "InvalidType"; "Conflict"; "logger"; "SchemaMeta"; "Schema"].

(** ** jsonapi/schema/schema.py *)

(** A resource class: its name and its constructor, called with keyword
    arguments. *)
Record resource_class_t : Type := ResourceClass {
  rc_name : string;
  rc_new : list (string * value) -> M value
}.

(** [isinstance(resource, cls)]; None is not a class. *)
Definition isinstance (resource : value) (cls : option resource_class_t)
  : M bool :=
  match cls with
  | None => raise TypeError
  | Some c =>
      fun w =>
        (Ok match resource with
            | VObj a =>
                match w !! a with
                | Some i => String.eqb (inst_class i) (rc_name c)
                | None => false
                end
            | _ => false
            end, w)
  end.

(** [data is b] for a bool [b]. *)
Definition is_bool (data : value) (b : bool) : bool :=
  match data with
  | VBool b' => Bool.eqb b' b
  | _ => false
  end.

Definition is_some {A : Type} (o : option A) : bool :=
  match o with Some _ => true | None => false end.

(** The ordered dict [decode_resource] returns: key, decoded data and
    source pointer. *)
Definition memo_t : Type := list (string * (value * option pointer)).

Module Schema.

(** A schema instance.  [_japi_attributes], [_japi_relationships],
    [_japi_meta] and [_fields_by_key] are the dicts the metaclass builds,
    in the order of their items.  [_japi_id] and [_field_by_key] are
    attributes the methods read but neither the metaclass nor the class
    assigns: they are None here unless a subclass defines them.
    [context_crud] is [self.context.get("crud")]; [query_resource] is
    the method of that name, which subclasses override.  The instance is
    taken as it is: how it came to be is not part of the embedding. *)
Record t : Type := Make {
  type : string;
  resource_class : option resource_class_t;
  _japi_id : option Field.t;
  _japi_attributes : list (string * Field.t);
  _japi_relationships : list (string * Field.t);
  _japi_meta : list (string * Field.t);
  _fields_by_key : list (string * Field.t);
  _field_by_key : option (list (string * Field.t));
  context_crud : option string;
  query_resource : value -> M value
}.

(** The [query_resource] of the base class. *)
Definition default_query_resource (id_ : value) : M value :=
  raise NotImplementedError.

Definition attribute {A : Type} (name : string) (a : option A) : M A :=
  match a with
  | Some x => mret x
  | None => raise (AttributeError name)
  end.

Definition id (self : t) (resource : value) : M value :=
  japi_id ← attribute "_japi_id" (_japi_id self);
  data ← Field.get japi_id resource;
  Field.encode japi_id data.

Definition _validate_field_pre_decode (self : t) (field : Field.t)
    (data : value) (sp : option pointer) (context : option string)
  : M unit :=
  let context := context_or context (context_crud self) in
  let writable := in_always_or (Field.writable field) context in
  if negb writable && is_some sp
  then raise (ValidationError (Lit "The field '{}' is readonly.") sp)
  else
    let required := in_always_or (PStr (Field.required field)) context in
    if required && is_bool data (is_some sp)
    then raise (InvalidValue (Lit "The field '{}' is required.") sp)
    else
      match sp with
      | Some p => Field.validate_pre_decode field data p context
      | None => mret tt
      end.

(** The loop over one of the three field partitions, in
    [validate_resource_pre_decode]. *)
Definition validate_members (self : t) (fields : list (string * Field.t))
    (members : list (string * value)) (members_sp : pointer) : M unit :=
  for_each (map snd fields) (fun field =>
    let field_sp :=
      if dict_in (Field.name field) members
      then Some (members_sp // Field.name field)
      else None in
    let field_data := default VNone (dict_get members (Field.name field)) in
    _validate_field_pre_decode self field field_data field_sp None).

(** [def validate_resource_pre_decode(self, data, sp, context=None, *,
    expected_id="")]. *)
Definition validate_resource_pre_decode (self : t) (data : value)
    (sp : pointer) (context : option string) (expected_id : value)
  : M unit :=
  let context := context_or context (context_crud self) in
  match data with
  | VDict d =>
      (* JSON API id *)
      if (truthy expected_id
          || match context with
             | Some c => String.eqb c "update"
             | None => false
             end)
         && negb (dict_in "id" d)
      then raise (InvalidValue (Lit "The 'id' member is missing.")
                    (Some (sp // "id")))
      else
        (if truthy expected_id
         then
           id ← lift match dict_get d "id" with
                     | Some v => Ok v
                     | None => Raise (KeyError (VStr "id"))
                     end;
           if negb (py_eq id expected_id)
           then raise (Conflict
                         (Format "The id '{}' does not match the endpoint ('{}')."
                            [id; expected_id])
                         (Some (sp // "id")))
           else mret tt
         else mret tt);;
        japi_id ← attribute "_japi_id" (_japi_id self);
        id ← lift match dict_get d "id" with
                  | Some v => Ok v
                  | None => Raise (KeyError (VStr "id"))
                  end;
        _validate_field_pre_decode self japi_id id (Some (sp // "id")) None;;
        (* JSON API attributes object *)
        let attrs := default (VDict []) (dict_get d "attributes") in
        let attrs_sp := sp // "attributes" in
        match attrs with
        | VDict attrs =>
            validate_members self (_japi_attributes self) attrs attrs_sp
        | _ => raise (InvalidType (Lit "Must be an object.") (Some attrs_sp))
        end;;
        (* JSON API relationships object *)
        let rels := default (VDict []) (dict_get d "relationships") in
        let rels_sp := sp // "relationships" in
        match rels with
        | VDict rels =>
            validate_members self (_japi_relationships self) rels rels_sp
        | _ => raise (InvalidType (Lit "Must be an object.") (Some rels_sp))
        end;;
        (* JSON API meta object *)
        let meta := default (VDict []) (dict_get d "meta") in
        let meta_sp := sp // "meta" in
        match meta with
        | VDict meta =>
            validate_members self (_japi_meta self) meta meta_sp
        | _ => raise (InvalidType (Lit "Must be an object.") (Some meta_sp))
        end
  | _ => raise (InvalidType (Lit "Must be an object.") (Some sp))
  end.

(** [def _decode_field(self, field, data, sp, *, memo=None,
    kargs=None)]: [memo] is keyword-only, so a call with [positional]
    arguments after [sp] is a TypeError.  The memo, which the source
    updates in place, is returned with the decoded data. *)
Definition _decode_field (self : t) (field : Field.t) (data : value)
    (sp : option pointer) (positional : nat) (memo : option memo_t)
  : M (value * option memo_t) :=
  if negb (Nat.eqb positional 0) then raise TypeError
  else
    d ← Field.decode field data sp;
    match memo, Field.key field with
    | Some memo, Some key =>
        if negb (String.eqb key "")
        then mret (d, Some (dict_set memo key (d, sp)))
        else mret (d, Some memo)
    | _, _ => mret (d, memo)
    end.

(** The loop over one of the three field partitions, in
    [decode_resource]; it calls
    [self._decode_field(field, field_data, field_sp, memo)]. *)
Definition decode_members (self : t) (fields : list (string * Field.t))
    (members : value) (members_sp : pointer) (memo : memo_t) : M memo_t :=
  for_fold (map snd fields) memo (fun memo field =>
    match members with
    | VDict members =>
        let field_sp :=
          if dict_in (Field.name field) members
          then Some (members_sp // Field.name field)
          else None in
        let field_data :=
          default VNone (dict_get members (Field.name field)) in
        _decode_field self field field_data field_sp 1 None;;
        mret memo
    | VList _ | VStr _ => raise (AttributeError "get")
    | _ => raise TypeError
    end).

(** [globals] are the names bound in the module when the method runs. *)
Definition decode_resource (globals : list string) (self : t)
    (data : value) (sp : pointer) : M memo_t :=
  lift (global_name globals "OrderedDict");;
  let memo : memo_t := [] in
  match data with
  | VDict d =>
      (* JSON API attributes object *)
      let attrs := default (VDict []) (dict_get d "attributes") in
      let attrs_sp := sp // "attributes" in
      memo ← decode_members self (_japi_attributes self) attrs attrs_sp memo;
      (* JSON API relationships object *)
      let rels := default (VDict []) (dict_get d "relationships") in
      let rels_sp := sp // "relationships" in
      memo ← decode_members self (_japi_relationships self) rels rels_sp memo;
      (* JSON API meta object *)
      let meta := default (VDict []) (dict_get d "meta") in
      let meta_sp := sp // "meta" in
      decode_members self (_japi_meta self) meta meta_sp memo
  | _ => raise (AttributeError "get")
  end.

Definition validate_resource_post_decode (self : t) (memo : memo_t)
    (context : option string) : M unit :=
  let context := context_or context (context_crud self) in
  for_each memo (fun '(key, (data, sp)) =>
    field_by_key ← attribute "_field_by_key" (_field_by_key self);
    field ← lift match dict_get field_by_key key with
                 | Some f => Ok f
                 | None => Raise (KeyError (VStr key))
                 end;
    Field.validate_post_decode field data sp context).

Definition create_resource (globals : list string) (self : t)
    (data : value) (sp : pointer) : M value :=
  validate_resource_pre_decode self data sp (Some "create") (VStr "");;
  memo ← decode_resource globals self data sp;
  validate_resource_post_decode self memo (Some "create");;
  (* Map the property names on the resource instance to its initial
     data. *)
  init ← for_fold memo [] (fun init '(key, (data, sp)) =>
    field ← lift match dict_get (_fields_by_key self) key with
                 | Some f => Ok f
                 | None => Raise (KeyError (VStr key))
                 end;
    mret (dict_set init (Field.mapped_key field) data));
  init ← match data with
         | VDict d =>
             match dict_get d "id" with
             | Some id => mret (dict_set init "id" id)
             | None => mret init
             end
         | _ => raise TypeError
         end;
  (* Create a new object by calling the constructor. *)
  match resource_class self with
  | Some c => rc_new c init
  | None => raise TypeError
  end.

Definition update_resource (globals : list string) (self : t)
    (resource data : value) (sp : pointer) : M unit :=
  is_instance ← isinstance resource (resource_class self);
  resource_id ← (if is_instance : bool then id self resource
                 else mret resource);
  validate_resource_pre_decode self data sp (Some "update") resource_id;;
  memo ← decode_resource globals self data sp;
  validate_resource_post_decode self memo (Some "update");;
  is_instance ← isinstance resource (resource_class self);
  resource ← (if is_instance : bool then mret resource
              else query_resource self resource);
  for_each memo (fun '(key, (data, sp)) =>
    field ← lift match dict_get (_fields_by_key self) key with
                 | Some f => Ok f
                 | None => Raise (KeyError (VStr key))
                 end;
    Field.set field resource data sp).

Definition delete_resource (self : t) (resource : value) : M unit :=
  raise NotImplementedError.

End Schema.

(** ** jsonapi/api.py *)

Module API.

(** What the resolver is handed as a resource: an instance of a resource
    class, a tuple, or a dict.  The items of tuples and dicts are strs
    (so [str(x)] leaves them as they are). *)
Inductive obj : Type :=
| Inst (addr : nat) (cls : string)
| Tuple (items : list string)
| Dict (items : list (string * string)).

(** The keys of the two dicts of the resolver: an instance is hashed by
    identity, a tuple (an identifier [jsonapi_id_tuple(type, id)] is one)
    by its items. *)
Definition key : Type := (nat + list string)%type.

Definition identifier (type id : string) : key := inr [type; id].

(** [hash(o)], as a dict needs it for a key; a dict is unhashable. *)
Definition hashable (o : obj) : result key :=
  match o with
  | Inst a _ => Ok (inl a)
  | Tuple items => Ok (inr items)
  | Dict _ => Raise TypeError
  end.

(** The methods of a schema the resolver calls. *)
Record schema : Type := Schema {
  type : string;
  id : obj -> result string;
  fetch_include : obj -> string -> result (list obj)
}.

Record t : Type := Make {
  _schema_by_type : gmap string schema;
  _schema_by_resource_class : gmap string schema
}.

(** The module namespace, as far as the methods below read it.  They
    read four names they do not bind themselves, [collections],
    [resource], [resources] and [path]; Python looks such a name up
    among the names bound in the module when the statement runs, and
    raises NameError when it is not there.  A namespace tells whether
    [collections] is bound (to the standard module) and what the other
    three are bound to, if at all. *)
Record namespace : Type := Namespace {
  collections : bool;
  resource : option obj;
  resources : option (list obj);
  path : option (list string)
}.

(** [jsonapi/api.py] binds, at its top level, [defaultdict], [Sequence],
    [json], [logging], [threading], [bson], [version], [NotFound],
    [Error], [ErrorList], [error_to_response], [response_builder],
    [Router], [jsonapi_id_tuple], [Symbol], [__all__], [LOG],
    [ARG_DEFAULT] and [API]: none of the four. *)
Definition api_py : namespace := Namespace false None None None.

Definition global {A : Type} (name : string) (binding : option A)
  : result A :=
  match binding with
  | Some x => Ok x
  | None => Raise (NameError name)
  end.

(** [get_schema(o)] for a resource [o], without [default]: the three
    lookups, then KeyError.  No typename and no class is equal to a
    resource, so only the lookup of [type(o)] can succeed. *)
Definition get_schema (self : t) (o : obj) : result schema :=
  hashable o;;
  match o with
  | Inst _ cls =>
      match _schema_by_resource_class self !! cls with
      | Some schema => Ok schema
      | None => Raise (KeyError VNone)
      end
  | _ => Raise (KeyError VNone)
  end.

(** [ensure_identifier(obj)]; its first test reads
    [collections.Sequence]. *)
Definition ensure_identifier (globals : namespace) (self : t) (o : obj)
  : result key :=
  global "collections" (if collections globals then Some tt else None);;
  match o with
  | Tuple items =>
      assert (Nat.eqb (length items) 2);;
      match items with
      | [type; id] => Ok (identifier type id)
      | _ => Raise IndexError
      end
  | Dict d =>
      type ← match dict_get d "type" with
             | Some x => Ok x
             | None => Raise (KeyError (VStr "type"))
             end;
      id ← match dict_get d "id" with
           | Some x => Ok x
           | None => Raise (KeyError (VStr "id"))
           end;
      Ok (identifier type id)
  | Inst _ _ =>
      schema ← get_schema self o;
      id ← id schema o;
      Ok (identifier (type schema) id)
  end.

(** The two dicts of a resolution: [included_resources] and
    [included_relationships], a [defaultdict(set)]. *)
Record included : Type := Included {
  included_resources : gmap key obj;
  included_relationships : gmap key (gset string)
}.

(** [included_relationships[k]]: a missing key is inserted with an empty
    set. *)
Definition relationships_of (k : key) : ST included (gset string) :=
  fun s =>
    match included_relationships s !! k with
    | Some names => (Ok names, s)
    | None =>
        (Ok ∅, Included (included_resources s)
                 (<[k := ∅]> (included_relationships s)))
    end.

(** [included_resources[relative_id] = relative] and
    [included_relationships[relative_id].add(relname)]. *)
Definition record_relative (relative_id : key) (relative : obj)
    (relname : string) : ST included unit :=
  fun s =>
    (Ok tt,
     Included (<[relative_id := relative]> (included_resources s))
       (<[relative_id :=
            {[relname]} ∪ default ∅ (included_relationships s !! relative_id)]>
          (included_relationships s))).

(** [def _include(self, parent, path, included_resources,
    included_relationships)].  The function binds [parent] and reads
    [resource]. *)
Fixpoint _include (globals : namespace) (self : t) (parent : obj)
    (path : list string) {struct path} : ST included unit :=
  match path with
  | [] => mret tt
  | relname :: path =>
      k ← lift (hashable parent);
      names ← relationships_of k;
      if bool_decide (relname ∈ names) then mret tt
      else
        resource ← lift (global "resource" (resource globals));
        schema ← lift (get_schema self resource);
        relatives ← lift (fetch_include schema resource relname);
        for_each relatives (fun relative =>
          relative_id ← lift (ensure_identifier globals self relative);
          record_relative relative_id relative relname;;
          _include globals self relative path)
  end.

(** [def include(self, primary, paths)].  The function binds [primary]
    and [paths] and reads [resources] and [path]. *)
Definition include (globals : namespace) (self : t) (primary : list obj)
    (paths : list (list string))
  : result (gmap key obj * gmap key (gset string)) :=
  let run : ST included unit :=
    resources ← lift (global "resources" (resources globals));
    for_each resources (fun resource =>
      path ← lift (global "path" (path globals));
      _include globals self resource path) in
  match run (Included ∅ ∅) with
  | (Ok _, s) => Ok (included_resources s, included_relationships s)
  | (Raise e, _) => Raise e
  end.

End API.

(** ** Schema definitions *)

(** The body of a schema class is a sequence of assignments
    [key = Class(...)], run in order when the class statement runs; the
    metaclass gets the class only if every call returns. *)
Module ClassBody.
Section ClassBody.

Context {pattern : Type}.
Variable re_compile : string -> result pattern.

Inductive call : Type :=
| CallAttribute (positional : nat) (kw : Attribute.kwargs)
| CallString (positional : nat) (kw : Str.kwargs)
| CallInteger (positional : nat) (kw : Integer.kwargs)
| CallBoolean (positional : nat) (kw : Attribute.kwargs)
| CallUUID (positional : nat) (kw : UUID.kwargs)
| CallEMail (positional : nat) (kw : Attribute.kwargs)
| CallLink (a : Link.args)
| CallToOneRelationship (positional : nat) (kw : Relationship.kwargs)
| CallToManyRelationship (positional : nat) (kw : ToManyRelationship.kwargs).

Inductive object : Type :=
| AnAttribute (f : Attribute.t)
| AString (f : @Str.t pattern)
| AnInteger (f : Integer.t)
| ABoolean (f : Attribute.t)
| AUUID (f : UUID.t)
| AnEMail (f : Attribute.t)
| ALink (f : Link.t)
| AToOneRelationship (f : Relationship.t)
| AToManyRelationship (f : ToManyRelationship.t).

Definition eval (c : call) : result object :=
  match c with
  | CallAttribute p kw => f ← Attribute.__init__ p kw; Ok (AnAttribute f)
  | CallString p kw => f ← Str.__init__ re_compile p kw; Ok (AString f)
  | CallInteger p kw => f ← Integer.__init__ p kw; Ok (AnInteger f)
  | CallBoolean p kw => f ← Attribute.__init__ p kw; Ok (ABoolean f)
  | CallUUID p kw => f ← UUID.__init__ p kw; Ok (AUUID f)
  | CallEMail p kw => f ← Attribute.__init__ p kw; Ok (AnEMail f)
  | CallLink a => f ← Link.__init__ a; Ok (ALink f)
  | CallToOneRelationship p kw =>
      f ← ToOneRelationship.__init__ p kw; Ok (AToOneRelationship f)
  | CallToManyRelationship p kw =>
      f ← ToManyRelationship.__init__ p kw; Ok (AToManyRelationship f)
  end.

Fixpoint run (body : list (string * call))
  : result (list (string * object)) :=
  match body with
  | [] => Ok []
  | (key, c) :: body' =>
      f ← eval c;
      attrs ← run body';
      Ok ((key, f) :: attrs)
  end.

End ClassBody.
End ClassBody.


(** ** jsonapi/utilities.py *)

(** [d.items()]: a [VDict] stands for the dict that [dict_get] reads, so an
    item after another one with the same key is no item of it. *)
Fixpoint dict_items {A : Type} (d : list (string * A)) : list (string * A) :=
  match d with
  | [] => []
  | (k, v) :: d' =>
      (k, v)
      :: List.filter (fun kv => negb (String.eqb (fst kv) k)) (dict_items d')
  end.

Module utilities.

(** [isinstance(value, (dict, list))]. *)
Definition is_container (v : value) : bool :=
  match v with
  | VList _ | VDict _ => true
  | _ => false
  end.

(** [hash(v)] returns: a list and a dict are unhashable. *)
Definition hashable (v : value) : bool := negb (is_container v).

(** [for value in d: if isinstance(value, (dict, list)):
    docs.append(value)].  The stack [docs] is kept with its top, the end
    of the Python list, first. *)
Definition push_items (l : list value) (docs : list value) : list value :=
  fold_left (fun docs value =>
               if is_container value then value :: docs else docs)
    l docs.

(** The loop over [d.items()]. *)
Definition push_members (with_data with_meta : bool)
    (items : list (string * value)) (docs : list value) : list value :=
  fold_left (fun docs '(key, value) =>
               if String.eqb key "meta" && negb with_meta then docs
               else if String.eqb key "data" && negb with_data then docs
               else if is_container value then value :: docs
               else docs)
    (dict_items items) docs.

(** [while docs: d = docs.pop() ...], with at most [fuel] turns; the set
    [ids] is the list of the tuples [(type, id)] added to it.  None: the
    turns did not suffice. *)
Fixpoint collect_loop (fuel : nat) (with_data with_meta : bool)
    (docs : list value) (ids : list (value * value))
  : option (result (list (value * value))) :=
  match docs with
  | [] => Some (Ok ids)
  | d :: docs =>
      match fuel with
      | O => None
      | S fuel =>
          match d with
          | VList l =>
              collect_loop fuel with_data with_meta (push_items l docs) ids
          | VDict items =>
              match dict_get items "id", dict_get items "type" with
              | Some id, Some type =>
                  if hashable type && hashable id
                  then collect_loop fuel with_data with_meta
                         (push_members with_data with_meta items docs)
                         ((type, id) :: ids)
                  else Some (Raise TypeError)
              | _, _ =>
                  collect_loop fuel with_data with_meta
                    (push_members with_data with_meta items docs) ids
              end
          | _ => collect_loop fuel with_data with_meta docs ids
          end
      end
  end.

(** The number of values in a document. *)
Fixpoint size (v : value) : nat :=
  match v with
  | VList l => S (list_sum (List.map size l))
  | VDict d => S (list_sum (List.map (fun kv => size (snd kv)) d))
  | _ => 1
  end.

(** [def collect_identifiers(d, with_data=True, with_meta=False)]; the
    loop takes one turn for a value of the document at most. *)
Definition collect_identifiers (d : value) (with_data with_meta : bool)
  : option (result (list (value * value))) :=
  collect_loop (size d) with_data with_meta [d] [].

(** [def rebase_include(new_root, include)], for a list of paths. *)
Definition rebase_include (new_root : string) (include : list (list string))
  : list (list string) :=
  match include with
  | [] => [[new_root]]
  | _ => List.map (fun path => [new_root] ++ path) include
  end.

End utilities.

(** ** Numbers: comparison and division *)

(** [x < y] for numbers; every comparison with a NaN is false. *)
Definition number_ltb (x y : number) : bool :=
  match x, y with
  | NRat a b, NRat c d => (a * Zpos d <? c * Zpos b)
  | NRat _ _, NInf negative => negb negative
  | NInf negative, NRat _ _ => negative
  | NInf s, NInf t => s && negb t
  | _, _ => false
  end.

(** [x <= y] for numbers. *)
Definition number_leb (x y : number) : bool :=
  number_ltb x y || number_eqb x y.

(** An int as the datum of a float with the exponent 0; the mantissa of
    a datum is not bounded. *)
Definition float_of_mantissa (z : Z) : spec_float :=
  match z with
  | Z0 => S754_zero false
  | Zpos m => S754_finite false m 0
  | Zneg m => S754_finite true m 0
  end.

(** [n / d] for ints: the float nearest to the quotient (a tie goes to
    the even mantissa), OverflowError when it is too large for a
    float. *)
Definition int_truediv (n d : Z) : result spec_float :=
  if d =? 0 then Raise ZeroDivisionError
  else
    match SFdiv 53 1024 (float_of_mantissa n) (float_of_mantissa d) with
    | S754_infinity _ => Raise OverflowError
    | f => Ok f
    end.

(** ** jsonapi/schema/base_fields.py: the methods of links and
    relationships *)

(** [Link.encode(self, schema, data)]. *)
Definition Link_encode (self : Link.t) (data : value) : result value :=
  if negb (Link.normalize self) then Ok data
  else
    match data with
    | VStr _ => Ok (VDict [("href", data)])
    | VDict _ => Ok data
    | _ => Raise AssertionError
    end.

(** [x in self.foreign_types] for a member [x] of a JSON object: the
    frozenset holds strs, a list or a dict cannot be hashed, and another
    value is equal to no str. *)
Definition in_foreign_types (x : value) (foreign_types : gset string)
  : result bool :=
  match x with
  | VStr s => Ok (bool_decide (s ∈ foreign_types))
  | VList _ | VDict _ => Raise TypeError
  | _ => Ok false
  end.

(** [Relationship.validate_resource_identifier(self, schema, data, sp)]. *)
Definition Relationship_validate_resource_identifier (self : Relationship.t)
    (data : value) (sp : pointer) : result unit :=
  match data with
  | VDict d =>
      if negb (dict_in "type" d && dict_in "id" d)
      then Raise (InvalidValue (Lit "Must contain a 'type' and an 'id' member.")
                    (Some sp))
      else if bool_decide (Relationship.foreign_types self = ∅) then Ok tt
      else
        let type := default VNone (dict_get d "type") in
        known ← in_foreign_types type (Relationship.foreign_types self);
        if negb known
        then Raise (InvalidValue (Format "Unexpected type: '{}'." [type])
                      (Some (sp // "type")))
        else Ok tt
  | _ => Raise (InvalidType (Lit "Must be an object.") (Some sp))
  end.

Section Relationship_validation.

(** [s.pop()] on a set of strs that is not empty removes and returns one
    of its elements, no matter which: the choice is a parameter. *)
Variable set_pop : list string -> string.

Definition relationship_members : list string := ["links"; "data"; "meta"].

(** [Relationship.validate_relationship_object(self, schema, data, sp)]. *)
Definition Relationship_validate_relationship_object (self : Relationship.t)
    (data : value) (sp : pointer) : result unit :=
  match data with
  | VDict d =>
      let keys := List.map fst (dict_items d) in
      if match d with [] => true | _ => false end
      then Raise (InvalidValue
                    (Lit "Must contain at least a 'data', 'links' or 'meta' member.")
                    (Some sp))
      else if negb (forallb (fun k => str_in k relationship_members) keys)
      then
        let unexpected :=
          set_pop (List.filter (fun k => negb (str_in k relationship_members))
                     keys) in
        Raise (InvalidValue (Format "Unexpected member: '{}'." [VStr unexpected])
                 (Some sp))
      else if (Relationship.dereference self
               || negb (String.eqb (Relationship.require_data self) ""))
              && negb (dict_in "data" d)
      then Raise (InvalidValue (Lit "The 'data' member is required.") (Some sp))
      else Ok tt
  | _ => Raise (InvalidType (Lit "Must be an object.") (Some sp))
  end.

(** [ToOneRelationship.validate_relationship_object(self, schema, data,
    sp)]: the resource identifier it validates is [data], the
    relationship object. *)
Definition ToOneRelationship_validate_relationship_object
    (self : Relationship.t) (data : value) (sp : pointer) : result unit :=
  Relationship_validate_relationship_object self data sp;;
  match data with
  | VDict d =>
      match dict_get d "data" with
      | Some VNone | None => Ok tt
      | Some _ =>
          Relationship_validate_resource_identifier self data (sp // "data")
      end
  | _ => Raise TypeError
  end.

(** The [validate_pre_decode] that [ToOneRelationship] inherits: it calls
    the [validate_relationship_object] of the class of [self]. *)
Definition ToOneRelationship_validate_pre_decode (self : Relationship.t)
    (data : value) (sp : pointer) (context : option string) : M unit :=
  lift (ToOneRelationship_validate_relationship_object self data sp);;
  BaseField.validate_pre_decode (Relationship.base self) data sp context.

End Relationship_validation.

(** The validation of [ToManyRelationship]. *)
Section ToManyRelationship_validation.

(** [sp/i] for an int [i]: what the operator of [jsonpointer] does with it
    is a parameter. *)
Variable div_index : pointer -> Z -> result pointer.

(** The exception that [raise InvalidType(detail=detail, sp=sp/"data")]
    raises: the error class is called here with a keyword [sp], which no
    other call of the sources uses. *)
Variable InvalidType_sp : detail -> pointer -> exn.

(** ["data" in data]. *)
Definition contains_data (data : value) : result bool :=
  match data with
  | VDict d => Ok (dict_in "data" d)
  | VList l => Ok (existsb (py_eq (VStr "data")) l)
  | VStr s => Ok (is_some (String.index 0 "data" s))
  | _ => Raise TypeError
  end.

(** [data["data"]]. *)
Definition subscript_data (data : value) : result value :=
  match data with
  | VDict d =>
      match dict_get d "data" with
      | Some x => Ok x
      | None => Raise (KeyError (VStr "data"))
      end
  | _ => Raise TypeError
  end.

(** [isinstance(x, collections.Sequence)]. *)
Definition is_sequence (x : value) : bool :=
  match x with
  | VList _ | VStr _ => true
  | _ => false
  end.

(** The values that [for x in data] yields: the items of a list, the
    keys of a dict, the characters of a str. *)
Definition iterate (data : value) : result (list value) :=
  match data with
  | VList l => Ok l
  | VDict d => Ok (List.map (fun kv => VStr (fst kv)) (dict_items d))
  | VStr s => Ok (List.map (fun c => VStr (String c EmptyString)) (chars s))
  | _ => Raise TypeError
  end.

(** [enumerate(l)], from the index [i]. *)
Fixpoint enumerate (i : Z) (l : list value) : list (Z * value) :=
  match l with
  | [] => []
  | x :: l' => (i, x) :: enumerate (i + 1) l'
  end.

(** [ToManyRelationship.validate_relationship_object(self, schema, data,
    sp)]: it does not call the method of [Relationship], and its loop
    enumerates [data], the relationship object. *)
Definition ToManyRelationship_validate_relationship_object
    (self : Relationship.t) (data : value) (sp : pointer) : M unit :=
  has_data ← lift (contains_data data);
  if has_data : bool
  then
    linkage ← lift (subscript_data data);
    if negb (is_sequence linkage)
    then raise (InvalidType_sp
                  (Lit "The 'data' must be an array of resource identifier objects.")
                  (sp // "data"))
    else
      items ← lift (iterate data);
      for_each (enumerate 0 items)
        (fun '(i, item) =>
           item_sp ← lift (div_index (sp // "data") i);
           lift (Relationship_validate_resource_identifier self item item_sp))
  else mret tt.

End ToManyRelationship_validation.

(** ** jsonapi/schema/fields.py: the numeric and the composite fields *)

(** A bound of a numeric field: an int or a float. *)
Inductive bound : Type :=
| BInt (z : Z)
| BFloat (f : spec_float).

Definition bound_value (b : bound) : value :=
  match b with
  | BInt z => VInt z
  | BFloat f => VFloat f
  end.

Definition bound_number (b : bound) : number :=
  match b with
  | BInt z => NRat z 1
  | BFloat f => float_number f
  end.

(** *** The class [Float] (alias [Number]) *)

Record Float_t : Type := Float_Make {
  Float_attribute : Attribute.t;
  Float_min : option bound;
  Float_max : option bound
}.

Record Float_kwargs : Type := Float_Kwargs {
  Float_kw_min : option bound;
  Float_kw_max : option bound;
  Float_kargs : Attribute.kwargs
}.

(** [Float.__init__(self, *, min=None, max=None, **kargs)]. *)
Definition Float_init (positional : nat) (kw : Float_kwargs)
  : result Float_t :=
  if negb (Nat.eqb positional 0) then Raise TypeError
  else
    attribute ← Attribute.__init__ 0 (Float_kargs kw);
    assert (match Float_kw_min kw, Float_kw_max kw with
            | Some lo, Some hi =>
                number_leb (bound_number lo) (bound_number hi)
            | _, _ => true
            end);;
    Ok (Float_Make attribute (Float_kw_min kw) (Float_kw_max kw)).

(** [isinstance(data, (int, float))]: the number that [data] is. *)
Definition real_number (data : value) : option number :=
  match data with
  | VBool _ | VInt _ | VFloat _ => number_of data
  | _ => None
  end.

(** [Float.validate_pre_decode(self, schema, data, sp, context)]. *)
Definition Float_validate_pre_decode (self : Float_t) (data : value)
    (sp : pointer) (context : option string) : M unit :=
  match real_number data with
  | None => raise (InvalidType (Lit "must be a real number.") (Some sp))
  | Some x =>
      if match Float_min self with
         | Some lo => number_ltb x (bound_number lo)
         | None => false
         end
      then raise (InvalidValue
                    (Format "Must be >= {}."
                       [bound_value (default (BInt 0) (Float_min self))])
                    (Some sp))
      else if match Float_max self with
              | Some hi => number_ltb (bound_number hi) x
              | None => false
              end
      then raise (InvalidValue
                    (Format "Must be <= {}."
                       [bound_value (default (BInt 0) (Float_max self))])
                    (Some sp))
      else BaseField.validate_pre_decode
             (Attribute.base (Float_attribute self)) data sp context
  end.

(** *** The class [Fraction] *)

(** [isinstance(x, int)]: a bool is an int. *)
Definition as_int (x : value) : option Z :=
  match x with
  | VInt z => Some z
  | VBool b => Some (if b then 1 else 0)
  | _ => None
  end.

Record Fraction_t : Type := Fraction_Make {
  Fraction_attribute : Attribute.t;
  Fraction_min : option bound;
  Fraction_max : option bound
}.

(** [Fraction.validate_pre_decode(self, schema, data, sp, context)]. *)
Definition Fraction_validate_pre_decode (self : Fraction_t) (data : value)
    (sp : pointer) (context : option string) : M unit :=
  match data with
  | VDict d =>
      match dict_get d "numerator", dict_get d "denominator" with
      | None, _ =>
          raise (InvalidValue (Lit "Does not have a 'numerator' member.")
                   (Some sp))
      | Some _, None =>
          raise (InvalidValue (Lit "Does not have a 'denominator' member.")
                   (Some sp))
      | Some numerator, Some denominator =>
          match as_int numerator, as_int denominator with
          | None, _ =>
              raise (InvalidValue (Lit "The numerator must be an integer.")
                       (Some (sp // "numerator")))
          | Some _, None =>
              raise (InvalidValue (Lit "The denominator must be an integer.")
                       (Some (sp // "denominator")))
          | Some n, Some d =>
              if d =? 0
              then raise (InvalidValue
                            (Lit "The denominator must be not equal to zero.")
                            (Some (sp // "denominator")))
              else
                val ← lift (int_truediv n d);
                if match Fraction_min self with
                   | Some lo => number_ltb (float_number val) (bound_number lo)
                   | None => false
                   end
                then raise (InvalidValue
                              (Format "Must be >= {}."
                                 [bound_value (default (BInt 0)
                                                 (Fraction_min self))])
                              (Some sp))
                else if match Fraction_max self with
                        | Some hi =>
                            number_ltb (bound_number hi) (float_number val)
                        | None => false
                        end
                then raise (InvalidValue
                              (Format "Must be <= {}."
                                 [bound_value (default (BInt 0)
                                                 (Fraction_max self))])
                              (Some sp))
                else BaseField.validate_pre_decode
                       (Attribute.base (Fraction_attribute self)) data sp
                       context
          end
      end
  | _ =>
      raise (InvalidType
               (Lit "Must be an object with a 'numerator' and 'denominator' member.")
               (Some sp))
  end.

(** *** The class [Dict] *)

(** A dict whose values are encoded and decoded by an inner field. *)
Module Dict.

Record t : Type := Make {
  attribute : Attribute.t;
  field : Field.t
}.

(** [sp/key]; None has no such operator. *)
Definition div (sp : option pointer) (key : string) : result pointer :=
  match sp with
  | Some p => Ok (p // key)
  | None => Raise TypeError
  end.

(** [{key: self.field.decode(schema, value, sp/key) for key, value in
    data.items()}]. *)
Definition decode (self : t) (data : value) (sp : option pointer)
  : M value :=
  match data with
  | VDict d =>
      items ← for_fold (dict_items d) []
                (fun items '(key, value) =>
                   value_sp ← lift (div sp key);
                   x ← Field.decode (field self) value (Some value_sp);
                   mret (dict_set items key x));
      mret (VDict items)
  | _ => raise (AttributeError "items")
  end.

(** [{key: self.field.encode(schema, value) for key, value in
    data.items()}]. *)
Definition encode (self : t) (data : value) : M value :=
  match data with
  | VDict d =>
      items ← for_fold (dict_items d) []
                (fun items '(key, value) =>
                   x ← Field.encode (field self) value;
                   mret (dict_set items key x));
      mret (VDict items)
  | _ => raise (AttributeError "items")
  end.

End Dict.

(** *** The class [List] *)

(** A list whose items are encoded and decoded by an inner field. *)
Section List_field.

(** [sp/x] for a JSON pointer [sp] and a value [x] that need not be a
    str: what the operator of [jsonpointer] does with it is a
    parameter. *)
Variable div_value : pointer -> value -> result pointer.

(** [[self.field.decode(schema, item, sp/i) for item, i in
    enumerate(data)]]: [enumerate] yields the index first, so [item] is
    bound to the index and [i] to the item. *)
Definition List_decode (field : Field.t) (data : value) (sp : option pointer)
  : M value :=
  items ← lift (iterate data);
  decoded ← for_fold (enumerate 0 items) []
              (fun decoded '(item, i) =>
                 item_sp ← lift match sp with
                                | Some p => div_value p i
                                | None => Raise TypeError
                                end;
                 x ← Field.decode field (VInt item) (Some item_sp);
                 mret (decoded ++ [x]));
  mret (VList decoded).

End List_field.

(** ** jsonapi/schema/schema.py: the metaclass *)

(** [SchemaMeta.__new__(cls, name, bases, attrs)] for the class bodies
    that assign fields and, if they wish, [type] (a str) and
    [resource_class] (None or a class): their other names are bound to
    objects that are no fields and carry no mark of a decorator, so that
    the loop that applies the decorators finds nothing to do.

    [__new__] changes the field objects in place, and the namespace and
    the dicts it builds hold the objects themselves: a field object that a
    class body binds to two names is one object under both.  So the field
    objects live in a heap, by address, and names and dicts hold
    addresses. *)
Module SchemaMeta.
Section SchemaMeta.

Context {pattern : Type}.

(** An instance of one of the field classes. *)
Definition field : Type := @ClassBody.object pattern.

Definition attribute_of (f : field) : option Attribute.t :=
  match f with
  | ClassBody.AnAttribute a | ClassBody.ABoolean a | ClassBody.AnEMail a =>
      Some a
  | ClassBody.AString s => Some (Str.attribute s)
  | ClassBody.AnInteger i => Some (Integer.attribute i)
  | ClassBody.AUUID u => Some (UUID.attribute u)
  | ClassBody.ALink _ | ClassBody.AToOneRelationship _
  | ClassBody.AToManyRelationship _ => None
  end.

Definition relationship_of (f : field) : option Relationship.t :=
  match f with
  | ClassBody.AToOneRelationship r => Some r
  | ClassBody.AToManyRelationship m =>
      Some (ToManyRelationship.relationship m)
  | _ => None
  end.

Definition link_of (f : field) : option Link.t :=
  match f with
  | ClassBody.ALink l => Some l
  | _ => None
  end.

(** The attributes of [BaseField] that a field has. *)
Definition base (f : field) : BaseField.t :=
  match f with
  | ClassBody.AnAttribute a | ClassBody.ABoolean a | ClassBody.AnEMail a =>
      Attribute.base a
  | ClassBody.AString s => Attribute.base (Str.attribute s)
  | ClassBody.AnInteger i => Attribute.base (Integer.attribute i)
  | ClassBody.AUUID u => Attribute.base (UUID.attribute u)
  | ClassBody.ALink l => Link.base l
  | ClassBody.AToOneRelationship r => Relationship.base r
  | ClassBody.AToManyRelationship m =>
      Relationship.base (ToManyRelationship.relationship m)
  end.

Definition set_attribute_base (a : Attribute.t) (b : BaseField.t)
  : Attribute.t :=
  Attribute.Make b (Attribute.meta a).

Definition set_relationship_base (r : Relationship.t) (b : BaseField.t)
  : Relationship.t :=
  Relationship.Make b (Relationship.links r) (Relationship.dereference r)
    (Relationship.foreign_types r) (Relationship.finclude r)
    (Relationship.fquery r) (Relationship.require_data r).

(** The field with the attributes of [BaseField] changed. *)
Definition set_base (f : field) (b : BaseField.t) : field :=
  match f with
  | ClassBody.AnAttribute a => ClassBody.AnAttribute (set_attribute_base a b)
  | ClassBody.ABoolean a => ClassBody.ABoolean (set_attribute_base a b)
  | ClassBody.AnEMail a => ClassBody.AnEMail (set_attribute_base a b)
  | ClassBody.AString s =>
      ClassBody.AString
        (Str.Make (set_attribute_base (Str.attribute s) b) (Str.regex s))
  | ClassBody.AnInteger i =>
      ClassBody.AnInteger
        (Integer.Make (set_attribute_base (Integer.attribute i) b)
           (Integer.min i) (Integer.max i))
  | ClassBody.AUUID u =>
      ClassBody.AUUID
        (UUID.Make (set_attribute_base (UUID.attribute u) b) (UUID.version u))
  | ClassBody.ALink l =>
      ClassBody.ALink
        (Link.Make b (Link.normalize l) (Link.href l) (Link.link_of l))
  | ClassBody.AToOneRelationship r =>
      ClassBody.AToOneRelationship (set_relationship_base r b)
  | ClassBody.AToManyRelationship m =>
      ClassBody.AToManyRelationship
        (ToManyRelationship.Make
           (set_relationship_base (ToManyRelationship.relationship m) b)
           (ToManyRelationship.fadd m) (ToManyRelationship.fremove m)
           (ToManyRelationship.pagination m))
  end.

(** [isinstance(field, Attribute) and not field.meta], and the like. *)
Definition is_attribute (f : field) : bool :=
  match attribute_of f with
  | Some a => negb (Attribute.meta a)
  | None => false
  end.

Definition is_meta (f : field) : bool :=
  match attribute_of f with
  | Some a => Attribute.meta a
  | None => false
  end.

Definition is_relationship (f : field) : bool := is_some (relationship_of f).

Definition is_toplevel_link (f : field) : bool :=
  match link_of f with
  | Some l => String.eqb (Link.link_of l) ""
  | None => false
  end.

(** [parent.add_link(link)]; only relationships have the method. *)
Definition add_link (parent : field) (link : Link.t) : result field :=
  let add (r : Relationship.t) : Relationship.t :=
    Relationship.Make (Relationship.base r)
      (LinksObjectMixin.add_link (Relationship.links r) link)
      (Relationship.dereference r) (Relationship.foreign_types r)
      (Relationship.finclude r) (Relationship.fquery r)
      (Relationship.require_data r) in
  match parent with
  | ClassBody.AToOneRelationship r => Ok (ClassBody.AToOneRelationship (add r))
  | ClassBody.AToManyRelationship m =>
      Ok (ClassBody.AToManyRelationship
            (ToManyRelationship.Make (add (ToManyRelationship.relationship m))
               (ToManyRelationship.fadd m) (ToManyRelationship.fremove m)
               (ToManyRelationship.pagination m)))
  | _ => Raise (AttributeError "add_link")
  end.

(** The field objects, by address. *)
Definition heap : Type := gmap nat field.

(** The namespace of a class body: [attrs_fields] are the names it binds
    to objects, in the order of the body, each with the address of its
    object; an address at which the heap has no field is an object that is
    no field. *)
Record attrs : Type := Attrs {
  attrs_type : option string;
  attrs_resource_class : option (option resource_class_t);
  attrs_fields : list (string * nat)
}.

(** A class made by the metaclass: the attributes that [__new__] puts
    into its namespace.  The dicts and the list hold the addresses of
    their fields. *)
Record cls : Type := Cls {
  __name__ : string;
  type : string;
  _fields_by_key : list (string * nat);
  _japi_attributes : list (string * nat);
  _japi_relationships : list (string * nat);
  _japi_links : list (string * nat);
  _japi_meta : list (string * nat);
  _japi_toplevel : list nat;
  _fields_by_sp : list (option pointer * nat)
}.

(** [d.update(other)]. *)
Definition dict_update {A : Type} (d other : list (string * A))
  : list (string * A) :=
  fold_left (fun d '(k, v) => dict_set d k v) (dict_items other) d.

(** The loop over [reversed(bases)]; a base that is no subclass of
    [Schema] is None. *)
Definition inherited (bases : list (option cls)) : list (string * nat) :=
  fold_left (fun d base =>
               match base with
               | Some c => dict_update d (_fields_by_key c)
               | None => d
               end)
    (rev bases) [].

(** [copy.deepcopy(d)] for a dict of fields: a dict with the same keys,
    which holds a copy of every field object of [d], at an address that
    was free; an object that [d] holds under two keys is copied once
    ([memo]).  The links of a relationship are part of its value and are
    copied with it. *)
Fixpoint deepcopy_items (items : list (string * nat)) (memo : gmap nat nat)
    (h : heap) : list (string * nat) * heap :=
  match items with
  | [] => ([], h)
  | (key, a) :: items =>
      match memo !! a, h !! a with
      | Some a', _ =>
          let '(d, h) := deepcopy_items items memo h in ((key, a') :: d, h)
      | None, Some f =>
          let a' := fresh (dom h) in
          let '(d, h) :=
            deepcopy_items items (<[a := a']> memo) (<[a' := f]> h) in
          ((key, a') :: d, h)
      | None, None =>
          let '(d, h) := deepcopy_items items memo h in ((key, a) :: d, h)
      end
  end.

Definition deepcopy (d : list (string * nat))
  : ST heap (list (string * nat)) :=
  fun h => let '(d, h) := deepcopy_items (dict_items d) ∅ h in (Ok d, h).

(** [x or y] for strs. *)
Definition str_or (x y : string) : string :=
  if String.eqb x "" then y else x.

(** The field [prop] after [prop.key = key; prop.name = prop.name or key;
    prop.mapped_key = prop.mapped_key or key]. *)
Definition bind_key (key : string) (prop : field) : field :=
  let b := base prop in
  set_base prop
    (BaseField.Make (Some key) (BaseField.sp b) (str_or (BaseField.name b) key)
       (str_or (BaseField.mapped_key b) key) (BaseField.writable b)
       (BaseField.required b) (BaseField.fget b) (BaseField.fset b)
       (BaseField.fvalidators b)).

(** The loop over [attrs.items()] that binds the fields to their keys:
    the object is changed where it is, and put into [fields_by_key]. *)
Definition bind_keys (fields : list (string * nat))
    (fields_by_key : list (string * nat)) : ST heap (list (string * nat)) :=
  for_fold (dict_items fields) fields_by_key (fun d '(key, a) h =>
    match h !! a with
    | Some prop => (Ok (dict_set d key a), <[a := bind_key key prop]> h)
    | None => (Ok d, h)
    end).

(** The loop that links the nested fields with their parent; [d] is
    [fields_by_key].  The parent keeps the link as it is when it is added;
    [__new__] does not change a link after that. *)
Definition link_nested (d : list (string * nat)) : ST heap unit :=
  for_each (dict_items d) (fun '(key, a) h =>
    match h !! a with
    | Some f =>
        match link_of f with
        | Some l =>
            if negb (String.eqb (Link.link_of l) "")
            then
              match dict_get d (Link.link_of l) with
              | None => (Raise (KeyError (VStr (Link.link_of l))), h)
              | Some pa =>
                  match h !! pa with
                  | Some parent =>
                      match add_link parent l with
                      | Ok parent => (Ok tt, <[pa := parent]> h)
                      | Raise e => (Raise e, h)
                      end
                  | None => (Raise (AttributeError "add_link"), h)
                  end
              end
            else (Ok tt, h)
        | None => (Ok tt, h)
        end
    | None => (Ok tt, h)
    end).

(** The field [f] after [f.sp = sp]. *)
Definition set_sp (f : field) (sp : option pointer) : field :=
  let b := base f in
  set_base f
    (BaseField.Make (BaseField.key b) sp (BaseField.name b)
       (BaseField.mapped_key b) (BaseField.writable b) (BaseField.required b)
       (BaseField.fget b) (BaseField.fset b) (BaseField.fvalidators b)).

(** [_assign_sp(fields, sp)], on the values of a dict of fields.  For a
    field with a links object it calls [cls._assign_source_pointer], which
    the metaclass does not have. *)
Definition _assign_sp (fields : list nat) (sp : pointer) : ST heap unit :=
  for_each fields (fun a h =>
    match h !! a with
    | Some f =>
        let f := set_sp f (Some (sp // BaseField.name (base f))) in
        (if is_relationship f
         then Raise (AttributeError "_assign_source_pointer")
         else Ok tt,
         <[a := f]> h)
    | None => (Raise (AttributeError "name"), h)
    end).

(** [d[k] = v] for a dict with source pointers, or None, as keys. *)
Fixpoint sp_dict_set (d : list (option pointer * nat)) (k : option pointer)
    (v : nat) : list (option pointer * nat) :=
  match d with
  | [] => [(k, v)]
  | (k', v') :: d' =>
      if bool_decide (k' = k) then (k', v) :: d'
      else (k', v') :: sp_dict_set d' k v
  end.

(** [_sp_to_field(fields)]; for a field with a links object it calls
    [cls._collect_fields], which the metaclass does not have. *)
Definition _sp_to_field (fields : list nat)
  : ST heap (list (option pointer * nat)) :=
  for_fold fields [] (fun d a h =>
    match h !! a with
    | Some f =>
        if is_relationship f
        then (Raise (AttributeError "_collect_fields"), h)
        else (Ok (sp_dict_set d (BaseField.sp (base f)) a), h)
    | None => (Raise (AttributeError "sp"), h)
    end).

(** The dict comprehensions over [fields_by_key.items()]. *)
Definition select (p : field -> bool) (d : list (string * nat))
  : ST heap (list (string * nat)) :=
  fun h =>
    (Ok (List.filter (fun ka => match h !! snd ka with
                                | Some f => p f
                                | None => false
                                end) (dict_items d)), h).

(** [def __new__(cls, name, bases, attrs)]. *)
Definition __new__ (name : string) (bases : list (option cls)) (a : attrs)
  : ST heap cls :=
  let attrs_fields_by_key := inherited bases in
  (* Create a copy of the inherited fields. *)
  fields_by_key ← deepcopy attrs_fields_by_key;
  fields_by_key ← bind_keys (attrs_fields a) fields_by_key;
  (* Find nested fields (link_of, ...) and link them with their parent. *)
  link_nested fields_by_key;;
  (* Find the top-level attributes, relationships, links and meta fields. *)
  japi_attributes ← select is_attribute fields_by_key;
  _assign_sp (List.map snd japi_attributes) ["attributes"];;
  japi_relationships ← select is_relationship fields_by_key;
  _assign_sp (List.map snd japi_relationships) ["relationships"];;
  japi_links ← select is_toplevel_link fields_by_key;
  _assign_sp (List.map snd japi_links) ["links"];;
  japi_meta ← select is_meta fields_by_key;
  _assign_sp (List.map snd japi_links) ["meta"];;
  (* Collect all top level fields in a list. *)
  let japi_toplevel :=
    List.map snd japi_attributes ++ List.map snd japi_relationships
    ++ List.map snd japi_links ++ List.map snd japi_meta in
  (* Create the source pointer map. *)
  fields_by_sp ← _sp_to_field japi_toplevel;
  (* Determine 'type' name. *)
  let type := default "" (attrs_type a) in
  let type :=
    if String.eqb type ""
    then match attrs_resource_class a with
         | Some (Some c) => rc_name c
         | _ => type
         end
    else type in
  let type := if String.eqb type "" then name else type in
  mret {| __name__ := name; type := type;
          _fields_by_key := attrs_fields_by_key;
          _japi_attributes := japi_attributes;
          _japi_relationships := japi_relationships;
          _japi_links := japi_links; _japi_meta := japi_meta;
          _japi_toplevel := japi_toplevel; _fields_by_sp := fields_by_sp |}.

(** The classes that class statements make with the metaclass: [n] bounds
    the length of the chains of bases. *)
Fixpoint made (n : nat) (c : cls) : Prop :=
  match n with
  | O => False
  | S n =>
      exists name bases a h h',
        Forall (fun base => match base with
                            | Some b => made n b
                            | None => True
                            end) bases
        /\ __new__ name bases a h = (Ok c, h')
  end.

End SchemaMeta.
End SchemaMeta.

(** ** jsonapi/schema/schema.py: updating a relationship *)

(** [Schema.update_relationship(self, relname, resource, data, sp)].  It
    calls [self._validate_field_post_decode], a method that the class
    [Schema] does not define. *)
Definition Schema_update_relationship (self : Schema.t) (relname : string)
    (resource data : value) (sp : pointer) : M unit :=
  field ← lift match dict_get (Schema._japi_relationships self) relname with
               | Some f => Ok f
               | None => Raise (KeyError (VStr relname))
               end;
  Schema._validate_field_pre_decode self field data (Some sp) (Some "update");;
  decoded ← Schema._decode_field self field data (Some sp) 0 None;
  _validate_field_post_decode ←
    Schema.attribute "_validate_field_post_decode"
      (@None (Field.t -> value -> pointer -> option string -> M unit));
  _validate_field_post_decode field data sp (Some "update");;
  is_instance ← isinstance resource (Schema.resource_class self);
  resource ← (if is_instance : bool then mret resource
              else Schema.query_resource self resource);
  Field.set field resource (fst decoded) (Some sp).

(** ** jsonapi/api.py: the registry of schemas *)

(** [API.add_schema(self, schema, add_handlers=True)], for the API at the
    address [api] and a schema of the class [Schema], which has the
    attributes [type], [resource_class] (None or a class, given by its
    name) and [api], and neither [typename] nor [handler].  The state is
    the API and the [api] attribute of the schema. *)
Definition API_add_schema (api : nat) (schema : API.schema)
    (resource_class : option string) (add_handlers : bool)
  : ST (API.t * option nat) unit :=
  fun '(self, schema_api) =>
    match resource_class with
    | None => (Raise (AttributeError "typename"), (self, schema_api))
    | Some cls =>
        (* schema.init_api(self) *)
        match assert match schema_api with
                     | None => true
                     | Some a => Nat.eqb a api
                     end with
        | Raise e => (Raise e, (self, schema_api))
        | Ok _ =>
            let self :=
              API.Make
                (<[API.type schema := schema]> (API._schema_by_type self))
                (<[cls := schema]> (API._schema_by_resource_class self)) in
            if add_handlers
            then (Raise (AttributeError "handler"), (self, Some api))
            else (Ok tt, (self, Some api))
        end
    end.

(** [API.get_typenames(self)]; the order of the keys is immaterial. *)
Definition API_get_typenames (self : API.t) : list string :=
  List.map fst (map_to_list (API._schema_by_type self)).


(** ** Round trips *)



(** ** Example data *)

(** The resource object of [{"data": {"type": "articles", "attributes":
    {"title": "Hello"}}}]; the handlers pass the [data] member and the
    pointer [/data]. *)
Definition articles_data : value :=
  VDict [("type", VStr "articles");
         ("attributes", VDict [("title", VStr "Hello")])].

(** An attribute [title] as the metaclass leaves it, for a given
    [writable] and [required]. *)
Definition title_field (writable : policy) (required : string) : Field.t :=
  Attribute_as_field
    (Attribute.Make
       (BaseField.Make (Some "title") (Some ["attributes"; "title"]) "title"
          "title" writable required None None [])
       false).

(** A resource class [Article] whose constructor returns the instance at
    address 0. *)
Definition Article : resource_class_t :=
  ResourceClass "Article" (fun init => mret (VObj 0)).

(** A schema instance for the type [articles] with the attribute
    [title]. *)
Definition articles_schema (title : Field.t) : Schema.t :=
  Schema.Make "articles" (Some Article) None [("title", title)] [] []
    [("title", title)] None None Schema.default_query_resource.

(** The class body of a schema for [articles] with an attribute [id], a
    String [title] that is required on creation, and a to-one relationship
    [author]; [regex] is the regular expression given for the title, if
    any. *)
Definition articles_class_body (regex : option string)
  : list (string * ClassBody.call) :=
  [("id", ClassBody.CallAttribute 0 Attribute.no_kwargs);
   ("title",
    ClassBody.CallString 0
      (Str.Kwargs regex
         (Attribute.Kwargs None
            (BaseField.Kwargs None None None (Some "creation") None None []))));
   ("author",
    ClassBody.CallToOneRelationship 0
      (Relationship.Kwargs None None None None None None
         BaseField.no_kwargs))].

(** A resource [A] of class [Node] whose relationship [self-ref] points
    back to [A], and an API that knows the schema of [Node]. *)
Definition node_A : API.obj := API.Inst 0 "Node".

Definition node_schema : API.schema :=
  API.Schema "nodes" (fun o => Ok "1") (fun o relname => Ok [node_A]).

Definition node_api : API.t :=
  API.Make {["nodes" := node_schema]} {["Node" := node_schema]}.

(** Two distinct relatives with the identifier [("tags", "1")], fetched in
    this order for the relationship [tags] of a class [Post]. *)
Definition tag_first : API.obj :=
  API.Dict [("type", "tags"); ("id", "1"); ("label", "first")].

Definition tag_second : API.obj :=
  API.Dict [("type", "tags"); ("id", "1"); ("label", "second")].

Definition post_P : API.obj := API.Inst 7 "Post".

Definition post_schema : API.schema :=
  API.Schema "posts" (fun o => Ok "7")
    (fun o relname => Ok [tag_first; tag_second]).

Definition post_api : API.t :=
  API.Make {["posts" := post_schema]} {["Post" := post_schema]}.

(** A namespace in which [collections] is bound, and [resource] is bound
    to [post_P]. *)
Definition patched_py : API.namespace :=
  API.Namespace true (Some post_P) None None.



(** An Integer field without bounds. *)
Definition integer_field : Integer.t :=
  Integer.Make
    (Attribute.Make
       (BaseField.Make (Some "n") (Some ["attributes"; "n"]) "n" "n"
          (PTuple ["never"; "creation"]) "never" None None [])
       false)
    None None.

(** ** Auxiliary definitions of the proofs *)


(** The values the loop of [collect_identifiers] takes from its stack,
    when it starts from [d]: [d] itself, and the lists and dicts among the
    items of a list it takes and among the members of a dict it takes that
    it does not skip. *)
Inductive visits (with_data with_meta : bool) : value -> value -> Prop :=
| visits_here d : visits with_data with_meta d d
| visits_item l v n :
    In v l -> utilities.is_container v = true ->
    visits with_data with_meta v n ->
    visits with_data with_meta (VList l) n
| visits_member items k v n :
    In (k, v) (dict_items items) ->
    (String.eqb k "meta" && negb with_meta = false) ->
    (String.eqb k "data" && negb with_data = false) ->
    utilities.is_container v = true ->
    visits with_data with_meta v n ->
    visits with_data with_meta (VDict items) n.

(** [d] holds the identifier [(type, id)]: the loop takes a dict with
    these two members. *)
Definition holds_identifier (with_data with_meta : bool) (d : value)
    (p : value * value) : Prop :=
  exists items,
    visits with_data with_meta d (VDict items)
    /\ dict_get items "type" = Some (fst p)
    /\ dict_get items "id" = Some (snd p).

(** The relationships object of the docstring of [collect_identifiers],
    with a [meta] member that holds an identifier too. *)
Definition relationships_document : value :=
  VDict
    [("author",
      VDict [("data", VDict [("type", VStr "User"); ("id", VStr "42")]);
             ("meta", VDict [("type", VStr "User"); ("id", VStr "1")])]);
     ("comments",
      VDict [("data",
              VList [VDict [("type", VStr "Comment"); ("id", VStr "2")];
                     VDict [("type", VStr "Comment"); ("id", VStr "3")]])])].

(** A validator that rejects the empty str. *)
Definition reject_empty (data : value) (sp : option pointer) : M unit :=
  if py_eq data (VStr "")
  then raise (InvalidValue (Lit "Must not be empty.") sp)
  else mret tt.

(** The namespace of the class [Schema], and the class the metaclass
    makes of it. *)
Definition Schema_attrs : SchemaMeta.attrs :=
  SchemaMeta.Attrs (Some "") (Some None) [].

Definition Schema_class : SchemaMeta.cls :=
  SchemaMeta.Cls "Schema" "Schema" [] [] [] [] [] [] [].

(** The namespace of a subclass of [Schema] for the resource class
    [Article], with an attribute [title] and a meta attribute [views], and
    the heap with the two objects, as [Attribute()] and
    [Attribute(meta=True)] return them. *)
Definition article_attrs : SchemaMeta.attrs :=
  SchemaMeta.Attrs None (Some (Some Article)) [("title", 0%nat); ("views", 1%nat)].

Definition new_attribute (meta : bool) : @SchemaMeta.field string :=
  ClassBody.AnAttribute
    (Attribute.Make
       (BaseField.Make None None "" "" (PTuple ["never"; "creation"])
          "never" None None [])
       meta).

Definition article_heap : @SchemaMeta.heap string :=
  {[0%nat := new_attribute false; 1%nat := new_attribute true]}.

(** The namespace of a class body with [title = alias = Attribute()]:
    one object under two names. *)
Definition aliased_attrs : SchemaMeta.attrs :=
  SchemaMeta.Attrs None None [("title", 0%nat); ("alias", 0%nat)].

(** Case analysis on the first call whose result is bound in [H]. *)
Ltac bind_in H :=
  match type of H with
  | result_bind _ _ _ ?c = _ =>
      let E := fresh "E" in
      destruct c eqn:E; cbn [result_bind] in H; [|discriminate H]
  end.

(** A relationship [author], as it would be after the class statement,
    for a given [dereference] and [require_data]. *)
Definition author_relationship (dereference : bool) (require_data : string)
  : Relationship.t :=
  Relationship.Make
    (BaseField.Make (Some "author") (Some ["relationships"; "author"])
       "author" "author" (PStr "update") "never" None None [])
    [] dereference ∅ None None require_data.

(** A link [self] of a resource, as it would be after the class
    statement. *)
Definition self_link (normalize : bool) : Link.t :=
  Link.Make
    (BaseField.Make (Some "self") (Some ["links"; "self"]) "self" "self"
       (PStr "never") "never" None None [])
    normalize "/api/articles/1" "".

(** A [Dict] field [counts] whose values are Integers. *)
Definition counts_field : Dict.t :=
  Dict.Make
    (Attribute.Make
       (BaseField.Make (Some "counts") (Some ["attributes"; "counts"])
          "counts" "counts" (PTuple ["never"; "creation"]) "never" None None
          [])
       false)
    (Integer.as_field integer_field).

(** A Fraction field [ratio] without bounds. *)
Definition ratio_field : Fraction_t :=
  Fraction_Make
    (Attribute.Make
       (BaseField.Make (Some "ratio") (Some ["attributes"; "ratio"]) "ratio"
          "ratio" (PTuple ["never"; "creation"]) "never" None None [])
       false)
    None None.

(** A schema for [articles] whose id is a field that is writable in the
    context of an update, with no other field, in the context of an
    update. *)
Definition id_field : Field.t :=
  Attribute_as_field
    (Attribute.Make
       (BaseField.Make (Some "id") (Some ["id"]) "id" "id" (PStr "update")
          "never" None None [])
       false).

Definition articles_schema_with_id : Schema.t :=
  Schema.Make "articles" (Some Article) (Some id_field) [] [] [] [] None
    (Some "update") Schema.default_query_resource.

(** The number of values that the stack of [collect_identifiers] holds,
    nested ones included: the measure that bounds its loop. *)
Definition docs_size (docs : list value) : nat :=
  list_sum (List.map utilities.size docs).


(** The update document [{"type": "articles", "id": "5", "attributes":
    {"title": "Hello"}}], and a schema for [articles] that has an id field
    (writable in the context of an update, the context of the instance) and
    the attribute [title]. *)
Definition update_document : list (string * value) :=
  [("type", VStr "articles"); ("id", VStr "5");
   ("attributes", VDict [("title", VStr "Hello")])].

Definition articles_schema_with_id_and (title : Field.t) : Schema.t :=
  Schema.Make "articles" (Some Article) (Some id_field) [("title", title)]
    [] [] [("title", title)] None (Some "update")
    Schema.default_query_resource.
(** Case analysis on the condition of the first conditional of the goal. *)
Ltac case_if :=
  match goal with
  | |- context [if ?b then _ else _] => destruct b eqn:?
  end.

Ltac case_if_in H :=
  match type of H with
  | context [if ?b then _ else _] => destruct b eqn:?
  end.

(** * Properties *)

(** ** Field initializers *)

Lemma BaseField_init_positional (n : nat) (kw : BaseField.kwargs) :
  BaseField.__init__ (S n) kw = Raise TypeError.
Proof. reflexivity. Qed.

Lemma Link_init_raises (a : Link.args) : Link.__init__ a = Raise TypeError.
Proof.
  unfold Link.__init__.
  destruct (Link.positional a) as [|h [|h' t]], (Link.kw_href a);
    simpl; try reflexivity;
    destruct (negb (length (Link.kw_unexpected a) =? 0)%nat); reflexivity.
Qed.

Lemma BaseField_init_error (p : nat) (kw : BaseField.kwargs) (e : exn) :
  BaseField.__init__ p kw = Raise e -> e = TypeError \/ e = AssertionError.
Proof.
  unfold BaseField.__init__, assert.
  repeat (case_if; simpl; try discriminate);
    intros H; inversion H; auto.
Qed.

Lemma Relationship_init_raises (p : nat) (kw : Relationship.kwargs) :
  Relationship.__init__ p kw = Raise TypeError
  \/ Relationship.__init__ p kw = Raise AssertionError.
Proof.
  unfold Relationship.__init__.
  destruct (negb (p =? 0)%nat); [now left|].
  destruct (BaseField.__init__ 0 (Relationship.kargs kw)) as [base|e] eqn:Hbase.
  - simpl.
    destruct (Relationship.kw_links kw) as [links|]; simpl; [|now left].
    unfold assert. case_if; simpl; [now left | now right].
  - simpl. destruct (BaseField_init_error _ _ _ Hbase) as [-> | ->];
      [now left | now right].
Qed.

Lemma ToManyRelationship_init_raises (p : nat)
    (kw : ToManyRelationship.kwargs) :
  ToManyRelationship.__init__ p kw = Raise TypeError
  \/ ToManyRelationship.__init__ p kw = Raise AssertionError.
Proof.
  unfold ToManyRelationship.__init__.
  destruct (negb (p =? 0)%nat); [now left|].
  destruct (Relationship_init_raises 0 (ToManyRelationship.kargs kw)) as [H|H];
    rewrite H; [now left | now right].
Qed.

(** A class body raises when one of its calls does. *)
Lemma ClassBody_run_raises {pattern : Type}
    (re_compile : string -> result pattern)
    (before after : list (string * ClassBody.call)) (key : string)
    (c : ClassBody.call) (e : exn) :
  ClassBody.eval re_compile c = Raise e ->
  exists e', ClassBody.run re_compile (before ++ (key, c) :: after) = Raise e'.
Proof.
  intros Hc. induction before as [|[k c'] before IH]; simpl.
  - rewrite Hc. simpl. eauto.
  - destruct (ClassBody.eval re_compile c') as [f|e0]; simpl; [|eauto].
    destruct IH as [e' ->]. simpl. eauto.
Qed.

(** C10: whatever the arguments, [Link(...)] raises TypeError, because its
    initializer passes [self] a second time, by position, to the
    initializer of BaseField, which takes keyword arguments only; the
    initializers of Relationship, ToOneRelationship and ToManyRelationship,
    which construct the two default links, raise as well; and a schema
    class body that constructs a Link or a relationship raises, so that no
    such schema is defined. *)
Theorem Link_and_Relationship_cannot_be_constructed :
  (forall n kw, BaseField.__init__ (S n) kw = Raise TypeError)
  /\ (forall a, Link.__init__ a = Raise TypeError)
  /\ (forall p kw, exists e, Relationship.__init__ p kw = Raise e)
  /\ (forall p kw, exists e, ToOneRelationship.__init__ p kw = Raise e)
  /\ (forall p kw, exists e, ToManyRelationship.__init__ p kw = Raise e)
  /\ (forall (pattern : Type) (re_compile : string -> result pattern)
        before key after,
        (forall a, exists e,
           ClassBody.run re_compile
             (before ++ (key, ClassBody.CallLink a) :: after) = Raise e)
        /\ (forall p kw, exists e,
              ClassBody.run re_compile
                (before ++ (key, ClassBody.CallToOneRelationship p kw) :: after)
              = Raise e)
        /\ (forall p kw, exists e,
              ClassBody.run re_compile
                (before ++ (key, ClassBody.CallToManyRelationship p kw) :: after)
              = Raise e)).
Proof.
  split; [exact BaseField_init_positional|].
  split; [exact Link_init_raises|].
  split; [intros p kw; destruct (Relationship_init_raises p kw); eauto|].
  split; [intros p kw; unfold ToOneRelationship.__init__;
          destruct (Relationship_init_raises p kw); eauto|].
  split; [intros p kw; destruct (ToManyRelationship_init_raises p kw); eauto|].
  intros pattern re_compile before key after. repeat split.
  - intros a. apply ClassBody_run_raises with (e := TypeError).
    simpl. rewrite Link_init_raises. reflexivity.
  - intros p kw.
    destruct (Relationship_init_raises p kw) as [H|H];
      eapply ClassBody_run_raises; simpl; unfold ToOneRelationship.__init__;
      rewrite H; reflexivity.
  - intros p kw.
    destruct (ToManyRelationship_init_raises p kw) as [H|H];
      eapply ClassBody_run_raises; simpl; rewrite H; reflexivity.
Qed.

(** ** Integer bounds *)

(** A field fresh from its initializer has no validators, so the
    validation of the base class returns. *)
Lemma BaseField_validate_no_validators (self : BaseField.t) (data : value)
    (sp : pointer) (context : option string) (w : world) :
  BaseField.fvalidators self = [] ->
  BaseField.validate_pre_decode self data sp context w = (Ok tt, w).
Proof. unfold BaseField.validate_pre_decode. intros ->. reflexivity. Qed.

(** [Integer(min=lo, max=hi)] with [lo <= hi] accepts exactly the ints of
    the closed interval, and names the bound an int violates. *)
Lemma Integer_validate_bounds (lo hi z : Z) (sp : pointer)
    (context : option string) (w : world) :
  lo <= hi ->
  exists f,
    Integer.__init__ 0 (Integer.Kwargs (Some lo) (Some hi) Attribute.no_kwargs)
    = Ok f
    /\ Integer.validate_pre_decode f (VInt z) sp context w =
       if z <? lo
       then (Raise (InvalidValue (Format "Must be >= {}." [VInt lo]) (Some sp)),
             w)
       else if hi <? z
       then (Raise (InvalidValue (Format "Must be <= {}." [VInt hi]) (Some sp)),
             w)
       else (Ok tt, w).
Proof.
  intros Hle. unfold Integer.__init__. simpl.
  destruct (lo <=? hi) eqn:E; [|lia]. simpl.
  eexists; split; [reflexivity|].
  unfold Integer.validate_pre_decode. simpl.
  rewrite Z.gtb_ltb. destruct (z <? lo); [reflexivity|].
  destruct (hi <? z); reflexivity.
Qed.

(** C9: an Integer field constructed with min=0 and max=10 rejects -1 with
    InvalidValue "Must be >= 0.", accepts 10 (the bounds are inclusive) and
    rejects 11 with InvalidValue "Must be <= 10."; each error names the
    bound that is violated through the argument of its format. *)
Theorem Integer_min_0_max_10 :
  exists f,
    Integer.__init__ 0 (Integer.Kwargs (Some 0) (Some 10) Attribute.no_kwargs)
    = Ok f
    /\ forall sp context w,
         Integer.validate_pre_decode f (VInt (-1)) sp context w =
         (Raise (InvalidValue (Format "Must be >= {}." [VInt 0]) (Some sp)), w)
         /\ Integer.validate_pre_decode f (VInt 10) sp context w = (Ok tt, w)
         /\ Integer.validate_pre_decode f (VInt 11) sp context w =
            (Raise (InvalidValue (Format "Must be <= {}." [VInt 10]) (Some sp)),
             w).
Proof.
  eexists; split; [reflexivity|].
  intros sp context w. repeat split.
Qed.

(** ** Writable and required fields *)

(** A field whose [writable] is not ["always"] and not the context is
    rejected when a value is supplied for it, with the pointer to that
    value. *)
Lemma readonly_field_supplied (self : Schema.t) (field : Field.t)
    (data : value) (sp : pointer) (context : option string) (w : world) :
  in_always_or (Field.writable field)
    (context_or context (Schema.context_crud self)) = false ->
  Schema._validate_field_pre_decode self field data (Some sp) context w =
  (Raise (ValidationError (Lit "The field '{}' is readonly.") (Some sp)), w).
Proof.
  intros H. unfold Schema._validate_field_pre_decode. rewrite H. reflexivity.
Qed.

(** The tuple that stands for ["always"] is equal to no context. *)
Lemma tuple_in_no_context (items : list string) (context : option string) :
  in_always_or (PTuple items) context = false.
Proof. destruct context; reflexivity. Qed.

(** ["never"] is neither ["always"] nor a context of another name. *)
Lemma never_in_context (context : option string) :
  context <> Some "never" ->
  in_always_or (PStr "never") context = false.
Proof.
  intros H. unfold in_always_or, policy_eqb.
  change ("never" =? "always")%string with false. rewrite orb_false_l.
  destruct context as [c|]; [|reflexivity].
  destruct (String.eqb_spec "never" c); [congruence|reflexivity].
Qed.

(** The statement after the id checks reads [self._japi_id] and
    [data["id"]]: with no [id] member it raises, whatever the context, when
    no id is expected. *)
Lemma validate_without_id_raises (self : Schema.t) (d : list (string * value))
    (sp : pointer) (context : string) (w : world) :
  dict_get d "id" = None ->
  context <> "update" -> context <> "" ->
  Schema.validate_resource_pre_decode self (VDict d) sp (Some context)
    (VStr "") w =
  (Raise match Schema._japi_id self with
         | None => AttributeError "_japi_id"
         | Some _ => KeyError (VStr "id")
         end, w).
Proof.
  intros Hid Hupdate Hempty. unfold Schema.validate_resource_pre_decode.
  unfold context_or.
  destruct (String.eqb_spec context "") as [|_]; [congruence|].
  destruct (String.eqb_spec context "update") as [|_]; [congruence|].
  simpl. unfold mbind, ST_bind, mret, ST_ret. simpl.
  destruct (Schema._japi_id self); simpl; [|reflexivity].
  unfold lift. rewrite Hid. reflexivity.
Qed.

(** C2: a field whose member is absent from the document passes
    [_validate_field_pre_decode] whatever its [required] says and whatever
    the context: the test [data is (sp is not None)] compares None with
    False.  So the validation of the attributes [{}] passes for a [title]
    that is required, and [create_resource] on [{"attributes": {}}] raises
    no InvalidValue: it raises AttributeError or KeyError, for the id. *)
Theorem absent_required_field_is_accepted :
  (forall self field context w,
     Schema._validate_field_pre_decode self field VNone None context w =
     (Ok tt, w))
  /\ (forall self title w,
        Schema.validate_members self [("title", title)] []
          ["data"; "attributes"] w = (Ok tt, w))
  /\ (forall globals self sp w,
        Schema.create_resource globals self (VDict [("attributes", VDict [])])
          sp w =
        (Raise match Schema._japi_id self with
               | None => AttributeError "_japi_id"
               | Some _ => KeyError (VStr "id")
               end, w)).
Proof.
  assert (H : forall self field context w,
             Schema._validate_field_pre_decode self field VNone None context w
             = (Ok tt, w)).
  { intros self field context w. unfold Schema._validate_field_pre_decode.
    rewrite andb_false_r. simpl. rewrite andb_false_r. reflexivity. }
  split; [exact H|]. split.
  - intros self title w. unfold Schema.validate_members. simpl.
    unfold mbind, ST_bind. rewrite H. reflexivity.
  - intros globals self sp w. unfold Schema.create_resource.
    unfold mbind at 1. unfold ST_bind.
    rewrite validate_without_id_raises; [reflexivity | reflexivity | |];
      discriminate.
Qed.

(** A partition of fields is validated up to the first field that
    raises. *)
Lemma validate_members_app (self : Schema.t)
    (before after : list (string * Field.t)) (members : list (string * value))
    (members_sp : pointer) (w w' : world) :
  Schema.validate_members self before members members_sp w = (Ok tt, w') ->
  Schema.validate_members self (before ++ after) members members_sp w =
  Schema.validate_members self after members members_sp w'.
Proof.
  unfold Schema.validate_members. rewrite map_app.
  revert w. induction (map snd before) as [|f fs IH]; intros w; simpl.
  - intros [= <-]. reflexivity.
  - unfold mbind, ST_bind. fold (@mbind (ST world) _).
    destruct (Schema._validate_field_pre_decode _ _ _ _ _ _) as [[[]|e] w1];
      [|discriminate].
    apply IH.
Qed.

(** A value supplied for a field whose [writable] is ["never"] is
    rejected by [_validate_field_pre_decode] in the context of an update,
    with the error for read-only fields (the source's ValidationError) and
    the pointer of the supplied member; so it is by the loop over a
    partition of fields, when the fields before that one pass, with the
    pointer of the partition extended by the name of the field. *)
Lemma never_writable_field_is_rejected (self : Schema.t) (field : Field.t) :
  Field.writable field = PStr "never" ->
  (forall data sp w,
     Schema._validate_field_pre_decode self field data (Some sp)
       (Some "update") w =
     (Raise (ValidationError (Lit "The field '{}' is readonly.") (Some sp)),
      w))
  /\ (forall before after key members members_sp w w',
        Schema.context_crud self <> Some "never" ->
        dict_in (Field.name field) members = true ->
        Schema.validate_members self before members members_sp w
        = (Ok tt, w') ->
        Schema.validate_members self (before ++ (key, field) :: after) members
          members_sp w =
        (Raise (ValidationError (Lit "The field '{}' is readonly.")
                  (Some (members_sp // Field.name field))), w')).
Proof.
  intros Hnever. split.
  - intros data sp w. apply readonly_field_supplied.
    rewrite Hnever. apply never_in_context. discriminate.
  - intros before after key members members_sp w w' Hctx Hin Hbefore.
    rewrite (validate_members_app _ _ _ _ _ _ _ Hbefore).
    unfold Schema.validate_members. simpl.
    unfold mbind, ST_bind. rewrite Hin.
    rewrite readonly_field_supplied; [reflexivity|].
    rewrite Hnever. apply never_in_context.
    destruct (Schema.context_crud self); simpl; congruence.
Qed.

(** C5: a field constructed with [writable="always"], or with the default,
    holds the tuple [("never", "creation")], which is equal to no context;
    a value supplied for a field with that [writable] is rejected as
    read-only in every context, the one of a creation included. *)
Theorem always_writable_field_is_rejected (kw : BaseField.kwargs)
    (base : BaseField.t) :
  BaseField.kw_writable kw = None \/ BaseField.kw_writable kw = Some "always" ->
  BaseField.__init__ 0 kw = Ok base ->
  BaseField.writable base = PTuple ["never"; "creation"]
  /\ forall self field data sp context w,
       Field.writable field = BaseField.writable base ->
       Schema._validate_field_pre_decode self field data (Some sp) context w =
       (Raise (ValidationError (Lit "The field '{}' is readonly.") (Some sp)),
        w).
Proof.
  intros Hkw Hinit.
  assert (Hw : BaseField.writable base = PTuple ["never"; "creation"]).
  { unfold BaseField.__init__, assert in Hinit. simpl in Hinit.
    case_if_in Hinit; [discriminate|].
    destruct Hkw as [Hkw|Hkw]; rewrite Hkw in Hinit; simpl in Hinit;
      repeat (case_if_in Hinit; simpl in Hinit; try discriminate);
      inversion Hinit; reflexivity. }
  split; [exact Hw|].
  intros self field data sp context w Hfield. apply readonly_field_supplied.
  rewrite Hfield, Hw. apply tuple_in_no_context.
Qed.

(** [BaseField.set] asserts that the field is not ["never"] writable,
    before it calls the setter. *)
Lemma set_never_writable_asserts (self : BaseField.t) (resource data : value)
    (sp : option pointer) (w : world) :
  BaseField.writable self = PStr "never" ->
  BaseField.set self resource data sp w = (Raise AssertionError, w).
Proof. unfold BaseField.set. intros ->. reflexivity. Qed.

Lemma always_writable_field_is_rejected_witness :
  Schema._validate_field_pre_decode
    (articles_schema (title_field (PTuple ["never"; "creation"]) "never"))
    (title_field (PTuple ["never"; "creation"]) "never")
    (VStr "Hello") (Some ["data"; "attributes"; "title"]) (Some "create") ∅ =
  (Raise (ValidationError (Lit "The field '{}' is readonly.")
            (Some ["data"; "attributes"; "title"])), ∅).
Proof.
  exact (proj2 (always_writable_field_is_rejected
                  (BaseField.Kwargs None None None None None None [])
                  (BaseField.Make None None "" "" (PTuple ["never"; "creation"])
                     "never" None None [])
                  (or_introl eq_refl) eq_refl)
           (articles_schema (title_field (PTuple ["never"; "creation"]) "never"))
           (title_field (PTuple ["never"; "creation"]) "never") (VStr "Hello")
           ["data"; "attributes"; "title"] (Some "create") ∅ eq_refl).
Defined.

(** ** Creating and updating resources *)

Lemma dict_get_in {A : Type} (d : list (string * A)) (k : string) (v : A) :
  dict_get d k = Some v -> dict_in k d = true.
Proof. unfold dict_in. intros ->. reflexivity. Qed.

Lemma dict_get_not_in {A : Type} (d : list (string * A)) (k : string) :
  dict_get d k = None -> dict_in k d = false.
Proof. unfold dict_in. intros ->. reflexivity. Qed.

(** The class body of the articles schema raises, whatever the regular
    expression of the title: the relationship cannot be constructed. *)
Lemma articles_class_body_raises {pattern : Type}
    (re_compile : string -> result pattern) (regex : option string) :
  exists e, ClassBody.run re_compile (articles_class_body regex) = Raise e.
Proof.
  unfold articles_class_body.
  change [("id", ?a); ("title", ?b); ("author", ?c)]
    with ([("id", a); ("title", b)] ++ ("author", c) :: []).
  eapply ClassBody_run_raises. reflexivity.
Qed.

(** [decode_resource] starts with [memo = OrderedDict()], a name that
    [jsonapi/schema/schema.py] does not bind (it imports [collections]). *)
Lemma decode_resource_raises (self : Schema.t) (data : value) (sp : pointer)
    (w : world) :
  Schema.decode_resource schema_py self data sp w =
  (Raise (NameError "OrderedDict"), w).
Proof. reflexivity. Qed.

(** C1: [create_resource] on the resource object
    [{"type": "articles", "attributes": {"title": "Hello"}}], which has no
    [id] member, returns no resource: for every schema it raises in
    [validate_resource_pre_decode], AttributeError when the schema has no
    [_japi_id] (the metaclass defines none) and KeyError for [data["id"]]
    otherwise, and leaves the instances as they were.  In the namespace of
    [jsonapi/schema/schema.py] it returns no resource for any document:
    what passes the validation raises NameError in [decode_resource].  And
    the class body of the articles schema, with its to-one relationship,
    raises before there is a schema. *)
Theorem create_resource_without_id_raises :
  (forall globals self sp w,
     Schema.create_resource globals self articles_data sp w =
     (Raise match Schema._japi_id self with
            | None => AttributeError "_japi_id"
            | Some _ => KeyError (VStr "id")
            end, w))
  /\ (forall self data sp w,
        exists e w',
          Schema.create_resource schema_py self data sp w = (Raise e, w'))
  /\ (forall (pattern : Type) (re_compile : string -> result pattern) regex,
        exists e,
          ClassBody.run re_compile (articles_class_body regex) = Raise e).
Proof.
  split; [|split].
  - intros globals self sp w. unfold Schema.create_resource, articles_data.
    unfold mbind at 1. unfold ST_bind.
    rewrite validate_without_id_raises; [reflexivity | reflexivity | |];
      discriminate.
  - intros self data sp w. unfold Schema.create_resource.
    unfold mbind at 1. unfold ST_bind.
    destruct (Schema.validate_resource_pre_decode _ _ _ _ _ _) as [[[]|e] w'];
      [|eauto].
    unfold mbind at 1. unfold ST_bind.
    rewrite decode_resource_raises. eauto.
  - intros pattern re_compile regex. apply articles_class_body_raises.
Qed.

(** When an id is expected and the [id] member of the document is not
    equal to it, the pre-decode validation raises Conflict, with the
    pointer to the [id] member, before it looks at any field. *)
Lemma id_mismatch_is_a_conflict (self : Schema.t) (d : list (string * value))
    (doc_id expected_id : value) (sp : pointer) (context : option string)
    (w : world) :
  truthy expected_id = true ->
  dict_get d "id" = Some doc_id ->
  py_eq doc_id expected_id = false ->
  Schema.validate_resource_pre_decode self (VDict d) sp context expected_id w =
  (Raise (Conflict (Format "The id '{}' does not match the endpoint ('{}')."
                      [doc_id; expected_id])
            (Some (sp // "id"))), w).
Proof.
  intros Ht Hid Hne. unfold Schema.validate_resource_pre_decode.
  rewrite Ht, (dict_get_in _ _ _ Hid). simpl.
  unfold mbind, ST_bind, lift. rewrite Hid, Hne. reflexivity.
Qed.

(** A value that is not an instance is not an instance of the resource
    class. *)
Lemma isinstance_of_id (resource : value) (rc : resource_class_t)
    (w : world) :
  (forall a, resource <> VObj a) ->
  isinstance resource (Some rc) w = (Ok false, w).
Proof.
  intros H. unfold isinstance. destruct resource; try reflexivity.
  now destruct (H a).
Qed.

(** C3: an update of the resource named by a (non-empty) id, with a
    document whose [id] member is not equal to that id, raises Conflict
    with the pointer to the [id] member.  The pre-decode validation of the
    update raises it, and [update_resource] with it: the instances are
    left as they were, whatever the decoders, validators and setters of
    the fields would do to them, so that none of them has run. *)
Theorem update_with_other_id_is_a_conflict (globals : list string)
    (self : Schema.t) (rc : resource_class_t) (resource doc_id : value)
    (d : list (string * value)) (sp : pointer) (w : world) :
  Schema.resource_class self = Some rc ->
  (forall a, resource <> VObj a) ->
  truthy resource = true ->
  dict_get d "id" = Some doc_id ->
  py_eq doc_id resource = false ->
  Schema.validate_resource_pre_decode self (VDict d) sp (Some "update")
    resource w =
  (Raise (Conflict (Format "The id '{}' does not match the endpoint ('{}')."
                      [doc_id; resource])
            (Some (sp // "id"))), w)
  /\ Schema.update_resource globals self resource (VDict d) sp w =
     (Raise (Conflict (Format "The id '{}' does not match the endpoint ('{}')."
                         [doc_id; resource])
               (Some (sp // "id"))), w).
Proof.
  intros Hrc Hid Ht Hdoc Hne.
  pose proof (id_mismatch_is_a_conflict self d doc_id resource sp
                (Some "update") w Ht Hdoc Hne) as Hvalidate.
  split; [exact Hvalidate|].
  unfold Schema.update_resource.
  rewrite Hrc. unfold mbind at 1. unfold ST_bind.
  rewrite isinstance_of_id by assumption.
  unfold mbind at 1. unfold ST_bind, mret, ST_ret.
  unfold mbind at 1. unfold ST_bind.
  rewrite Hvalidate. reflexivity.
Qed.

Lemma update_with_other_id_is_a_conflict_witness :
  Schema.update_resource schema_py
    (articles_schema (title_field (PStr "update") "never")) (VStr "5")
    (VDict [("type", VStr "articles"); ("id", VStr "6");
            ("attributes", VDict [("title", VStr "Hello")])])
    ["data"] ∅ =
  (Raise (Conflict (Format "The id '{}' does not match the endpoint ('{}')."
                      [VStr "6"; VStr "5"])
            (Some ["data"; "id"])), ∅).
Proof.
  apply (update_with_other_id_is_a_conflict schema_py
           (articles_schema (title_field (PStr "update") "never")) Article
           (VStr "5") (VStr "6")
           [("type", VStr "articles"); ("id", VStr "6");
            ("attributes", VDict [("title", VStr "Hello")])]
           ["data"] ∅).
  - reflexivity.
  - discriminate.
  - reflexivity.
  - reflexivity.
  - reflexivity.
Defined.

(** ** The inclusion resolver *)

(** In the namespace of [jsonapi/api.py], [_include] on a path that is not
    empty returns when the first name is already recorded for the parent,
    and raises NameError for [resource] otherwise; it fetches nothing and
    records no resource. *)
Lemma _include_api_py (self : API.t) (parent : API.obj) (relname : string)
    (path : list string) (k : API.key) (s : API.included) :
  API.hashable parent = Ok k ->
  exists s',
    API.included_resources s' = API.included_resources s
    /\ API._include API.api_py self parent (relname :: path) s =
       (if bool_decide
             (relname ∈ default ∅ (API.included_relationships s !! k))
        then Ok tt else Raise (NameError "resource"), s').
Proof.
  intros Hk. simpl. unfold mbind, ST_bind, lift. rewrite Hk.
  unfold API.relationships_of.
  destruct (API.included_relationships s !! k) as [names|]; simpl.
  - exists s. split; [reflexivity|].
    destruct (bool_decide (relname ∈ names)); reflexivity.
  - eexists. split; [|reflexivity]. reflexivity.
Qed.

(** C6: in the namespace of [jsonapi/api.py], [include] raises NameError
    for [resources], the name its loop reads instead of its parameter
    [primary], whatever the primary resources and the paths; so it does
    for the resource [A] whose relationship [self-ref] points back to [A]
    and the path [["self-ref"]], and returns no included set.  [_include]
    itself, on [A] and that path, raises NameError for [resource], the
    name it reads instead of its parameter [parent], and has recorded no
    resource. *)
Theorem include_raises_NameError :
  (forall self primary paths,
     API.include API.api_py self primary paths = Raise (NameError "resources"))
  /\ API.fetch_include node_schema node_A "self-ref" = Ok [node_A]
  /\ API.include API.api_py node_api [node_A] [["self-ref"]] =
     Raise (NameError "resources")
  /\ exists s,
       API._include API.api_py node_api node_A ["self-ref"]
         (API.Included ∅ ∅) = (Raise (NameError "resource"), s)
       /\ API.included_resources s = ∅.
Proof.
  repeat split. eexists. split; reflexivity.
Qed.

(** With [collections] and [resource] bound, the test that lets [_include]
    return early does not keep it from fetching a relationship again: the
    names are recorded under the identifiers of the relatives, and for the
    parent only an empty set is inserted, so that a second call for the
    same parent and path finds the name not recorded. *)
Lemma parent_is_not_marked_as_fetched :
  exists s,
    API._include patched_py post_api post_P ["tags"] (API.Included ∅ ∅)
    = (Ok tt, s)
    /\ API.hashable post_P = Ok (inl 7%nat)
    /\ API.included_relationships s !! inl 7%nat = Some ∅.
Proof.
  eexists. split; [vm_compute; reflexivity|].
  split; [reflexivity|]. vm_compute. reflexivity.
Qed.

(** With [collections] and [resource] bound, as they are not in
    [jsonapi/api.py], [_include] fetches the two
    relatives [tag_first] and [tag_second], which have the same identifier,
    in this order; the included set ends with [tag_second] under that
    identifier: the object discovered later has replaced the one
    discovered first. *)
Lemma later_discovery_replaces_the_stored_object :
  API.fetch_include post_schema post_P "tags" = Ok [tag_first; tag_second]
  /\ API.ensure_identifier patched_py post_api tag_first
     = Ok (API.identifier "tags" "1")
  /\ API.ensure_identifier patched_py post_api tag_second
     = Ok (API.identifier "tags" "1")
  /\ tag_first <> tag_second
  /\ exists s,
       API._include patched_py post_api post_P ["tags"] (API.Included ∅ ∅)
       = (Ok tt, s)
       /\ API.included_resources s !! API.identifier "tags" "1"
          = Some tag_second
       /\ API.included_resources s !! API.identifier "tags" "1"
          <> Some tag_first.
Proof.
  split; [reflexivity|]. split; [reflexivity|]. split; [reflexivity|].
  split; [discriminate|].
  eexists. split; [vm_compute; reflexivity|].
  split; [vm_compute; reflexivity|]. vm_compute. discriminate.
Qed.


(** ** Round trips of the scalar fields *)












(** [Fraction.decode] subscripts the wire value with 0 and 1; the wire
    value of a fraction is an object, which has no such key. *)
Lemma Fraction_decode_raises (d : list (string * value)) (sp : option pointer)
    (w : world) :
  Fraction.decode (VDict d) sp w = (Raise (KeyError (VInt 0)), w).
Proof. reflexivity. Qed.

Lemma Fraction_decode_encode_raises (n : Z) (d : positive) (w : world) :
  (x ← Fraction.encode (VFraction n d); Fraction.decode x None) w =
  (Raise (KeyError (VInt 0)), w).
Proof. reflexivity. Qed.




(** ** Updating an instance *)

(** The same for a resource given as an instance of the resource class:
    the expected id is the one the schema reads from the instance, and the
    Conflict is raised in the state in which that reading ends. *)
Lemma update_of_instance_with_other_id_is_a_conflict (globals : list string)
    (self : Schema.t) (rc : resource_class_t) (a : nat) (i : instance)
    (expected doc_id : value) (d : list (string * value)) (sp : pointer)
    (w w1 : world) :
  Schema.resource_class self = Some rc ->
  w !! a = Some i ->
  inst_class i = rc_name rc ->
  Schema.id self (VObj a) w = (Ok expected, w1) ->
  truthy expected = true ->
  dict_get d "id" = Some doc_id ->
  py_eq doc_id expected = false ->
  Schema.update_resource globals self (VObj a) (VDict d) sp w =
  (Raise (Conflict (Format "The id '{}' does not match the endpoint ('{}')."
                      [doc_id; expected])
            (Some (sp // "id"))), w1).
Proof.
  intros Hrc Ha Hcls Hid Ht Hdoc Hne. unfold Schema.update_resource.
  rewrite Hrc. unfold mbind at 1. unfold ST_bind.
  unfold isinstance at 1. rewrite Ha, Hcls, String.eqb_refl.
  unfold mbind at 1. unfold ST_bind. rewrite Hid.
  unfold mbind at 1. unfold ST_bind.
  rewrite (id_mismatch_is_a_conflict self d doc_id expected) by assumption.
  reflexivity.
Qed.
(** ** The monad of the embedding *)

Lemma bind_Ok {S A B : Type} (c : ST S A) (k : A -> ST S B) (s s' : S)
    (b : B) :
  (c ≫= k) s = (Ok b, s') ->
  exists a s1, c s = (Ok a, s1) /\ k a s1 = (Ok b, s').
Proof.
  unfold mbind, ST_bind. destruct (c s) as [[a|e] s1]; [eauto|discriminate].
Qed.

Lemma for_fold_cons {S A B : Type} (x : A) (xs : list A) (acc : B)
    (body : B -> A -> ST S B) (s : S) :
  for_fold (x :: xs) acc body s
  = match body acc x s with
    | (Ok acc', s') => for_fold xs acc' body s'
    | (Raise e, s') => (Raise e, s')
    end.
Proof. reflexivity. Qed.

Lemma bind_eq_Ok {S A B : Type} (c : ST S A) (k : A -> ST S B) (s s1 : S)
    (a : A) :
  c s = (Ok a, s1) -> (c ≫= k) s = k a s1.
Proof. unfold mbind, ST_bind. intros ->. reflexivity. Qed.

Lemma bind_eq_Raise {S A B : Type} (c : ST S A) (k : A -> ST S B) (s s1 : S)
    (e : exn) :
  c s = (Raise e, s1) -> (c ≫= k) s = (Raise e, s1).
Proof. unfold mbind, ST_bind. intros ->. reflexivity. Qed.

(** * Further properties of the code *)

(** ** jsonapi/utilities.py *)

(** The lists and dicts the loop puts on its stack when it takes [d]. *)
Lemma In_push_items (l docs : list value) (x : value) :
  In x (utilities.push_items l docs) <->
  In x docs \/ (In x l /\ utilities.is_container x = true).
Proof.
  unfold utilities.push_items. revert docs.
  induction l as [|v l IH]; intros docs; simpl.
  - tauto.
  - rewrite IH. destruct (utilities.is_container v) eqn:E; simpl.
    + split.
      * intros [[<-|H]|[H1 H2]]; auto.
      * intros [H|[[<-|H1] H2]]; auto.
    + split.
      * intros [H|[H1 H2]]; auto.
      * intros [H|[[<-|H1] H2]]; auto. congruence.
Qed.

Lemma In_push_members (with_data with_meta : bool)
    (items : list (string * value)) (docs : list value) (x : value) :
  In x (utilities.push_members with_data with_meta items docs) <->
  In x docs \/
  exists k, In (k, x) (dict_items items)
            /\ (String.eqb k "meta" && negb with_meta = false)
            /\ (String.eqb k "data" && negb with_data = false)
            /\ utilities.is_container x = true.
Proof.
  unfold utilities.push_members. revert docs.
  induction (dict_items items) as [|[k v] l IH]; intros docs; simpl.
  - split; [auto|]. intros [H|(k & [] & _)]. exact H.
  - rewrite IH. clear IH.
    destruct (String.eqb k "meta" && negb with_meta) eqn:E1.
    { split.
      - intros [H|(k' & H & H')]; eauto 7.
      - intros [H|(k' & [H|H] & H1 & H2 & H3)]; eauto 7.
        inversion H; subst. congruence. }
    destruct (String.eqb k "data" && negb with_data) eqn:E2.
    { split.
      - intros [H|(k' & H & H')]; eauto 7.
      - intros [H|(k' & [H|H] & H1 & H2 & H3)]; eauto 7.
        inversion H; subst. congruence. }
    destruct (utilities.is_container v) eqn:E3.
    { split.
      - intros [[<-|H]|(k' & H & H')]; eauto 8.
      - intros [H|(k' & [H|H] & H1 & H2 & H3)]; simpl; eauto 7.
        inversion H; subst. auto. }
    split.
    + intros [H|(k' & H & H')]; eauto 7.
    + intros [H|(k' & [H|H] & H1 & H2 & H3)]; eauto 7.
      inversion H; subst. congruence.
Qed.

Lemma size_pos (v : value) : (1 <= utilities.size v)%nat.
Proof. destruct v; simpl; lia. Qed.

Lemma docs_size_push_items (l docs : list value) :
  (docs_size (utilities.push_items l docs)
   <= list_sum (List.map utilities.size l) + docs_size docs)%nat.
Proof.
  unfold utilities.push_items. revert docs.
  induction l as [|v l IH]; intros docs; simpl; [lia|].
  etransitivity; [apply IH|].
  destruct (utilities.is_container v); unfold docs_size; simpl; lia.
Qed.

Lemma list_sum_filter {A : Type} (f : A -> nat) (p : A -> bool) (l : list A) :
  (list_sum (List.map f (List.filter p l)) <= list_sum (List.map f l))%nat.
Proof.
  induction l as [|x l IH]; simpl; [lia|].
  destruct (p x); simpl; lia.
Qed.

Lemma list_sum_dict_items {A : Type} (f : string * A -> nat)
    (d : list (string * A)) :
  (list_sum (List.map f (dict_items d)) <= list_sum (List.map f d))%nat.
Proof.
  induction d as [|[k v] d IH]; simpl; [lia|].
  pose proof (list_sum_filter f
                (fun kv => negb (String.eqb (fst kv) k)) (dict_items d)).
  lia.
Qed.

Lemma docs_size_push_members (with_data with_meta : bool)
    (items : list (string * value)) (docs : list value) :
  (docs_size (utilities.push_members with_data with_meta items docs)
   <= list_sum (List.map (fun kv => utilities.size (snd kv)) items)
      + docs_size docs)%nat.
Proof.
  unfold utilities.push_members.
  etransitivity;
    [|apply Nat.add_le_mono_r, (list_sum_dict_items _ items)].
  revert docs.
  induction (dict_items items) as [|[k v] l IH]; intros docs; simpl; [lia|].
  etransitivity; [apply IH|].
  destruct (String.eqb k "meta" && negb with_meta); [lia|].
  destruct (String.eqb k "data" && negb with_data); [lia|].
  destruct (utilities.is_container v); unfold docs_size; simpl; lia.
Qed.

(** An identifier that [d] holds is the one of [d] itself or one that a
    list or dict put on the stack for [d] holds. *)
Lemma holds_identifier_list (with_data with_meta : bool) (l : list value)
    (p : value * value) :
  holds_identifier with_data with_meta (VList l) p <->
  exists v, In v l /\ utilities.is_container v = true
            /\ holds_identifier with_data with_meta v p.
Proof.
  unfold holds_identifier. split.
  - intros (items & Hv & Ht & Hi). inversion Hv; subst. eauto 8.
  - intros (v & Hin & Hc & items & Hv & Ht & Hi).
    exists items. split; [|auto]. eapply visits_item; eauto.
Qed.

Lemma holds_identifier_dict (with_data with_meta : bool)
    (items : list (string * value)) (p : value * value) :
  holds_identifier with_data with_meta (VDict items) p <->
  (dict_get items "type" = Some (fst p) /\ dict_get items "id" = Some (snd p))
  \/ exists k v, In (k, v) (dict_items items)
                 /\ (String.eqb k "meta" && negb with_meta = false)
                 /\ (String.eqb k "data" && negb with_data = false)
                 /\ utilities.is_container v = true
                 /\ holds_identifier with_data with_meta v p.
Proof.
  unfold holds_identifier. split.
  - intros (items' & Hv & Ht & Hi). inversion Hv; subst.
    + left. auto.
    + right. eauto 12.
  - intros [[Ht Hi]|(k & v & Hin & Hm & Hd & Hc & items' & Hv & Ht & Hi)].
    + exists items. split; [constructor|auto].
    + exists items'. split; [|auto]. eapply visits_member; eauto.
Qed.

Lemma holds_identifier_scalar (with_data with_meta : bool) (d : value)
    (p : value * value) :
  utilities.is_container d = false ->
  ~ holds_identifier with_data with_meta d p.
Proof.
  intros Hc (items & Hv & _). inversion Hv; subst; discriminate.
Qed.

(** What the loop returns, from a stack [docs] and a set [ids], when it
    may take a turn for every value in the stack. *)
Lemma collect_loop_returns (with_data with_meta : bool) (fuel : nat) :
  forall docs ids,
    (docs_size docs <= fuel)%nat ->
    exists r,
      utilities.collect_loop fuel with_data with_meta docs ids = Some r
      /\ match r with
         | Ok ids' =>
             (forall p,
                In p ids' <->
                In p ids
                \/ exists d, In d docs
                             /\ holds_identifier with_data with_meta d p)
             /\ (forall d p,
                   In d docs -> holds_identifier with_data with_meta d p ->
                   utilities.hashable (fst p) && utilities.hashable (snd p)
                   = true)
         | Raise e =>
             e = TypeError
             /\ exists d p,
                  In d docs /\ holds_identifier with_data with_meta d p
                  /\ utilities.hashable (fst p) && utilities.hashable (snd p)
                     = false
         end.
Proof.
  induction fuel as [|fuel IH]; intros docs ids Hsize.
  - destruct docs as [|d docs].
    + exists (Ok ids). split; [reflexivity|]. split.
      * intros p. split; [auto|]. intros [H|(d & [] & _)]. exact H.
      * intros d p [].
    + unfold docs_size in Hsize. simpl in Hsize.
      pose proof (size_pos d). lia.
  - destruct docs as [|d docs].
    + exists (Ok ids). split; [reflexivity|]. split.
      * intros p. split; [auto|]. intros [H|(d & [] & _)]. exact H.
      * intros d p [].
    + assert (Hrest : (docs_size docs <= fuel)%nat).
      { unfold docs_size in *. simpl in Hsize. pose proof (size_pos d). lia. }
      assert (Hscalar :
        utilities.is_container d = false ->
        utilities.collect_loop (S fuel) with_data with_meta (d :: docs) ids
        = utilities.collect_loop fuel with_data with_meta docs ids).
      { destruct d; simpl; intros; try reflexivity; discriminate. }
      destruct (utilities.is_container d) eqn:Hc.
      2: { rewrite (Hscalar eq_refl).
           destruct (IH docs ids Hrest) as (r & -> & Hr).
           exists r. split; [reflexivity|].
           pose proof (holds_identifier_scalar with_data with_meta d) as Hno.
           destruct r as [ids'|e].
           - destruct Hr as [Hin Hhash]. split.
             + intros p. rewrite Hin. split.
               * intros [H|(d' & H & H')]; [auto|]. right. exists d'.
                 simpl. auto.
               * intros [H|(d' & [<-|H] & H')]; [auto| |eauto].
                 destruct (Hno p Hc H').
             + intros d' p [<-|H] H'; [destruct (Hno p Hc H')|eauto].
           - destruct Hr as [-> (d' & p & H & H')].
             split; [reflexivity|]. exists d', p. simpl. auto. }
      destruct d as [| | | | |l|items| | | | |]; try discriminate; simpl.
      * (* a list *)
        destruct (IH (utilities.push_items l docs) ids) as (r & -> & Hr).
        { pose proof (docs_size_push_items l docs).
          unfold docs_size in *. simpl in Hsize. lia. }
        exists r. split; [reflexivity|].
        assert (Hdocs : forall p,
          (exists d, In d (utilities.push_items l docs)
                     /\ holds_identifier with_data with_meta d p)
          <-> (exists d, In d (VList l :: docs)
                         /\ holds_identifier with_data with_meta d p)).
        { intros p. split.
          - intros (d & Hd & Hp). apply In_push_items in Hd.
            destruct Hd as [Hd|[Hd Hcd]].
            + exists d. simpl. auto.
            + exists (VList l). split; [simpl; auto|].
              apply holds_identifier_list. eauto.
          - intros (d & [<-|Hd] & Hp).
            + apply holds_identifier_list in Hp.
              destruct Hp as (v & Hv & Hcv & Hp).
              exists v. split; [|exact Hp]. apply In_push_items. auto.
            + exists d. split; [|exact Hp]. apply In_push_items. auto. }
        destruct r as [ids'|e].
        -- destruct Hr as [Hin Hhash]. split.
           ++ intros p. rewrite Hin, Hdocs. reflexivity.
           ++ intros d p Hd Hp.
              destruct (proj2 (Hdocs p) (ex_intro _ d (conj Hd Hp)))
                as (d' & Hd' & Hp').
              eauto.
        -- destruct Hr as [-> (d & p & Hd & Hp & Hbad)].
           split; [reflexivity|].
           destruct (proj1 (Hdocs p) (ex_intro _ d (conj Hd Hp)))
             as (d' & Hd' & Hp').
           eauto.
      * (* a dict *)
        assert (Hdocs : forall p,
          (exists d,
             In d (utilities.push_members with_data with_meta items docs)
             /\ holds_identifier with_data with_meta d p)
          \/ (dict_get items "type" = Some (fst p)
              /\ dict_get items "id" = Some (snd p))
          <-> (exists d, In d (VDict items :: docs)
                         /\ holds_identifier with_data with_meta d p)).
        { intros p. split.
          - intros [(d & Hd & Hp)|Hown].
            + apply In_push_members in Hd.
              destruct Hd as [Hd|(k & Hd & Hm & Hda & Hcd)].
              * exists d. simpl. auto.
              * exists (VDict items). split; [simpl; auto|].
                apply holds_identifier_dict. right. eauto 10.
            + exists (VDict items). split; [simpl; auto|].
              apply holds_identifier_dict. auto.
          - intros (d & [<-|Hd] & Hp).
            + apply holds_identifier_dict in Hp.
              destruct Hp as [Hown|(k & v & Hv & Hm & Hda & Hcv & Hp)];
                [auto|].
              left. exists v. split; [|exact Hp].
              apply In_push_members. eauto 10.
            + left. exists d. split; [|exact Hp].
              apply In_push_members. auto. }
        assert (Hfuel :
          (docs_size (utilities.push_members with_data with_meta items docs)
           <= fuel)%nat).
        { pose proof (docs_size_push_members with_data with_meta items docs).
          unfold docs_size in *. simpl in Hsize. lia. }
        destruct (dict_get items "id") as [id|] eqn:Eid.
        2: { destruct (IH _ ids Hfuel) as (r & -> & Hr).
             exists r. split; [reflexivity|].
             assert (Hdocs' : forall p,
               (exists d,
                  In d (utilities.push_members with_data with_meta items docs)
                  /\ holds_identifier with_data with_meta d p)
               <-> (exists d, In d (VDict items :: docs)
                              /\ holds_identifier with_data with_meta d p)).
             { intros p. rewrite <- Hdocs. split; [auto|].
               intros [H|[_ H]]; [exact H|discriminate]. }
             destruct r as [ids'|e].
             - destruct Hr as [Hin Hhash]. split.
               + intros p. rewrite Hin, Hdocs'. reflexivity.
               + intros d p Hd Hp.
                 destruct (proj2 (Hdocs' p) (ex_intro _ d (conj Hd Hp)))
                   as (d' & Hd' & Hp').
                 eauto.
             - destruct Hr as [-> (d & p & Hd & Hp & Hbad)].
               split; [reflexivity|].
               destruct (proj1 (Hdocs' p) (ex_intro _ d (conj Hd Hp)))
                 as (d' & Hd' & Hp').
               eauto. }
        destruct (dict_get items "type") as [type|] eqn:Etype.
        2: { destruct (IH _ ids Hfuel) as (r & -> & Hr).
             exists r. split; [reflexivity|].
             assert (Hdocs' : forall p,
               (exists d,
                  In d (utilities.push_members with_data with_meta items docs)
                  /\ holds_identifier with_data with_meta d p)
               <-> (exists d, In d (VDict items :: docs)
                              /\ holds_identifier with_data with_meta d p)).
             { intros p. rewrite <- Hdocs. split; [auto|].
               intros [H|[H _]]; [exact H|discriminate]. }
             destruct r as [ids'|e].
             - destruct Hr as [Hin Hhash]. split.
               + intros p. rewrite Hin, Hdocs'. reflexivity.
               + intros d p Hd Hp.
                 destruct (proj2 (Hdocs' p) (ex_intro _ d (conj Hd Hp)))
                   as (d' & Hd' & Hp').
                 eauto.
             - destruct Hr as [-> (d & p & Hd & Hp & Hbad)].
               split; [reflexivity|].
               destruct (proj1 (Hdocs' p) (ex_intro _ d (conj Hd Hp)))
                 as (d' & Hd' & Hp').
               eauto. }
        destruct (utilities.hashable type && utilities.hashable id) eqn:Eh.
        2: { exists (Raise TypeError). split; [reflexivity|].
             split; [reflexivity|].
             exists (VDict items), (type, id). split; [simpl; auto|].
             split; [|exact Eh].
             apply holds_identifier_dict. left. auto. }
        destruct (IH _ ((type, id) :: ids) Hfuel) as (r & -> & Hr).
        exists r. split; [reflexivity|].
        destruct r as [ids'|e].
        -- destruct Hr as [Hin Hhash]. split.
           ++ intros p. rewrite Hin, <- Hdocs. simpl. split.
              ** intros [[<-|H]|H]; auto.
              ** intros [H|[H|[Ht Hi]]]; auto.
                 left. left. destruct p; simpl in *. congruence.
           ++ intros d p Hd Hp.
              destruct (proj2 (Hdocs p) (ex_intro _ d (conj Hd Hp)))
                as [(d' & Hd' & Hp')|[Ht Hi]]; [eauto|].
              destruct p; simpl in *. congruence.
        -- destruct Hr as [-> (d & p & Hd & Hp & Hbad)].
           split; [reflexivity|].
           destruct (proj1 (Hdocs p)
                       (or_introl (ex_intro _ d (conj Hd Hp))))
             as (d' & Hd' & Hp').
           eauto.
Qed.

Lemma collect_identifiers_spec (d : value) (with_data with_meta : bool) :
  exists r,
    utilities.collect_identifiers d with_data with_meta = Some r
    /\ match r with
       | Ok ids =>
           (forall p, In p ids <-> holds_identifier with_data with_meta d p)
           /\ (forall p,
                 holds_identifier with_data with_meta d p ->
                 utilities.hashable (fst p) && utilities.hashable (snd p)
                 = true)
       | Raise e =>
           e = TypeError
           /\ exists p,
                holds_identifier with_data with_meta d p
                /\ utilities.hashable (fst p) && utilities.hashable (snd p)
                   = false
       end.
Proof.
  unfold utilities.collect_identifiers.
  destruct (collect_loop_returns with_data with_meta (utilities.size d) [d] [])
    as (r & Hr & H).
  { unfold docs_size. simpl. lia. }
  exists r. split; [exact Hr|].
  destruct r as [ids|e].
  - destruct H as [Hin Hhash]. split.
    + intros p. rewrite Hin. simpl. split.
      * intros [[]|(d' & [<-|[]] & Hp)]. exact Hp.
      * eauto.
    + intros p Hp. apply (Hhash d p); simpl; auto.
  - destruct H as [-> (d' & p & [<-|[]] & Hp & Hbad)]. eauto.
Qed.

(** X1: [collect_identifiers] returns for every document, whatever its
    depth.  It raises TypeError when a dict that its loop takes from the
    stack has a [type] and an [id] member one of which is a list or a dict,
    and only then: when it returns a set, the two members of every dict
    its loop takes that has both are hashable.  The set it returns holds
    the tuples [(type, id)] of the dicts its loop takes that have both
    members: the document itself, and the lists and dicts reached from it
    through the items of lists and the members of dicts, a [meta] member
    only with [with_meta] and a [data] member only with [with_data]. *)
Theorem collect_identifiers_returns_the_identifiers (d : value)
    (with_data with_meta : bool) :
  exists r,
    utilities.collect_identifiers d with_data with_meta = Some r
    /\ match r with
       | Ok ids =>
           (forall type id,
              In (type, id) ids <->
              exists items,
                visits with_data with_meta d (VDict items)
                /\ dict_get items "type" = Some type
                /\ dict_get items "id" = Some id)
           /\ (forall items type id,
                 visits with_data with_meta d (VDict items) ->
                 dict_get items "type" = Some type ->
                 dict_get items "id" = Some id ->
                 utilities.hashable type && utilities.hashable id = true)
       | Raise e =>
           e = TypeError
           /\ exists items type id,
                visits with_data with_meta d (VDict items)
                /\ dict_get items "type" = Some type
                /\ dict_get items "id" = Some id
                /\ utilities.hashable type && utilities.hashable id = false
       end.
Proof.
  destruct (collect_identifiers_spec d with_data with_meta) as (r & Hr & H).
  exists r. split; [exact Hr|].
  destruct r as [ids|e].
  - destruct H as [Hin Hhash]. split.
    + intros type id. apply (Hin (type, id)).
    + intros items type id Hv Ht Hi. apply (Hhash (type, id)).
      exists items. auto.
  - destruct H as [-> ([type id] & (items & Hv & Ht & Hi) & Hbad)].
    split; [reflexivity|]. exists items, type, id. auto.
Qed.

(** What the loop takes with a flag off, it takes with the flag on. *)
Lemma visits_flags (with_data with_meta : bool) (d n : value) :
  visits with_data with_meta d n -> visits true true d n.
Proof.
  induction 1.
  - constructor.
  - eapply visits_item; eauto.
  - eapply visits_member; eauto; simpl; apply andb_false_r.
Qed.

(** X2: when [collect_identifiers] returns with [with_data] and
    [with_meta] both true, it returns with any other flags as well, and
    every identifier it finds with them is one it finds with both flags
    true: turning a flag off only leaves identifiers out. *)
Theorem collect_identifiers_flags (d : value) (with_data with_meta : bool)
    (all : list (value * value)) :
  utilities.collect_identifiers d true true = Some (Ok all) ->
  exists ids,
    utilities.collect_identifiers d with_data with_meta = Some (Ok ids)
    /\ forall p, In p ids -> In p all.
Proof.
  intros Hall.
  destruct (collect_identifiers_spec d true true) as (r' & Hr' & H').
  rewrite Hall in Hr'. inversion Hr'; subst r'. destruct H' as [Hin' Hhash'].
  assert (Hmono : forall p, holds_identifier with_data with_meta d p ->
                            holds_identifier true true d p).
  { intros p (items & Hv & H). exists items. split; [|exact H].
    eapply visits_flags, Hv. }
  destruct (collect_identifiers_spec d with_data with_meta) as (r & Hr & H).
  destruct r as [ids|e].
  - exists ids. split; [exact Hr|].
    intros p Hp. apply Hin', Hmono, (proj1 H), Hp.
  - destruct H as [_ (p & Hp & Hbad)].
    rewrite (Hhash' p (Hmono p Hp)) in Hbad. discriminate.
Qed.

(** The document of the docstring, with an identifier in a [meta]
    member. *)
Lemma collect_identifiers_flags_witness :
  exists ids,
    utilities.collect_identifiers relationships_document true false
    = Some (Ok ids)
    /\ forall p,
         In p ids ->
         In p [(VStr "User", VStr "42"); (VStr "User", VStr "1");
               (VStr "Comment", VStr "2"); (VStr "Comment", VStr "3")].
Proof.
  apply (collect_identifiers_flags relationships_document true false).
  reflexivity.
Defined.

(** X3: [rebase_include] never returns an empty list; every path it
    returns starts with [new_root], and taking that root off the paths
    gives back the paths of [include], or the one empty path when
    [include] is empty. *)
Theorem rebase_include_paths (new_root : string)
    (include : list (list string)) :
  utilities.rebase_include new_root include <> []
  /\ Forall (fun path => hd_error path = Some new_root)
       (utilities.rebase_include new_root include)
  /\ List.map (@tl string) (utilities.rebase_include new_root include)
     = match include with
       | [] => [[]]
       | _ => include
       end
  /\ length (utilities.rebase_include new_root include)
     = Nat.max 1 (length include).
Proof.
  assert (Hmap : forall l : list (list string),
            Forall (fun path => hd_error path = Some new_root)
              (List.map (fun path => [new_root] ++ path) l)
            /\ List.map (@tl string)
                 (List.map (fun path => [new_root] ++ path) l) = l).
  { induction l as [|path l [IH1 IH2]]; simpl.
    - split; [constructor|reflexivity].
    - split; [constructor; [reflexivity|exact IH1]|]. f_equal. exact IH2. }
  destruct include as [|path include].
  - simpl. repeat split; [discriminate|]. repeat constructor.
  - unfold utilities.rebase_include.
    destruct (Hmap (path :: include)) as [H1 H2].
    repeat split; [discriminate|exact H1|exact H2|].
    rewrite length_map. simpl. lia.
Qed.

(** ** jsonapi/schema/schema.py *)

(** The loop of [decode_resource] over a partition raises at its first
    field: it passes [memo] to [_decode_field] by position. *)
Lemma decode_members_raises (self : Schema.t) (key : string) (field : Field.t)
    (fields : list (string * Field.t)) (members : value)
    (members_sp : pointer) (memo : memo_t) (w : world) :
  exists e,
    Schema.decode_members self ((key, field) :: fields) members members_sp
      memo w = (Raise e, w).
Proof.
  unfold Schema.decode_members. simpl. unfold mbind, ST_bind.
  destruct members; simpl; eauto.
Qed.

Lemma decode_members_nil (self : Schema.t) (members : value)
    (members_sp : pointer) (memo : memo_t) (w : world) :
  Schema.decode_members self [] members members_sp memo w = (Ok memo, w).
Proof. reflexivity. Qed.

(** X4: [decode_resource] returns in one case only: [OrderedDict] is bound
    in the module, the document is a dict and the schema has no attribute,
    no relationship and no meta field; what it returns then is the empty
    memo, and no instance has changed.  In every other case it raises: a
    memo with a decoded field is never returned. *)
Theorem decode_resource_returns_no_field (globals : list string)
    (self : Schema.t) (data : value) (sp : pointer) (w w' : world)
    (memo : memo_t) :
  Schema.decode_resource globals self data sp w = (Ok memo, w') <->
  str_in "OrderedDict" globals = true
  /\ (exists d, data = VDict d)
  /\ Schema._japi_attributes self = []
  /\ Schema._japi_relationships self = []
  /\ Schema._japi_meta self = []
  /\ memo = [] /\ w' = w.
Proof.
  unfold Schema.decode_resource, global_name.
  split.
  - destruct (str_in "OrderedDict" globals); simpl;
      [|unfold mbind, ST_bind, lift; discriminate].
    unfold mbind at 1. unfold ST_bind, lift.
    destruct data; try discriminate.
    destruct (Schema._japi_attributes self) as [|[k1 f1] l1].
    2: { unfold mbind at 1. unfold ST_bind.
         destruct (decode_members_raises self k1 f1 l1
                     (default (VDict []) (dict_get d "attributes"))
                     (sp // "attributes") [] w) as (e & ->).
         discriminate. }
    unfold mbind at 1. unfold ST_bind. rewrite decode_members_nil.
    destruct (Schema._japi_relationships self) as [|[k2 f2] l2].
    2: { unfold mbind at 1. unfold ST_bind.
         destruct (decode_members_raises self k2 f2 l2
                     (default (VDict []) (dict_get d "relationships"))
                     (sp // "relationships") [] w) as (e & ->).
         discriminate. }
    unfold mbind at 1. unfold ST_bind. rewrite decode_members_nil.
    destruct (Schema._japi_meta self) as [|[k3 f3] l3].
    2: { destruct (decode_members_raises self k3 f3 l3
                     (default (VDict []) (dict_get d "meta"))
                     (sp // "meta") [] w) as (e & ->).
         discriminate. }
    rewrite decode_members_nil. intros [= <- <-]. eauto 10.
  - intros (-> & (d & ->) & -> & -> & -> & -> & ->). reflexivity.
Qed.

(** ** jsonapi/schema/base_fields.py *)

Lemma dict_get_set {A : Type} (d : list (string * A)) (k : string) (v : A) :
  dict_get (dict_set d k v) k = Some v.
Proof.
  induction d as [|[k' v'] d IH]; simpl.
  - now rewrite String.eqb_refl.
  - destruct (String.eqb k' k) eqn:E; simpl; rewrite E; [reflexivity|exact IH].
Qed.

Lemma dict_get_set_other {A : Type} (d : list (string * A)) (k k' : string)
    (v : A) :
  k' <> k -> dict_get (dict_set d k v) k' = dict_get d k'.
Proof.
  intros Hne. induction d as [|[k0 v0] d IH]; simpl.
  - destruct (String.eqb_spec k k'); [congruence|reflexivity].
  - destruct (String.eqb_spec k0 k) as [->|]; simpl.
    + destruct (String.eqb_spec k k'); [congruence|reflexivity].
    + destruct (String.eqb k0 k'); [reflexivity|exact IH].
Qed.

(** X5: for a field without getter and setter that is mapped to an
    attribute of the resource and is not ["never"] writable, [set] on an
    instance returns, [get] then returns the data that was set, and the
    other attributes of the instance and the other instances are as they
    were. *)
Theorem set_then_get (self : BaseField.t) (a : nat) (i : instance)
    (data : value) (sp : option pointer) (w : world) :
  BaseField.fget self = None ->
  BaseField.fset self = None ->
  BaseField.mapped_key self <> "" ->
  policy_eqb (BaseField.writable self) "never" = false ->
  w !! a = Some i ->
  exists w',
    BaseField.set self (VObj a) data sp w = (Ok tt, w')
    /\ BaseField.get self (VObj a) w' = (Ok data, w')
    /\ (forall name,
          name <> BaseField.mapped_key self ->
          fst (getattr (VObj a) name w') = fst (getattr (VObj a) name w))
    /\ (forall b, b <> a -> w' !! b = w !! b).
Proof.
  intros Hget Hset Hkey Hw Ha.
  unfold BaseField.set, BaseField.get, BaseField.default_set,
    BaseField.default_get.
  rewrite Hget, Hset, Hw.
  destruct (String.eqb_spec (BaseField.mapped_key self) "") as [|_];
    [contradiction|].
  cbn [negb assert]. unfold mbind, ST_bind, lift, setattr, getattr.
  unfold world in *. rewrite Ha.
  eexists. split; [reflexivity|]. rewrite lookup_insert_eq.
  cbn [inst_attrs]. rewrite dict_get_set. split; [reflexivity|]. split.
  - intros name Hname.
    rewrite dict_get_set_other by exact Hname.
    destruct (dict_get (inst_attrs i) name); reflexivity.
  - intros b Hb. apply lookup_insert_ne. congruence.
Qed.

Lemma set_then_get_witness :
  exists w',
    BaseField.set (Field.base (title_field (PStr "update") "never")) (VObj 0)
      (VStr "Hello") None {[0%nat := Instance "Article" []]} = (Ok tt, w')
    /\ BaseField.get (Field.base (title_field (PStr "update") "never"))
         (VObj 0) w' = (Ok (VStr "Hello"), w').
Proof.
  destruct (set_then_get (Field.base (title_field (PStr "update") "never"))
              0%nat (Instance "Article" []) (VStr "Hello") None
              {[0%nat := Instance "Article" []]})
    as (w' & H1 & H2 & _); try reflexivity.
  - discriminate.
  - exists w'. split; [exact H1|exact H2].
Defined.

Lemma for_each_app {S A : Type} (xs ys : list A) (body : A -> ST S unit)
    (s : S) :
  for_each (xs ++ ys) body s = (for_each xs body;; for_each ys body) s.
Proof.
  revert s. induction xs as [|x xs IH]; intros s; simpl.
  - reflexivity.
  - unfold mbind, ST_bind. fold (@mbind (ST S) _).
    destruct (body x s) as [[[]|e] s']; [|reflexivity].
    rewrite IH. reflexivity.
Qed.

Lemma for_each_one {S A : Type} (x : A) (body : A -> ST S unit) (s : S) :
  for_each [x] body s = body x s.
Proof.
  simpl. unfold mbind, ST_bind, mret, ST_ret.
  destruct (body x s) as [[[]|e] s']; reflexivity.
Qed.

(** X6: a validator registered with [validator(f, when, context)] is run
    after the validators registered before it, and only if they all
    return: the pre-decode validation of the field is the one it had,
    followed by [f] when [when] is ["pre-decode"] and [context] is
    ["always"] or the context of the validation; the post-decode
    validation likewise, for ["post-decode"].  So a validator is run by
    one of the two validations only. *)
Theorem validator_is_run_last (self self' : BaseField.t)
    (f : value -> option pointer -> M unit) (when context : string) :
  BaseField.validator self f when context = Ok self' ->
  (forall data sp ctx w,
     BaseField.validate_pre_decode self' data sp ctx w =
     (BaseField.validate_pre_decode self data sp ctx;;
      if String.eqb when "pre-decode" && in_always_or (PStr context) ctx
      then f data (Some sp)
      else mret tt) w)
  /\ (forall data sp ctx w,
        BaseField.validate_post_decode self' data sp ctx w =
        (BaseField.validate_post_decode self data sp ctx;;
         if String.eqb when "post-decode" && in_always_or (PStr context) ctx
         then f data sp
         else mret tt) w)
  /\ String.eqb when "pre-decode" && String.eqb when "post-decode" = false.
Proof.
  unfold BaseField.validator, assert. intros H.
  destruct (str_in when ["pre-decode"; "post-decode"]); [|discriminate].
  destruct (str_in context ["never"; "always"; "creation"; "update"]);
    [|discriminate].
  simpl in H. inversion H; subst self'; clear H.
  unfold BaseField.validate_pre_decode, BaseField.validate_post_decode.
  cbn [BaseField.fvalidators].
  split; [|split].
  - intros data sp ctx w. rewrite for_each_app.
    unfold mbind, ST_bind.
    destruct (for_each (BaseField.fvalidators self) _ w) as [[[]|e] w'];
      [|reflexivity].
    rewrite for_each_one. cbn [validator_when validator_context validator_f].
    destruct (String.eqb when "pre-decode"); simpl; [|reflexivity].
    destruct (in_always_or (PStr context) ctx); reflexivity.
  - intros data sp ctx w. rewrite for_each_app.
    unfold mbind, ST_bind.
    destruct (for_each (BaseField.fvalidators self) _ w) as [[[]|e] w'];
      [|reflexivity].
    rewrite for_each_one. cbn [validator_when validator_context validator_f].
    destruct (String.eqb when "post-decode"); simpl; [|reflexivity].
    destruct (in_always_or (PStr context) ctx); reflexivity.
  - destruct (String.eqb_spec when "pre-decode") as [->|]; reflexivity.
Qed.

Lemma validator_is_run_last_witness :
  exists self',
    BaseField.validator (Field.base (title_field (PStr "update") "never"))
      reject_empty "pre-decode" "always" = Ok self'
    /\ BaseField.validate_pre_decode self' (VStr "")
         ["data"; "attributes"; "title"] (Some "update") ∅ =
       (Raise (InvalidValue (Lit "Must not be empty.")
                 (Some ["data"; "attributes"; "title"])), ∅)
    /\ BaseField.validate_post_decode self' (VStr "")
         (Some ["data"; "attributes"; "title"]) (Some "update") ∅ =
       (Ok tt, ∅).
Proof.
  eexists. split; [reflexivity|].
  pose proof (validator_is_run_last
                (Field.base (title_field (PStr "update") "never")) _
                reject_empty "pre-decode" "always" eq_refl) as (Hpre & Hpost & _).
  split.
  - rewrite Hpre. reflexivity.
  - rewrite Hpost. reflexivity.
Defined.

(** X7: of the values supplied for a Boolean field that is writable and
    required in the context of the validation, [false] alone reaches the
    validators of the field: [true] is rejected with InvalidValue "The
    field is required." (the test [data is (sp is not None)] compares the
    supplied [true] with True), and a value that is no bool with
    InvalidType. *)
Theorem required_Boolean_accepts_false_only (self : Schema.t)
    (field : Attribute.t) (data : value) (sp : pointer)
    (context : option string) (w : world) :
  in_always_or (BaseField.writable (Attribute.base field))
    (context_or context (Schema.context_crud self)) = true ->
  in_always_or (PStr (BaseField.required (Attribute.base field)))
    (context_or context (Schema.context_crud self)) = true ->
  Schema._validate_field_pre_decode self (Boolean.as_field field) data
    (Some sp) context w =
  match data with
  | VBool false =>
      BaseField.validate_pre_decode (Attribute.base field) (VBool false) sp
        (context_or context (Schema.context_crud self)) w
  | VBool true =>
      (Raise (InvalidValue (Lit "The field '{}' is required.") (Some sp)), w)
  | _ =>
      (Raise (InvalidType (Lit "Must be either 'true' or 'false'.") (Some sp)),
       w)
  end.
Proof.
  intros Hw Hr. unfold Schema._validate_field_pre_decode.
  unfold Field.writable, Field.required. cbn [Boolean.as_field Field.base].
  rewrite Hw, Hr. cbn [negb andb is_some].
  destruct data as [| [|] | | | | | | | | | |]; reflexivity.
Qed.

Lemma required_Boolean_accepts_false_only_witness :
  Schema._validate_field_pre_decode
    (articles_schema (title_field (PStr "update") "never"))
    (Boolean.as_field
       (Attribute.Make
          (BaseField.Make (Some "draft") (Some ["attributes"; "draft"])
             "draft" "draft" (PStr "update") "always" None None [])
          false))
    (VBool true) (Some ["data"; "attributes"; "draft"]) (Some "update") ∅ =
  (Raise (InvalidValue (Lit "The field '{}' is required.")
            (Some ["data"; "attributes"; "draft"])), ∅).
Proof.
  apply (required_Boolean_accepts_false_only
           (articles_schema (title_field (PStr "update") "never"))
           (Attribute.Make
              (BaseField.Make (Some "draft") (Some ["attributes"; "draft"])
                 "draft" "draft" (PStr "update") "always" None None [])
              false)
           (VBool true)); reflexivity.
Defined.

(** ** The metaclass of the schemas *)

Lemma new_fields_by_key {pattern : Type} (name : string)
    (bases : list (option SchemaMeta.cls)) (a : SchemaMeta.attrs)
    (c : SchemaMeta.cls) (h h' : @SchemaMeta.heap pattern) :
  SchemaMeta.__new__ name bases a h = (Ok c, h') ->
  SchemaMeta._fields_by_key c = SchemaMeta.inherited bases.
Proof.
  unfold SchemaMeta.__new__. intros H.
  repeat (apply bind_Ok in H as (? & ? & _ & H)).
  injection H as <- _. reflexivity.
Qed.

Lemma inherited_nil (bases : list (option SchemaMeta.cls)) :
  Forall (fun base => match base with
                      | Some b => SchemaMeta._fields_by_key b = []
                      | None => True
                      end) bases ->
  SchemaMeta.inherited bases = [].
Proof.
  unfold SchemaMeta.inherited. intros H.
  apply Forall_rev in H. induction H as [|base l Hbase _ IH]; simpl.
  - reflexivity.
  - destruct base as [b|]; [rewrite Hbase|]; exact IH.
Qed.

Lemma made_fields_by_key (pattern : Type) (n : nat) (c : SchemaMeta.cls) :
  @SchemaMeta.made pattern n c -> SchemaMeta._fields_by_key c = [].
Proof.
  revert c. induction n as [|n IH]; intros c; simpl; [intros []|].
  intros (name & bases & a & h & h' & Hbases & Hnew).
  rewrite (new_fields_by_key _ _ _ _ _ _ Hnew).
  apply inherited_nil.
  eapply Forall_impl; [exact Hbases|].
  intros [b|]; simpl; auto.
Qed.

(** X8: a class that the metaclass makes has none of its fields in
    [_fields_by_key].  [__new__] puts the dict into the namespace of the
    class, fills it with the fields of the bases, and goes on with a deep
    copy of it: the fields of the class body are put into the copy.  So
    the dict of a class is the one its bases give it, and it is empty for
    every class made from bases that the metaclass made, the class
    [Schema] (which has no bases) and the classes derived from it
    included. *)
Theorem no_class_has_fields_by_key {pattern : Type} (n : nat) (name : string)
    (bases : list (option SchemaMeta.cls)) (a : SchemaMeta.attrs)
    (c : SchemaMeta.cls) (h h' : @SchemaMeta.heap pattern) :
  Forall (fun base => match base with
                      | Some b => @SchemaMeta.made pattern n b
                      | None => True
                      end) bases ->
  SchemaMeta.__new__ name bases a h = (Ok c, h') ->
  SchemaMeta._fields_by_key c = []
  /\ forall key, dict_get (SchemaMeta._fields_by_key c) key = None.
Proof.
  intros Hbases Hnew.
  assert (H : SchemaMeta._fields_by_key c = []).
  { apply (made_fields_by_key pattern (S n)). simpl. eauto 7. }
  rewrite H. split; reflexivity.
Qed.

Lemma dict_items_NoDup {A : Type} (d : list (string * A)) :
  List.NoDup (List.map fst d) -> dict_items d = d.
Proof.
  induction d as [|[k v] d IH]; simpl; [reflexivity|].
  intros H. inversion H as [|? ? Hk Hd]; subst.
  rewrite (IH Hd). f_equal.
  clear IH H Hd. induction d as [|[k' v'] d IH]; simpl; [reflexivity|].
  simpl in Hk.
  destruct (String.eqb_spec k' k) as [->|]; simpl.
  - destruct Hk. auto.
  - f_equal. apply IH. intros H. apply Hk. auto.
Qed.

Lemma dict_set_new {A : Type} (d : list (string * A)) (k : string) (v : A) :
  ~ In k (List.map fst d) -> dict_set d k v = d ++ [(k, v)].
Proof.
  induction d as [|[k' v'] d IH]; simpl; [reflexivity|].
  intros H. destruct (String.eqb_spec k' k) as [->|].
  - destruct H. auto.
  - f_equal. apply IH. auto.
Qed.

Lemma set_base_attribute {pattern : Type} (f : @SchemaMeta.field pattern)
    (b : BaseField.t) :
  is_some (SchemaMeta.attribute_of f) = true ->
  SchemaMeta.base (SchemaMeta.set_base f b) = b
  /\ SchemaMeta.link_of (SchemaMeta.set_base f b) = None
  /\ SchemaMeta.is_relationship (SchemaMeta.set_base f b) = false
  /\ SchemaMeta.is_toplevel_link (SchemaMeta.set_base f b) = false
  /\ SchemaMeta.is_meta (SchemaMeta.set_base f b) = SchemaMeta.is_meta f
  /\ SchemaMeta.is_attribute (SchemaMeta.set_base f b)
     = SchemaMeta.is_attribute f
  /\ is_some (SchemaMeta.attribute_of (SchemaMeta.set_base f b)) = true.
Proof. destruct f; simpl; intros H; try discriminate; repeat split. Qed.

Lemma attribute_is_plain {pattern : Type} (f : @SchemaMeta.field pattern) :
  is_some (SchemaMeta.attribute_of f) = true ->
  SchemaMeta.link_of f = None
  /\ SchemaMeta.is_relationship f = false
  /\ SchemaMeta.is_toplevel_link f = false.
Proof. destruct f; simpl; intros H; try discriminate; repeat split. Qed.

Lemma set_sp_attribute {pattern : Type} (f : @SchemaMeta.field pattern)
    (sp : option pointer) :
  is_some (SchemaMeta.attribute_of f) = true ->
  SchemaMeta.is_relationship (SchemaMeta.set_sp f sp) = false
  /\ SchemaMeta.is_meta (SchemaMeta.set_sp f sp) = SchemaMeta.is_meta f
  /\ is_some (SchemaMeta.attribute_of (SchemaMeta.set_sp f sp)) = true.
Proof.
  intros H. unfold SchemaMeta.set_sp.
  match goal with
  | |- context [SchemaMeta.set_base f ?b] =>
      destruct (set_base_attribute f b H) as (_ & _ & H1 & _ & H2 & _ & H3)
  end.
  auto.
Qed.

Lemma bind_key_attribute {pattern : Type} (key : string)
    (f : @SchemaMeta.field pattern) :
  is_some (SchemaMeta.attribute_of f) = true ->
  BaseField.name (SchemaMeta.base (SchemaMeta.bind_key key f))
  = SchemaMeta.str_or (BaseField.name (SchemaMeta.base f)) key
  /\ SchemaMeta.is_relationship (SchemaMeta.bind_key key f) = false
  /\ SchemaMeta.is_toplevel_link (SchemaMeta.bind_key key f) = false
  /\ SchemaMeta.is_meta (SchemaMeta.bind_key key f) = SchemaMeta.is_meta f
  /\ SchemaMeta.is_attribute (SchemaMeta.bind_key key f)
     = SchemaMeta.is_attribute f
  /\ is_some (SchemaMeta.attribute_of (SchemaMeta.bind_key key f)) = true.
Proof.
  intros H. unfold SchemaMeta.bind_key.
  match goal with
  | |- context [SchemaMeta.set_base f ?b] =>
      destruct (set_base_attribute f b H) as (-> & _ & -> & -> & -> & -> & ->)
  end.
  repeat split.
Qed.

(** The loop that binds the fields to their keys, for fields under
    distinct names that are distinct objects. *)
Lemma bind_keys_loop {pattern : Type} (fields d : list (string * nat))
    (h : @SchemaMeta.heap pattern) :
  List.NoDup (List.map fst d ++ List.map fst fields) ->
  List.NoDup (List.map snd fields) ->
  (forall k a, In (k, a) fields -> exists f, h !! a = Some f) ->
  exists h1,
    for_fold fields d
      (fun d '(key, a) h =>
         match h !! a with
         | Some prop =>
             (Ok (dict_set d key a), <[a := SchemaMeta.bind_key key prop]> h)
         | None => (Ok d, h)
         end) h
    = (Ok (d ++ fields), h1)
    /\ (forall k a f,
          In (k, a) fields -> h !! a = Some f ->
          h1 !! a = Some (SchemaMeta.bind_key k f))
    /\ (forall a, ~ In a (List.map snd fields) -> h1 !! a = h !! a).
Proof.
  unfold SchemaMeta.heap in *.
  revert d h. induction fields as [|[k a] fields IH]; intros d h Hk Ha Hf.
  - exists h. rewrite app_nil_r. split; [reflexivity|].
    split; [intros ? ? ? []|reflexivity].
  - destruct (Hf k a) as (f & Hh); [simpl; auto|].
    inversion Ha as [|? ? Ha1 Ha2]; subst.
    rewrite for_fold_cons, Hh, dict_set_new.
    2: { simpl in Hk. apply List.NoDup_remove_2 in Hk.
         intros Hin. apply Hk, in_or_app. auto. }
    destruct (IH (d ++ [(k, a)]) (<[a := SchemaMeta.bind_key k f]> h))
      as (h1 & Hrun & Hin & Hout).
    + rewrite map_app. simpl. rewrite <- app_assoc. exact Hk.
    + exact Ha2.
    + intros k' a' H'. destruct (Hf k' a') as (f' & Hf'); [simpl; auto|].
      exists f'. rewrite lookup_insert_ne; [exact Hf'|].
      intros <-. apply Ha1. apply in_map_iff. exists (k', a). auto.
    + exists h1. rewrite Hrun, <- app_assoc. split; [reflexivity|]. split.
      * intros k' a' f' [[= <- <-]|H'] Hf'.
        -- rewrite (Hout a Ha1), lookup_insert_eq. congruence.
        -- apply (Hin k' a' f' H').
           rewrite lookup_insert_ne; [exact Hf'|].
           intros <-. apply Ha1. apply in_map_iff. exists (k', a). auto.
      * intros a' Ha'. rewrite Hout by (simpl in Ha'; tauto).
        apply lookup_insert_ne. simpl in Ha'. tauto.
Qed.

(** A dict of attributes has no nested field to link. *)
Lemma link_nested_loop {pattern : Type} (items d : list (string * nat))
    (h : @SchemaMeta.heap pattern) :
  (forall k a f, In (k, a) items -> h !! a = Some f ->
                 SchemaMeta.link_of f = None) ->
  for_each items (fun '(key, a) h =>
    match h !! a with
    | Some f =>
        match SchemaMeta.link_of f with
        | Some l =>
            if negb (String.eqb (Link.link_of l) "")
            then
              match dict_get d (Link.link_of l) with
              | None => (Raise (KeyError (VStr (Link.link_of l))), h)
              | Some pa =>
                  match h !! pa with
                  | Some parent =>
                      match SchemaMeta.add_link parent l with
                      | Ok parent => (Ok tt, <[pa := parent]> h)
                      | Raise e => (Raise e, h)
                      end
                  | None => (Raise (AttributeError "add_link"), h)
                  end
              end
            else (Ok tt, h)
        | None => (Ok tt, h)
        end
    | None => (Ok tt, h)
    end) h = (Ok tt, h).
Proof.
  induction items as [|[k a] items IH]; intros H; [reflexivity|].
  cbn [for_each]. erewrite bind_eq_Ok; [apply IH|].
  - intros k' a' f' H'. apply (H k' a' f'). simpl. auto.
  - destruct (h !! a) as [f|] eqn:Hf; [|reflexivity].
    rewrite (H k a f); simpl; auto.
Qed.

(** [_assign_sp] on attributes that are distinct objects. *)
Lemma _assign_sp_attributes {pattern : Type} (addrs : list nat) (sp : pointer)
    (h : @SchemaMeta.heap pattern) :
  List.NoDup addrs ->
  (forall a, In a addrs ->
             exists f, h !! a = Some f
                       /\ is_some (SchemaMeta.attribute_of f) = true) ->
  exists h1,
    SchemaMeta._assign_sp addrs sp h = (Ok tt, h1)
    /\ (forall a f,
          In a addrs -> h !! a = Some f ->
          h1 !! a
          = Some (SchemaMeta.set_sp f
                    (Some (sp // BaseField.name (SchemaMeta.base f)))))
    /\ (forall a, ~ In a addrs -> h1 !! a = h !! a).
Proof.
  unfold SchemaMeta._assign_sp, SchemaMeta.heap in *. revert h.
  induction addrs as [|a addrs IH]; intros h Hnd Hf.
  - exists h. split; [reflexivity|]. split; [intros ? ? []|reflexivity].
  - destruct (Hf a) as (f & Hh & Hattr); [simpl; auto|].
    inversion Hnd as [|? ? Ha Hnd']; subst.
    set (f' := SchemaMeta.set_sp f
                 (Some (sp // BaseField.name (SchemaMeta.base f)))).
    destruct (IH (<[a := f']> h) Hnd') as (h1 & Hrun & Hin & Hout).
    { intros a' Ha'. destruct (Hf a') as (g & Hg & Hgattr); [simpl; auto|].
      exists g. split; [|exact Hgattr].
      rewrite lookup_insert_ne; [exact Hg|]. intros <-. auto. }
    exists h1. cbn [for_each]. split.
    + erewrite bind_eq_Ok; [exact Hrun|].
      rewrite Hh. cbv zeta.
      rewrite (proj1 (set_sp_attribute f _ Hattr)). reflexivity.
    + split.
      * intros a' g [<-|Ha'] Hg.
        -- rewrite (Hout a Ha), lookup_insert_eq. unfold f'. congruence.
        -- apply (Hin a' g Ha').
           rewrite lookup_insert_ne; [exact Hg|]. intros <-. auto.
      * intros a' Ha'. rewrite Hout by (simpl in Ha'; tauto).
        apply lookup_insert_ne. simpl in Ha'. tauto.
Qed.

Lemma _sp_to_field_attributes {pattern : Type} (addrs : list nat)
    (h : @SchemaMeta.heap pattern) :
  (forall a, In a addrs ->
             exists f, h !! a = Some f
                       /\ SchemaMeta.is_relationship f = false) ->
  exists d, SchemaMeta._sp_to_field addrs h = (Ok d, h).
Proof.
  unfold SchemaMeta._sp_to_field.
  generalize (@nil (option pointer * nat)).
  induction addrs as [|a addrs IH]; intros d Hf; [eauto|].
  rewrite for_fold_cons.
  destruct (Hf a) as (f & -> & ->); [simpl; auto|].
  apply IH. intros a' Ha'. apply Hf. simpl. auto.
Qed.

(** The filter of a dict comprehension reads the same in two heaps that
    hold fields of the same kind at the addresses of the dict. *)
Lemma select_ext {pattern : Type} (p : @SchemaMeta.field pattern -> bool)
    (d : list (string * nat)) (h h1 : @SchemaMeta.heap pattern) :
  (forall k a, In (k, a) d ->
               match h1 !! a with Some f => p f | None => false end
               = match h !! a with Some f => p f | None => false end) ->
  List.filter (fun ka => match h1 !! snd ka with
                         | Some f => p f
                         | None => false
                         end) d
  = List.filter (fun ka => match h !! snd ka with
                           | Some f => p f
                           | None => false
                           end) d.
Proof.
  intros H. induction d as [|[k a] d IH]; simpl; [reflexivity|].
  rewrite (H k a) by (simpl; auto).
  rewrite IH by (intros k' a' H'; apply (H k' a'); simpl; auto).
  reflexivity.
Qed.

Lemma filter_none {A : Type} (p : A -> bool) (l : list A) :
  (forall x, In x l -> p x = false) -> List.filter p l = [].
Proof.
  induction l as [|x l IH]; intros H; simpl; [reflexivity|].
  rewrite (H x) by (simpl; auto). apply IH. intros; apply H; simpl; auto.
Qed.

(** The attribute and meta partitions of a class whose body assigns
    attributes only, each object to one name. *)
Lemma new_attributes {pattern : Type} (name : string)
    (bases : list (option SchemaMeta.cls)) (a : SchemaMeta.attrs)
    (h : @SchemaMeta.heap pattern) :
  SchemaMeta.inherited bases = [] ->
  Forall (fun ka => exists f,
                      h !! snd ka = Some f
                      /\ is_some (SchemaMeta.attribute_of f) = true)
    (SchemaMeta.attrs_fields a) ->
  List.NoDup (List.map fst (SchemaMeta.attrs_fields a)) ->
  List.NoDup (List.map snd (SchemaMeta.attrs_fields a)) ->
  exists c h',
    SchemaMeta.__new__ name bases a h = (Ok c, h')
    /\ SchemaMeta._japi_attributes c
       = List.filter (fun ka => match h !! snd ka with
                                | Some f => SchemaMeta.is_attribute f
                                | None => false
                                end) (SchemaMeta.attrs_fields a)
    /\ SchemaMeta._japi_meta c
       = List.filter (fun ka => match h !! snd ka with
                                | Some f => SchemaMeta.is_meta f
                                | None => false
                                end) (SchemaMeta.attrs_fields a)
    /\ SchemaMeta._japi_relationships c = []
    /\ SchemaMeta._japi_links c = []
    /\ (forall key addr f,
          In (key, addr) (SchemaMeta.attrs_fields a) ->
          h !! addr = Some f ->
          h' !! addr
          = Some (if SchemaMeta.is_attribute f
                  then SchemaMeta.set_sp (SchemaMeta.bind_key key f)
                         (Some ["attributes";
                                SchemaMeta.str_or
                                  (BaseField.name (SchemaMeta.base f)) key])
                  else SchemaMeta.bind_key key f))
    /\ (forall addr,
          ~ In addr (List.map snd (SchemaMeta.attrs_fields a)) ->
          h' !! addr = h !! addr).
Proof.
  intros Hbases Hattrs Hkeys Haddrs. unfold SchemaMeta.__new__.
  rewrite Hbases.
  set (fields := SchemaMeta.attrs_fields a) in *.
  assert (Hin : forall k x, In (k, x) fields ->
                            exists f, h !! x = Some f
                                      /\ is_some (SchemaMeta.attribute_of f)
                                         = true).
  { intros k x H. apply (proj1 (List.Forall_forall _ _) Hattrs (k, x) H). }
  (* the copy of the inherited fields *)
  erewrite bind_eq_Ok by reflexivity.
  (* the fields are bound to their keys *)
  destruct (bind_keys_loop fields [] h) as (h1 & Hrun1 & Hin1 & Hout1).
  { exact Hkeys. }
  { exact Haddrs. }
  { intros k x H. destruct (Hin k x H) as (f & Hf & _). eauto. }
  erewrite bind_eq_Ok.
  2: { unfold SchemaMeta.bind_keys. rewrite (dict_items_NoDup _ Hkeys).
       exact Hrun1. }
  cbn [app].
  assert (Hin1' : forall k x, In (k, x) fields ->
                              exists f, h !! x = Some f
                                        /\ is_some (SchemaMeta.attribute_of f)
                                           = true
                                        /\ h1 !! x
                                           = Some (SchemaMeta.bind_key k f)).
  { intros k x H. destruct (Hin k x H) as (f & Hf & Hattr).
    exists f. eauto. }
  (* no nested fields *)
  erewrite bind_eq_Ok.
  2: { unfold SchemaMeta.link_nested. rewrite (dict_items_NoDup _ Hkeys).
       apply link_nested_loop. intros k x g H Hg.
       destruct (Hin1' k x H) as (f & _ & Hattr & Hf1).
       rewrite Hf1 in Hg. injection Hg as <-.
       apply attribute_is_plain, bind_key_attribute, Hattr. }
  (* the attributes *)
  unfold SchemaMeta.select. rewrite (dict_items_NoDup _ Hkeys).
  erewrite bind_eq_Ok by reflexivity.
  rewrite (select_ext SchemaMeta.is_attribute fields h h1).
  2: { intros k x H. destruct (Hin1' k x H) as (f & -> & Hattr & ->).
       apply bind_key_attribute, Hattr. }
  set (A := List.filter (fun ka => match h !! snd ka with
                                   | Some f => SchemaMeta.is_attribute f
                                   | None => false
                                   end) fields).
  assert (HA : forall k x, In (k, x) A ->
                           In (k, x) fields
                           /\ exists f, h !! x = Some f
                                        /\ SchemaMeta.is_attribute f = true).
  { intros k x H. apply filter_In in H. destruct H as [H Hp]. simpl in Hp.
    split; [exact H|]. destruct (h !! x) as [f|]; [eauto|discriminate]. }
  assert (HAaddrs : List.NoDup (List.map snd A)).
  { subst A. clear -Haddrs. induction fields as [|[k x] l IH]; simpl.
    - constructor.
    - inversion Haddrs as [|? ? Hx Hl]; subst.
      destruct (match h !! x with
                | Some f => SchemaMeta.is_attribute f
                | None => false
                end); [|auto].
      simpl. constructor; [|auto].
      intros H. apply Hx. apply in_map_iff in H.
      destruct H as ([k' x'] & <- & H). apply filter_In in H.
      apply in_map_iff. exists (k', x'). tauto. }
  destruct (_assign_sp_attributes (List.map snd A) ["attributes"] h1 HAaddrs)
    as (h2 & Hrun2 & Hin2 & Hout2).
  { intros x H. apply in_map_iff in H. destruct H as ([k x'] & <- & H).
    destruct (HA k x' H) as (Hf & _).
    destruct (Hin1' k x' Hf) as (f & _ & Hattr & Hf1).
    exists (SchemaMeta.bind_key k f). split; [exact Hf1|].
    apply bind_key_attribute, Hattr. }
  erewrite bind_eq_Ok by exact Hrun2.
  assert (Hin2' : forall k x, In (k, x) fields ->
                    exists f, h !! x = Some f
                      /\ is_some (SchemaMeta.attribute_of f) = true
                      /\ h2 !! x
                         = Some (if SchemaMeta.is_attribute f
                                 then SchemaMeta.set_sp
                                        (SchemaMeta.bind_key k f)
                                        (Some ["attributes";
                                               SchemaMeta.str_or
                                                 (BaseField.name
                                                    (SchemaMeta.base f)) k])
                                 else SchemaMeta.bind_key k f)).
  { intros k x H. destruct (Hin1' k x H) as (f & Hf & Hattr & Hf1).
    exists f. split; [exact Hf|]. split; [exact Hattr|].
    destruct (SchemaMeta.is_attribute f) eqn:Hisattr.
    - rewrite (Hin2 x (SchemaMeta.bind_key k f)); [|
        apply in_map_iff; exists (k, x); split; [reflexivity|];
        apply filter_In; split; [exact H|]; simpl; rewrite Hf; exact Hisattr
        | exact Hf1].
      rewrite (proj1 (bind_key_attribute k f Hattr)). reflexivity.
    - rewrite Hout2; [exact Hf1|].
      intros Hx. apply in_map_iff in Hx. destruct Hx as ([k' x'] & Hx' & Hx).
      simpl in Hx'. subst x'.
      destruct (HA k' x Hx) as (Hf' & g & Hg & Hgattr).
      rewrite Hf in Hg. injection Hg as <-. congruence. }
  assert (Hkind : forall (p : @SchemaMeta.field pattern -> bool) k x,
             (forall f sp, is_some (SchemaMeta.attribute_of f) = true ->
                           p (SchemaMeta.set_sp f sp) = p f) ->
             (forall f key, is_some (SchemaMeta.attribute_of f) = true ->
                            p (SchemaMeta.bind_key key f) = p f) ->
             In (k, x) fields ->
             match h2 !! x with Some f => p f | None => false end
             = match h !! x with Some f => p f | None => false end).
  { intros p k x Hsp Hbind H.
    destruct (Hin2' k x H) as (f & -> & Hattr & ->).
    destruct (SchemaMeta.is_attribute f).
    - rewrite Hsp by (apply bind_key_attribute, Hattr). apply Hbind, Hattr.
    - apply Hbind, Hattr. }
  (* the relationships: none *)
  erewrite bind_eq_Ok by reflexivity.
  rewrite (filter_none _ fields).
  2: { intros [k x] H. simpl.
       destruct (Hin2' k x H) as (f & _ & Hattr & ->).
       destruct (SchemaMeta.is_attribute f).
       - apply set_sp_attribute, bind_key_attribute, Hattr.
       - apply bind_key_attribute, Hattr. }
  erewrite bind_eq_Ok by reflexivity.
  (* the links: none *)
  erewrite bind_eq_Ok by reflexivity.
  rewrite (filter_none _ fields).
  2: { intros [k x] H. simpl.
       destruct (Hin2' k x H) as (f & _ & Hattr & ->).
       destruct (SchemaMeta.is_attribute f).
       - apply attribute_is_plain, set_sp_attribute, bind_key_attribute,
           Hattr.
       - apply bind_key_attribute, Hattr. }
  erewrite bind_eq_Ok by reflexivity.
  (* the meta attributes *)
  erewrite bind_eq_Ok by reflexivity.
  rewrite (select_ext SchemaMeta.is_meta fields h h2).
  2: { intros k x H. apply (Hkind SchemaMeta.is_meta k x); [| |exact H].
       - intros f sp Hattr. apply set_sp_attribute, Hattr.
       - intros f key Hattr. apply bind_key_attribute, Hattr. }
  erewrite bind_eq_Ok by reflexivity.
  cbn [List.map app].
  (* the source pointer map *)
  match goal with
  | |- context [SchemaMeta._sp_to_field ?l] =>
      destruct (_sp_to_field_attributes l h2) as (d & Hrun3)
  end.
  { intros x H. apply in_app_or in H.
    assert (Hx : exists k, In (k, x) fields).
    { destruct H as [H|H]; apply in_map_iff in H;
        destruct H as ([k x'] & <- & H); apply filter_In in H;
        exists k; tauto. }
    destruct Hx as (k & Hx).
    destruct (Hin2' k x Hx) as (f & _ & Hattr & ->). eexists. split; eauto.
    destruct (SchemaMeta.is_attribute f).
    - apply set_sp_attribute, bind_key_attribute, Hattr.
    - apply bind_key_attribute, Hattr. }
  erewrite bind_eq_Ok by exact Hrun3.
  eexists _, h2. split; [reflexivity|].
  cbn [SchemaMeta._japi_attributes SchemaMeta._japi_meta
       SchemaMeta._japi_relationships SchemaMeta._japi_links].
  repeat split.
  - intros key addr f H Hf.
    destruct (Hin2' key addr H) as (g & Hg & _ & Hg2).
    rewrite Hg2. rewrite Hf in Hg. injection Hg as <-. reflexivity.
  - intros addr H. rewrite Hout2, Hout1; [reflexivity|exact H|].
    intros Hx. apply H. apply in_map_iff in Hx.
    destruct Hx as ([k x] & <- & Hx). apply filter_In in Hx.
    apply in_map_iff. exists (k, x). tauto.
Qed.

(** X9: for a class body whose names are bound to attributes (of any
    class of the catalog), each name to an object of its own, and bases
    that the metaclass made, [__new__] returns a class.  Its
    [_japi_attributes] holds the attributes that are not [meta], in the
    order of the body, and its [_japi_meta] the ones that are; it has no
    relationships and no links.  [__new__] has changed the objects where
    they are: each has its name in the body as key, and the name and the
    mapped key it was given or else that key; an attribute that is not
    [meta] has the source pointer [/attributes/<name>], and a [meta]
    attribute the source pointer it had: [_assign_sp] is called for the
    links in their place.  No other object has changed. *)
Theorem attributes_are_filed {pattern : Type} (n : nat) (name : string)
    (bases : list (option SchemaMeta.cls)) (a : SchemaMeta.attrs)
    (h : @SchemaMeta.heap pattern) :
  Forall (fun base => match base with
                      | Some b => @SchemaMeta.made pattern n b
                      | None => True
                      end) bases ->
  Forall (fun ka => exists f,
                      h !! snd ka = Some f
                      /\ is_some (SchemaMeta.attribute_of f) = true)
    (SchemaMeta.attrs_fields a) ->
  List.NoDup (List.map fst (SchemaMeta.attrs_fields a)) ->
  List.NoDup (List.map snd (SchemaMeta.attrs_fields a)) ->
  exists c h',
    SchemaMeta.__new__ name bases a h = (Ok c, h')
    /\ SchemaMeta._japi_attributes c
       = List.filter (fun ka => match h !! snd ka with
                                | Some f => SchemaMeta.is_attribute f
                                | None => false
                                end) (SchemaMeta.attrs_fields a)
    /\ SchemaMeta._japi_meta c
       = List.filter (fun ka => match h !! snd ka with
                                | Some f => SchemaMeta.is_meta f
                                | None => false
                                end) (SchemaMeta.attrs_fields a)
    /\ SchemaMeta._japi_relationships c = []
    /\ SchemaMeta._japi_links c = []
    /\ (forall key addr f,
          In (key, addr) (SchemaMeta.attrs_fields a) ->
          h !! addr = Some f ->
          h' !! addr
          = Some (if SchemaMeta.is_attribute f
                  then SchemaMeta.set_sp (SchemaMeta.bind_key key f)
                         (Some ["attributes";
                                SchemaMeta.str_or
                                  (BaseField.name (SchemaMeta.base f)) key])
                  else SchemaMeta.bind_key key f))
    /\ (forall addr,
          ~ In addr (List.map snd (SchemaMeta.attrs_fields a)) ->
          h' !! addr = h !! addr).
Proof.
  intros Hbases. apply new_attributes, inherited_nil.
  eapply Forall_impl; [exact Hbases|].
  intros [b|]; [apply made_fields_by_key|auto].
Qed.

Lemma Schema_class_is_made :
  @SchemaMeta.made string 1 Schema_class.
Proof.
  exists "Schema", [], Schema_attrs, ∅, ∅. split; [constructor|reflexivity].
Qed.

Lemma no_class_has_fields_by_key_witness :
  exists c h',
    SchemaMeta.__new__ "ArticleSchema" [Some Schema_class] article_attrs
      article_heap = (Ok c, h')
    /\ dict_get (SchemaMeta._fields_by_key c) "title" = None.
Proof.
  destruct (new_attributes "ArticleSchema" [Some Schema_class] article_attrs
              article_heap) as (c & h' & Hnew & _).
  - reflexivity.
  - repeat constructor; eexists; split; reflexivity.
  - repeat constructor; simpl; intuition discriminate.
  - repeat constructor; simpl; intuition discriminate.
  - exists c, h'. split; [exact Hnew|].
    apply (no_class_has_fields_by_key 1 "ArticleSchema" [Some Schema_class]
             article_attrs c article_heap h'); [|exact Hnew].
    constructor; [exact Schema_class_is_made|constructor].
Defined.

Lemma attributes_are_filed_witness :
  exists c h',
    SchemaMeta.__new__ "ArticleSchema" [Some Schema_class] article_attrs
      article_heap = (Ok c, h')
    /\ SchemaMeta._japi_attributes c = [("title", 0%nat)]
    /\ SchemaMeta._japi_meta c = [("views", 1%nat)]
    /\ option_map (fun f => BaseField.sp (SchemaMeta.base f)) (h' !! 0%nat)
       = Some (Some ["attributes"; "title"])
    /\ option_map (fun f => BaseField.sp (SchemaMeta.base f)) (h' !! 1%nat)
       = Some None.
Proof.
  destruct (attributes_are_filed 1 "ArticleSchema" [Some Schema_class]
              article_attrs article_heap)
    as (c & h' & Hnew & Ha & Hm & _ & _ & Hobj & _).
  - constructor; [exact Schema_class_is_made|constructor].
  - repeat constructor; eexists; split; reflexivity.
  - repeat constructor; simpl; intuition discriminate.
  - repeat constructor; simpl; intuition discriminate.
  - exists c, h'. split; [exact Hnew|]. rewrite Ha, Hm.
    split; [reflexivity|]. split; [reflexivity|].
    rewrite (Hobj "title" 0%nat (new_attribute false)),
      (Hobj "views" 1%nat (new_attribute true));
      [split; reflexivity | simpl; auto | reflexivity | simpl; auto
       | reflexivity].
Defined.

(** The class body [title = alias = Attribute()] binds one object to two
    names: [__new__] files it under both, and leaves it with the key
    [alias], the name and the mapped key [title] and the source pointer
    [/attributes/title]. *)
Lemma aliased_attribute_is_one_object :
  exists c h',
    SchemaMeta.__new__ "ArticleSchema" [Some Schema_class] aliased_attrs
      article_heap = (Ok c, h')
    /\ SchemaMeta._japi_attributes c = [("title", 0%nat); ("alias", 0%nat)]
    /\ option_map SchemaMeta.base (h' !! 0%nat)
       = Some (BaseField.Make (Some "alias") (Some ["attributes"; "title"])
                 "title" "title" (PTuple ["never"; "creation"]) "never" None
                 None []).
Proof.
  eexists _, _. split; [vm_compute; reflexivity|].
  split; vm_compute; reflexivity.
Qed.

(** ** Relationships and links *)

Lemma dict_get_items {A : Type} (d : list (string * A)) (k : string) (v : A) :
  dict_get d k = Some v -> In k (List.map fst (dict_items d)).
Proof.
  induction d as [|[k' v'] d IH]; simpl; [discriminate|].
  destruct (String.eqb_spec k' k) as [->|Hne]; [auto|].
  intros H. right. apply IH in H.
  apply in_map_iff in H. destruct H as ([k0 v0] & <- & H).
  apply in_map_iff. exists (k0, v0). split; [reflexivity|].
  apply filter_In. split; [exact H|]. simpl in *.
  destruct (String.eqb_spec k0 k'); [congruence|reflexivity].
Qed.

Lemma relationship_members_only {A : Type} (d : list (string * A))
    (k : string) :
  forallb (fun k => str_in k relationship_members)
    (List.map fst (dict_items d)) = true ->
  str_in k relationship_members = false ->
  dict_in k d = false.
Proof.
  intros Hall Hk. unfold dict_in.
  destruct (dict_get d k) as [v|] eqn:E; [|reflexivity].
  apply dict_get_items in E.
  rewrite (proj1 (forallb_forall _ _) Hall k E) in Hk. discriminate.
Qed.

(** X10: a relationship object passes [validate_relationship_object]
    exactly if its members are among [links], [data] and [meta] and [data]
    is one of them, whatever [dereference] and [require_data] are: the
    test [self.dereference or self.require_data] is true for every
    [require_data] that the initializer allows, ["never"] included. *)
Theorem relationship_data_is_always_required (set_pop : list string -> string)
    (self : Relationship.t) (d : list (string * value)) (sp : pointer) :
  Relationship.require_data self <> "" ->
  Relationship_validate_relationship_object set_pop self (VDict d) sp = Ok tt
  <-> forallb (fun k => str_in k relationship_members)
        (List.map fst (dict_items d)) = true
      /\ dict_in "data" d = true.
Proof.
  intros Hreq. unfold Relationship_validate_relationship_object.
  destruct (String.eqb_spec (Relationship.require_data self) "") as [|_];
    [contradiction|].
  rewrite orb_true_r. cbn [negb andb].
  destruct d as [|kv d]; [split; [discriminate|intros [_ H]; discriminate]|].
  destruct (forallb _ _); cbn [negb].
  - destruct (dict_in "data" (kv :: d)); cbn [negb]; split; try tauto;
      try discriminate.
    intros [_ H]. discriminate.
  - split; [discriminate|]. intros [H _]. discriminate.
Qed.

Lemma relationship_data_is_always_required_witness :
  Relationship_validate_relationship_object (fun l => hd "" l)
    (author_relationship false "never") (VDict [("meta", VDict [])])
    ["data"; "relationships"; "author"] <> Ok tt.
Proof.
  intros H.
  apply (relationship_data_is_always_required (fun l => hd "" l)
           (author_relationship false "never") [("meta", VDict [])]
           ["data"; "relationships"; "author"]) in H.
  - destruct H as [_ H]. discriminate H.
  - discriminate.
Defined.

(** X11: a to-one relationship object whose [data] member is not null
    never passes the validation of [ToOneRelationship]:
    [validate_resource_identifier] is handed the relationship object
    instead of its [data] member, and no relationship object that has
    passed so far has a [type] member.  When the object is a relationship
    object with members among [links], [data] and [meta], the error is
    InvalidValue for a missing [type] or [id], at the [data] member. *)
Theorem to_one_linkage_is_rejected (set_pop : list string -> string)
    (self : Relationship.t) (d : list (string * value)) (linkage : value)
    (sp : pointer) :
  dict_get d "data" = Some linkage ->
  linkage <> VNone ->
  exists e,
    ToOneRelationship_validate_relationship_object set_pop self (VDict d) sp
    = Raise e
    /\ (forall context w,
          ToOneRelationship_validate_pre_decode set_pop self (VDict d) sp
            context w = (Raise e, w))
    /\ (Relationship_validate_relationship_object set_pop self (VDict d) sp
        = Ok tt ->
        e = InvalidValue (Lit "Must contain a 'type' and an 'id' member.")
              (Some (sp // "data"))).
Proof.
  intros Hdata Hnull.
  assert (H : exists e,
            ToOneRelationship_validate_relationship_object set_pop self
              (VDict d) sp = Raise e
            /\ (Relationship_validate_relationship_object set_pop self
                  (VDict d) sp = Ok tt ->
                e = InvalidValue
                      (Lit "Must contain a 'type' and an 'id' member.")
                      (Some (sp // "data")))).
  { unfold ToOneRelationship_validate_relationship_object.
    destruct (Relationship_validate_relationship_object set_pop self
                (VDict d) sp) as [[]|e] eqn:E.
    2: { exists e. split; [reflexivity|discriminate]. }
    cbn [mbind result_bind]. rewrite Hdata.
    assert (Hkeys : forallb (fun k => str_in k relationship_members)
                      (List.map fst (dict_items d)) = true).
    { unfold Relationship_validate_relationship_object in E.
      destruct d; [discriminate|].
      destruct (forallb _ _); [reflexivity|discriminate]. }
    unfold Relationship_validate_resource_identifier.
    rewrite (relationship_members_only d "type" Hkeys eq_refl).
    cbn [andb negb].
    eexists. split; [|reflexivity].
    destruct linkage; try reflexivity. congruence. }
  destruct H as (e & He & Herr). exists e. split; [exact He|].
  split; [|exact Herr].
  intros context w. unfold ToOneRelationship_validate_pre_decode.
  rewrite He. reflexivity.
Qed.

Lemma to_one_linkage_is_rejected_witness :
  ToOneRelationship_validate_relationship_object (fun l => hd "" l)
    (author_relationship true "always")
    (VDict [("data", VDict [("type", VStr "people"); ("id", VStr "9")])])
    ["data"; "relationships"; "author"]
  = Raise (InvalidValue (Lit "Must contain a 'type' and an 'id' member.")
             (Some ["data"; "relationships"; "author"; "data"])).
Proof.
  destruct (to_one_linkage_is_rejected (fun l => hd "" l)
              (author_relationship true "always")
              [("data", VDict [("type", VStr "people"); ("id", VStr "9")])]
              (VDict [("type", VStr "people"); ("id", VStr "9")])
              ["data"; "relationships"; "author"] eq_refl)
    as (e & He & _ & Herr).
  - discriminate.
  - rewrite He. f_equal. apply Herr. reflexivity.
Defined.

(** X12: what [Link.encode] returns, it leaves as it is when it encodes
    it again; and what a link with [normalize] returns is an object: a str
    becomes [{"href": str}], an object is kept, any other value is an
    AssertionError. *)
Theorem Link_encode_idempotent (self : Link.t) (data x : value) :
  Link_encode self data = Ok x ->
  Link_encode self x = Ok x
  /\ (if Link.normalize self
      then exists d, x = VDict d
                     /\ (forall s, data = VStr s -> d = [("href", VStr s)])
      else x = data).
Proof.
  unfold Link_encode. destruct (Link.normalize self); cbn [negb].
  - destruct data; intros [= <-]; (split; [reflexivity|]);
      eexists; (split; [reflexivity|]); intros s' [= <-]; reflexivity.
  - intros [= <-]. split; reflexivity.
Qed.

Lemma Link_encode_idempotent_witness :
  Link_encode (self_link true) (VDict [("href", VStr "/api/articles/1")])
  = Ok (VDict [("href", VStr "/api/articles/1")]).
Proof.
  apply (Link_encode_idempotent (self_link true) (VStr "/api/articles/1")).
  reflexivity.
Defined.

(** ** The composite fields *)

Lemma dict_items_keys {A : Type} (d : list (string * A)) :
  List.NoDup (List.map fst (dict_items d)).
Proof.
  induction d as [|[k v] d IH]; simpl; constructor.
  - intros H. apply in_map_iff in H. destruct H as ([k' v'] & Hk & H).
    apply filter_In in H. simpl in *. subst k'.
    rewrite String.eqb_refl in H. destruct H. discriminate.
  - clear -IH. induction (dict_items d) as [|[k' v'] l IHl]; simpl;
      [constructor|].
    inversion IH; subst.
    destruct (negb (String.eqb k' k)); simpl; [|auto].
    constructor; [|auto].
    intros H. apply in_map_iff in H. destruct H as ([k0 v0] & Hk & H).
    apply filter_In in H. simpl in Hk. subst k0.
    match goal with Hn : ~ In _ _ |- _ => apply Hn end.
    apply in_map_iff. exists (k', v0). tauto.
Qed.

Lemma for_fold_ext {S A B : Type} (xs : list A) (acc : B)
    (body body' : B -> A -> ST S B) (s : S) :
  (forall acc x s, body acc x s = body' acc x s) ->
  for_fold xs acc body s = for_fold xs acc body' s.
Proof.
  intros H. revert acc s. induction xs as [|x xs IH]; intros acc s.
  - reflexivity.
  - rewrite !for_fold_cons, H.
    destruct (body' acc x s) as [[acc'|e] s']; [apply IH|reflexivity].
Qed.

(** The loop of a dict comprehension over items with distinct keys, when
    the call for each value returns and changes no instance. *)
Lemma for_fold_items {A : Type} (call : string -> A -> M value)
    (l : list (string * A)) (out : list (string * value))
    (acc : list (string * value)) (w : world) :
  Forall2 (fun kv kx => fst kv = fst kx
                        /\ call (fst kv) (snd kv) w = (Ok (snd kx), w))
    l out ->
  List.NoDup (List.map fst acc ++ List.map fst l) ->
  for_fold l acc
    (fun items '(key, value) =>
       x ← call key value; mret (dict_set items key x)) w
  = (Ok (acc ++ out), w).
Proof.
  intros H. revert acc.
  induction H as [|[k v] [k' x] l out [Hk Hcall] _ IH]; intros acc Hkeys.
  - simpl. now rewrite app_nil_r.
  - simpl in Hk, Hcall, Hkeys. subst k'. rewrite for_fold_cons.
    assert (Hbody : (x ← call k v; mret (dict_set acc k x)) w
                    = (Ok (dict_set acc k x), w)).
    { unfold mbind, ST_bind. rewrite Hcall. reflexivity. }
    cbv beta iota. rewrite Hbody.
    rewrite dict_set_new.
    + rewrite IH.
      * now rewrite <- app_assoc.
      * rewrite map_app. simpl. rewrite <- app_assoc. exact Hkeys.
    + intros Hin. apply List.NoDup_remove_2 in Hkeys.
      apply Hkeys, in_or_app. auto.
Qed.

(** X13: the round trip of a [Dict] field is the one of its inner field,
    value by value.  When the inner field encodes each value [v] of a
    dict to [x], and decodes [x] to [v], changing no instance, the [Dict]
    field encodes the dict to the dict of the values [x] under the same
    keys, and decodes that dict, found at a source pointer, to the dict
    itself. *)
Theorem Dict_round_trip (self : Dict.t) (d wire : list (string * value))
    (sp : pointer) (w : world) :
  Forall2 (fun kv kx =>
             fst kv = fst kx
             /\ Field.encode (Dict.field self) (snd kv) w = (Ok (snd kx), w)
             /\ Field.decode (Dict.field self) (snd kx)
                  (Some (sp // fst kv)) w = (Ok (snd kv), w))
    (dict_items d) wire ->
  Dict.encode self (VDict d) w = (Ok (VDict wire), w)
  /\ Dict.decode self (VDict wire) (Some sp) w = (Ok (VDict (dict_items d)), w).
Proof.
  intros H.
  assert (Hkeys : List.map fst wire = List.map fst (dict_items d)).
  { clear -H. induction H as [|[k v] [k' x] l out [Hk _] _ IH]; simpl;
      [reflexivity|].
    simpl in Hk. now rewrite IH, Hk. }
  assert (Hwire : dict_items wire = wire).
  { apply dict_items_NoDup. rewrite Hkeys. apply dict_items_keys. }
  split.
  - unfold Dict.encode. unfold mbind at 1. unfold ST_bind.
    rewrite (for_fold_items (fun _ value => Field.encode (Dict.field self) value)
               (dict_items d) wire []).
    + reflexivity.
    + eapply Forall2_impl; [exact H|]. simpl. tauto.
    + simpl. apply dict_items_keys.
  - unfold Dict.decode. rewrite Hwire. unfold mbind at 1. unfold ST_bind.
    erewrite for_fold_ext.
    2: { intros acc [key value] s.
         instantiate (1 := fun items '(key, value) =>
           x ← (value_sp ← lift (Dict.div (Some sp) key);
                Field.decode (Dict.field self) value (Some value_sp));
           mret (dict_set items key x)).
         cbv beta iota. unfold mbind, ST_bind, lift, Dict.div. reflexivity. }
    rewrite (for_fold_items
               (fun key value =>
                  value_sp ← lift (Dict.div (Some sp) key);
                  Field.decode (Dict.field self) value (Some value_sp))
               wire (dict_items d) []).
    + reflexivity.
    + apply Forall2_flip. eapply Forall2_impl; [exact H|].
      intros [k v] [k' x] (Hk & _ & Hd). simpl in *. subst k'.
      split; [reflexivity|]. exact Hd.
    + simpl. rewrite Hkeys. apply dict_items_keys.
Qed.

Lemma Dict_round_trip_witness :
  Dict.encode counts_field (VDict [("a", VInt 1); ("b", VInt 2)]) ∅
  = (Ok (VDict [("a", VInt 1); ("b", VInt 2)]), ∅)
  /\ Dict.decode counts_field (VDict [("a", VInt 1); ("b", VInt 2)])
       (Some ["data"; "attributes"; "counts"]) ∅
     = (Ok (VDict [("a", VInt 1); ("b", VInt 2)]), ∅).
Proof.
  apply (Dict_round_trip counts_field [("a", VInt 1); ("b", VInt 2)]
           [("a", VInt 1); ("b", VInt 2)] ["data"; "attributes"; "counts"] ∅).
  repeat constructor.
Defined.

Lemma List_decode_loop (div_value : pointer -> value -> result pointer)
    (field : Field.t) (sp : option pointer) (items : list value) :
  (forall x p w, Field.decode field x p w = (Ok x, w)) ->
  forall (i : nat) (decoded r : list value) (w w' : world),
    for_fold (enumerate (Z.of_nat i) items) decoded
      (fun decoded '(item, i) =>
         item_sp ← lift match sp with
                        | Some p => div_value p i
                        | None => Raise TypeError
                        end;
         x ← Field.decode field (VInt item) (Some item_sp);
         mret (decoded ++ [x])) w = (Ok r, w') ->
    r = decoded
        ++ List.map (fun i => VInt (Z.of_nat i)) (seq i (length items))
    /\ w' = w.
Proof.
  intros Hfield. induction items as [|x items IH]; intros i decoded r w w'.
  - simpl. intros [= <- <-]. now rewrite app_nil_r.
  - cbn [enumerate]. rewrite for_fold_cons.
    unfold mbind at 1. unfold ST_bind at 1. unfold lift at 1.
    destruct (match sp with
              | Some p => div_value p x
              | None => Raise TypeError
              end) as [item_sp|e]; [|discriminate].
    unfold mbind at 1. unfold ST_bind at 1. rewrite Hfield.
    unfold mret at 1. unfold ST_ret at 1.
    replace (Z.of_nat i + 1)%Z with (Z.of_nat (S i)) by lia.
    intros H. apply IH in H. destruct H as [-> ->].
    split; [|reflexivity]. simpl. now rewrite <- app_assoc.
Qed.

(** X14: what a [List] field decodes is not the items of the list:
    [for item, i in enumerate(data)] binds [item] to the index.  With an
    inner field whose [decode] returns its data (such as Attribute,
    String or Boolean), [decode] returns the list of the indices [0, 1,
    ...] of the items whenever it returns, whatever the items are, and
    changes no instance. *)
Theorem List_decode_returns_the_indices
    (div_value : pointer -> value -> result pointer) (field : Field.t)
    (data r : value) (sp : option pointer) (w w' : world) :
  (forall x p w, Field.decode field x p w = (Ok x, w)) ->
  List_decode div_value field data sp w = (Ok r, w') ->
  exists items,
    iterate data = Ok items
    /\ r = VList (List.map (fun i => VInt (Z.of_nat i))
                    (seq 0 (length items)))
    /\ w' = w.
Proof.
  intros Hfield. unfold List_decode.
  unfold mbind at 1. unfold ST_bind at 1. unfold lift at 1.
  destruct (iterate data) as [items|e]; [|discriminate].
  unfold mbind at 1. unfold ST_bind at 1.
  destruct (for_fold _ _ _ w) as [[decoded|e] w1] eqn:E; [|discriminate].
  intros [= <- <-].
  apply (List_decode_loop div_value field sp items Hfield 0 []) in E.
  destruct E as [-> ->]. eauto.
Qed.

Lemma List_decode_returns_the_indices_witness :
  exists items,
    iterate (VList [VStr "a"; VStr "b"]) = Ok items
    /\ VList [VInt 0; VInt 1]
       = VList (List.map (fun i => VInt (Z.of_nat i)) (seq 0 (length items)))
    /\ (∅ : world) = ∅.
Proof.
  apply (List_decode_returns_the_indices (fun p x => Ok (p // "0"))
           (title_field (PStr "update") "never")
           (VList [VStr "a"; VStr "b"]) (VList [VInt 0; VInt 1])
           (Some ["data"; "attributes"; "tags"]) ∅ ∅).
  - reflexivity.
  - reflexivity.
Defined.

(** ** The scalar fields *)

Lemma BaseField_init_fresh (p : nat) (kw : BaseField.kwargs)
    (self : BaseField.t) :
  BaseField.__init__ p kw = Ok self -> BaseField.fvalidators self = [].
Proof.
  unfold BaseField.__init__, assert. intros H.
  repeat (case_if_in H; cbn [mbind result_bind] in H; try discriminate H).
  all: inversion H; reflexivity.
Qed.

(** X15: a String field cannot be constructed without a regular
    expression ([re.compile(None)] is a TypeError), and the field
    constructed with one rejects, with InvalidValue "Did not match
    regex.", exactly the strs that the regular expression matches in
    full; every other str is accepted. *)
Theorem String_rejects_what_matches {pattern : Type}
    (re_compile : string -> result pattern)
    (re_fullmatch : pattern -> string -> bool) (positional : nat) :
  (forall kargs,
     exists e, Str.__init__ re_compile positional (Str.Kwargs None kargs)
               = Raise e)
  /\ (forall regex kargs self,
        Str.__init__ re_compile positional (Str.Kwargs (Some regex) kargs)
        = Ok self ->
        exists r,
          re_compile regex = Ok r
          /\ forall s sp context w,
               Str.validate_pre_decode re_fullmatch self (VStr s) sp context w
               = if re_fullmatch r s
                 then (Raise (InvalidValue (Lit "Did not match regex.")
                                (Some sp)), w)
                 else (Ok tt, w)).
Proof.
  split.
  - intros kargs. unfold Str.__init__. cbn [Str.kargs Str.kw_regex].
    destruct (negb (Nat.eqb positional 0)); [eauto|].
    destruct (Attribute.__init__ 0 kargs); simpl; eauto.
  - intros regex kargs self. unfold Str.__init__.
    cbn [Str.kargs Str.kw_regex].
    destruct (negb (Nat.eqb positional 0)); [discriminate|].
    destruct (Attribute.__init__ 0 kargs) as [attribute|e] eqn:Ea;
      cbn [mbind result_bind]; [|discriminate].
    destruct (re_compile regex) as [r|e]; cbn [mbind result_bind];
      [|discriminate].
    intros [= <-]. exists r. split; [reflexivity|].
    intros s sp context w. unfold Str.validate_pre_decode.
    cbn [Str.regex Str.attribute].
    destruct (re_fullmatch r s); [reflexivity|].
    apply BaseField_validate_no_validators.
    unfold Attribute.__init__ in Ea.
    destruct (negb (Nat.eqb 0 0)); [discriminate|].
    destruct (BaseField.__init__ 0 (Attribute.kargs kargs)) as [base|e] eqn:Eb;
      cbn [mbind result_bind] in Ea; [|discriminate].
    inversion Ea. eapply BaseField_init_fresh, Eb.
Qed.

Lemma String_rejects_what_matches_witness :
  exists self,
    Str.__init__ (fun regex => Ok regex) 0
      (Str.Kwargs (Some "draft") Attribute.no_kwargs) = Ok self
    /\ Str.validate_pre_decode String.eqb self (VStr "draft")
         ["data"; "attributes"; "title"] (Some "update") ∅
       = (Raise (InvalidValue (Lit "Did not match regex.")
                   (Some ["data"; "attributes"; "title"])), ∅)
    /\ Str.validate_pre_decode String.eqb self (VStr "final")
         ["data"; "attributes"; "title"] (Some "update") ∅
       = (Ok tt, ∅).
Proof.
  eexists. split; [reflexivity|].
  destruct (proj2 (String_rejects_what_matches (fun regex => Ok regex)
                     String.eqb 0)
              "draft" Attribute.no_kwargs _ eq_refl) as (r & [= <-] & H).
  split; apply H.
Defined.

(** ** The registry of schemas *)

(** X16: [add_schema] for a schema with a resource class, not bound to
    another API, registers the schema under its type and its resource
    class and binds it to the API; afterwards [get_schema] finds it for
    every instance of the resource class, and finds what it found before
    for the instances of the other classes.  With [add_handlers], the
    default, the call raises AttributeError (a schema has no [handler])
    after it has registered the schema all the same. *)
Theorem add_schema_registers (api : nat) (self : API.t) (schema : API.schema)
    (cls : string) (schema_api : option nat) (add_handlers : bool) :
  schema_api = None \/ schema_api = Some api ->
  exists self',
    API_add_schema api schema (Some cls) add_handlers (self, schema_api)
    = (if add_handlers then Raise (AttributeError "handler") else Ok tt,
       (self', Some api))
    /\ (forall a, API.get_schema self' (API.Inst a cls) = Ok schema)
    /\ (forall a cls',
          cls' <> cls ->
          API.get_schema self' (API.Inst a cls')
          = API.get_schema self (API.Inst a cls'))
    /\ API._schema_by_type self' !! API.type schema = Some schema
    /\ In (API.type schema) (API_get_typenames self').
Proof.
  intros Hapi. unfold API_add_schema.
  assert (Hassert : assert match schema_api with
                           | None => true
                           | Some a => Nat.eqb a api
                           end = Ok tt).
  { destruct Hapi as [->| ->]; [reflexivity|].
    now rewrite Nat.eqb_refl. }
  rewrite Hassert. eexists. split.
  - destruct add_handlers; reflexivity.
  - unfold API.get_schema. cbn [API.hashable mbind result_bind
                                API._schema_by_resource_class
                                API._schema_by_type].
    split; [|split; [|split]].
    + intros a. now rewrite lookup_insert_eq.
    + intros a cls' Hne. now rewrite lookup_insert_ne by congruence.
    + apply lookup_insert_eq.
    + unfold API_get_typenames. cbn [API._schema_by_type].
      apply in_map_iff. exists (API.type schema, schema).
      split; [reflexivity|].
      apply list_elem_of_In, elem_of_map_to_list, lookup_insert_eq.
Qed.

Lemma add_schema_registers_witness :
  exists self',
    API_add_schema 0 node_schema (Some "Node") true
      (API.Make ∅ ∅, None)
    = (Raise (AttributeError "handler"), (self', Some 0%nat))
    /\ API.get_schema self' node_A = Ok node_schema.
Proof.
  destruct (add_schema_registers 0 (API.Make ∅ ∅) node_schema "Node" None
              true (or_introl eq_refl)) as (self' & Hadd & Hget & _).
  exists self'. split; [exact Hadd|apply Hget].
Defined.



(** X18: no wire value passes through a Fraction field.  What the
    validation accepts is an object with an int [numerator] and an int
    [denominator] that is not zero, and [decode] subscripts the value with
    0 and 1: for every value that the validation accepts, [decode] raises
    KeyError. *)
Theorem Fraction_decodes_nothing_it_accepts (self : Fraction_t) (data : value)
    (sp : pointer) (context : option string) (w w' : world) :
  Fraction_validate_pre_decode self data sp context w = (Ok tt, w') ->
  (exists d numerator denominator n dn,
     data = VDict d
     /\ dict_get d "numerator" = Some numerator
     /\ dict_get d "denominator" = Some denominator
     /\ as_int numerator = Some n /\ as_int denominator = Some dn
     /\ dn <> 0)
  /\ forall sp' w'',
       Fraction.decode data sp' w'' = (Raise (KeyError (VInt 0)), w'').
Proof.
  unfold Fraction_validate_pre_decode. intros H.
  destruct data as [| | | | | |d| | | | |]; try discriminate H.
  split; [|intros; apply Fraction_decode_raises].
  destruct (dict_get d "numerator") as [numerator|] eqn:E1;
    [|discriminate H].
  destruct (dict_get d "denominator") as [denominator|] eqn:E2;
    [|discriminate H].
  destruct (as_int numerator) as [n|] eqn:E3; [|discriminate H].
  destruct (as_int denominator) as [dn|] eqn:E4; [|discriminate H].
  destruct (Z.eqb_spec dn 0); [discriminate H|].
  exists d, numerator, denominator, n, dn. auto 10.
Qed.

Lemma Fraction_decodes_nothing_it_accepts_witness :
  Fraction.decode (VDict [("numerator", VInt 2); ("denominator", VInt 3)])
    (Some ["data"; "attributes"; "ratio"]) ∅
  = (Raise (KeyError (VInt 0)), ∅).
Proof.
  apply (Fraction_decodes_nothing_it_accepts ratio_field
           (VDict [("numerator", VInt 2); ("denominator", VInt 3)])
           ["data"; "attributes"; "ratio"] (Some "update") ∅ ∅).
  vm_compute. reflexivity.
Defined.

(** ** Validating and updating through the schema *)

(** X19: [update_relationship] returns for no input.  It raises KeyError
    when the schema has no relationship of that name, or what the
    validation or the decoding of the relationship raises; and when these
    return, it raises AttributeError for [_validate_field_post_decode],
    before it queries the resource or calls the setter of the
    relationship. *)
Theorem update_relationship_raises (self : Schema.t) (relname : string)
    (resource data : value) (sp : pointer) (w : world) :
  exists e w',
    Schema_update_relationship self relname resource data sp w = (Raise e, w')
    /\ forall field w1 decoded w2,
         dict_get (Schema._japi_relationships self) relname = Some field ->
         Schema._validate_field_pre_decode self field data (Some sp)
           (Some "update") w = (Ok tt, w1) ->
         Field.decode field data (Some sp) w1 = (Ok decoded, w2) ->
         e = AttributeError "_validate_field_post_decode" /\ w' = w2.
Proof.
  unfold Schema_update_relationship.
  destruct (dict_get (Schema._japi_relationships self) relname) as [field|].
  2: { eexists _, _. split; [reflexivity|]. intros f w1 decoded w2 [=]. }
  unfold mbind at 1. unfold ST_bind at 1. unfold lift at 1.
  unfold mbind at 1. unfold ST_bind at 1.
  destruct (Schema._validate_field_pre_decode self field data (Some sp)
              (Some "update") w) as [[[]|e] w1] eqn:Ev.
  2: { eexists _, _. split; [reflexivity|].
       intros f w1' decoded w2 [= <-] H. rewrite Ev in H. discriminate H. }
  unfold mbind at 1. unfold ST_bind at 1.
  unfold Schema._decode_field. cbn [Nat.eqb negb].
  unfold mbind at 1. unfold ST_bind at 1.
  destruct (Field.decode field data (Some sp) w1) as [[decoded|e] w2] eqn:Ed.
  2: { eexists _, _. split; [reflexivity|].
       intros f w1' decoded w2' [= <-] H. rewrite Ev in H.
       injection H as <-. rewrite Ed. discriminate. }
  eexists _, _. split; [reflexivity|].
  intros f w1' decoded' w2' [= <-] H. rewrite Ev in H. injection H as <-.
  rewrite Ed. intros [= <- <-]. split; reflexivity.
Qed.

Lemma member_is_an_object (d : list (string * value)) (member : string)
    (k : list (string * value) -> M unit) (e : exn) (w w' : world) :
  match default (VDict []) (dict_get d member) with
  | VDict x => k x
  | _ => raise e
  end w = (Ok tt, w') ->
  match dict_get d member with
  | Some (VDict _) | None => True
  | Some _ => False
  end.
Proof. destruct (dict_get d member) as [[]|]; simpl; auto; discriminate. Qed.

(** X20: what [validate_resource_pre_decode] accepts is an object with an
    [id] member, for a schema that has an id field; the [id] is equal to
    the expected id when there is one, and the members [attributes],
    [relationships] and [meta], where the object has them, are objects. *)
Theorem validate_resource_pre_decode_accepts (self : Schema.t) (data : value)
    (sp : pointer) (context : option string) (expected_id : value)
    (w w' : world) :
  Schema.validate_resource_pre_decode self data sp context expected_id w
  = (Ok tt, w') ->
  exists d id,
    data = VDict d
    /\ dict_get d "id" = Some id
    /\ is_some (Schema._japi_id self) = true
    /\ (if truthy expected_id then py_eq id expected_id = true else True)
    /\ Forall (fun member =>
                 match dict_get d member with
                 | Some (VDict _) | None => True
                 | Some _ => False
                 end)
         ["attributes"; "relationships"; "meta"].
Proof.
  unfold Schema.validate_resource_pre_decode. intros H.
  destruct data as [| | | | | |d| | | | |]; try discriminate H.
  case_if_in H; [discriminate H|].
  apply bind_Ok in H as ([] & w0 & Hexpected & H).
  apply bind_Ok in H as (japi_id & w1 & Hjapi & H).
  apply bind_Ok in H as (id & w2 & Hid & H).
  apply bind_Ok in H as ([] & w3 & _ & H).
  apply bind_Ok in H as ([] & w4 & Hattrs & H).
  apply bind_Ok in H as ([] & w5 & Hrels & Hmeta).
  unfold Schema.attribute in Hjapi.
  destruct (Schema._japi_id self); [|discriminate Hjapi].
  unfold lift in Hid.
  destruct (dict_get d "id") as [id'|] eqn:Eid; [|discriminate Hid].
  injection Hid as -> ->.
  exists d, id.
  split; [reflexivity|]. split; [exact Eid|]. split; [reflexivity|]. split.
  - destruct (truthy expected_id); [|exact I].
    apply bind_Ok in Hexpected as (id' & w6 & Hid' & Hexpected).
    unfold lift in Hid'. injection Hid' as <- <-.
    destruct (py_eq id expected_id); [reflexivity|discriminate Hexpected].
  - constructor; [|constructor; [|constructor; [|constructor]]].
    + exact (member_is_an_object d "attributes" _ _ _ _ Hattrs).
    + exact (member_is_an_object d "relationships" _ _ _ _ Hrels).
    + exact (member_is_an_object d "meta" _ _ _ _ Hmeta).
Qed.

Lemma validate_resource_pre_decode_accepts_witness :
  exists d id,
    VDict [("type", VStr "articles"); ("id", VStr "5")] = VDict d
    /\ dict_get d "id" = Some id
    /\ is_some (Schema._japi_id articles_schema_with_id) = true
    /\ (if truthy (VStr "5") then py_eq id (VStr "5") = true else True)
    /\ Forall (fun member =>
                 match dict_get d member with
                 | Some (VDict _) | None => True
                 | Some _ => False
                 end)
         ["attributes"; "relationships"; "meta"].
Proof.
  apply (validate_resource_pre_decode_accepts articles_schema_with_id
           (VDict [("type", VStr "articles"); ("id", VStr "5")]) ["data"]
           (Some "update") (VStr "5") ∅ ∅).
  reflexivity.
Defined.

(** ** The Float field *)

Lemma number_ltb_leb (x y : number) :
  x <> NNan -> y <> NNan -> number_ltb x y = negb (number_leb y x).
Proof.
  unfold number_leb.
  destruct x as [a b|s|], y as [c d|t|]; try congruence; intros _ _; simpl.
  - destruct (Z.ltb_spec (a * Z.pos d) (c * Z.pos b)),
      (Z.ltb_spec (c * Z.pos b) (a * Z.pos d)),
      (Z.eqb_spec (c * Z.pos b) (a * Z.pos d)); simpl; try reflexivity; lia.
  - destruct t; reflexivity.
  - destruct s; reflexivity.
  - destruct s, t; reflexivity.
Qed.

Lemma number_leb_not_nan (x y : number) :
  number_leb x y = true -> x <> NNan /\ y <> NNan.
Proof.
  unfold number_leb. destruct x, y; simpl; try discriminate;
    split; discriminate.
Qed.

Lemma Attribute_init_fresh (p : nat) (kw : Attribute.kwargs)
    (self : Attribute.t) :
  Attribute.__init__ p kw = Ok self ->
  BaseField.fvalidators (Attribute.base self) = [].
Proof.
  unfold Attribute.__init__. destruct (negb (Nat.eqb p 0)); [discriminate|].
  destruct (BaseField.__init__ 0 (Attribute.kargs kw)) as [base|e] eqn:E;
    cbn [mbind result_bind]; [|discriminate].
  intros [= <-]. eapply BaseField_init_fresh, E.
Qed.

(** X21: [Float(min=lo, max=hi)] is constructed only for [lo <= hi], and
    the field it constructs rejects a number below [lo] with InvalidValue
    "Must be >= lo." and a number above [hi] with "Must be <= hi."; it
    accepts the numbers from [lo] to [hi], both included, and it accepts
    NaN, whatever the bounds are: no comparison with a NaN is true.  The
    numbers are compared exactly, an int with a float too. *)
Theorem Float_bounds (positional : nat) (lo hi : bound)
    (kargs : Attribute.kwargs) (self : Float_t) (data : value) (x : number)
    (sp : pointer) (context : option string) (w : world) :
  Float_init positional (Float_Kwargs (Some lo) (Some hi) kargs) = Ok self ->
  real_number data = Some x ->
  number_leb (bound_number lo) (bound_number hi) = true
  /\ Float_validate_pre_decode self data sp context w =
     match x with
     | NNan => (Ok tt, w)
     | _ =>
         if negb (number_leb (bound_number lo) x)
         then (Raise (InvalidValue (Format "Must be >= {}." [bound_value lo])
                        (Some sp)), w)
         else if negb (number_leb x (bound_number hi))
         then (Raise (InvalidValue (Format "Must be <= {}." [bound_value hi])
                        (Some sp)), w)
         else (Ok tt, w)
     end.
Proof.
  unfold Float_init. cbn [Float_kw_min Float_kw_max Float_kargs].
  destruct (negb (Nat.eqb positional 0)); [discriminate|].
  destruct (Attribute.__init__ 0 kargs) as [attribute|e] eqn:Ea;
    cbn [mbind result_bind]; [|discriminate].
  destruct (number_leb (bound_number lo) (bound_number hi)) eqn:Hle;
    cbn [assert mbind result_bind]; [|discriminate].
  intros [= <-] Hx. split; [reflexivity|].
  destruct (number_leb_not_nan _ _ Hle) as [Hlo Hhi].
  unfold Float_validate_pre_decode.
  cbn [Float_min Float_max Float_attribute default]. rewrite Hx.
  pose proof (BaseField_validate_no_validators (Attribute.base attribute)
                data sp context w (Attribute_init_fresh _ _ _ Ea)) as Hbase.
  assert (Hcases : x = NNan \/ x <> NNan).
  { destruct x; [right|right|left]; congruence. }
  destruct Hcases as [->|Hnan].
  - destruct (bound_number lo), (bound_number hi); exact Hbase.
  - rewrite (number_ltb_leb x _ Hnan Hlo), (number_ltb_leb _ x Hhi Hnan).
    clear Hle.
    destruct x; [| |congruence];
      repeat match goal with
             | |- context [negb ?b] => destruct b; cbn [negb]
             end;
      first [exact Hbase | reflexivity].
Qed.

Lemma Float_bounds_witness :
  exists self,
    Float_init 0 (Float_Kwargs (Some (BInt 0)) (Some (BInt 5))
                    Attribute.no_kwargs) = Ok self
    /\ Float_validate_pre_decode self (VFloat S754_nan)
         ["data"; "attributes"; "rating"] (Some "update") ∅ = (Ok tt, ∅)
    /\ Float_validate_pre_decode self (VFloat (S754_finite false 11 (-1)))
         ["data"; "attributes"; "rating"] (Some "update") ∅
       = (Raise (InvalidValue (Format "Must be <= {}." [VInt 5])
                   (Some ["data"; "attributes"; "rating"])), ∅)
    /\ Float_validate_pre_decode self (VInt 5)
         ["data"; "attributes"; "rating"] (Some "update") ∅ = (Ok tt, ∅).
Proof.
  eexists. split; [reflexivity|]. split; [|split].
  - apply (Float_bounds 0 (BInt 0) (BInt 5) Attribute.no_kwargs _
             (VFloat S754_nan) NNan); reflexivity.
  - apply (Float_bounds 0 (BInt 0) (BInt 5) Attribute.no_kwargs _
             (VFloat (S754_finite false 11 (-1))) (NRat 11 2)); reflexivity.
  - apply (Float_bounds 0 (BInt 0) (BInt 5) Attribute.no_kwargs _
             (VInt 5) (NRat 5 1)); reflexivity.
Defined.

(** ** The validation of to-many relationships *)

Lemma bind_lift {A B : Type} (r : result A) (k : A -> M B) (w : world) :
  (lift r ≫= k) w = match r with
                    | Ok a => k a w
                    | Raise e => (Raise e, w)
                    end.
Proof. destruct r; reflexivity. Qed.

(** X22: the validation of a to-many relationship accepts a relationship
    object exactly if it has no [data] member; it then checks nothing
    else.  For an object with a [data] member it raises, whatever the
    member is: when the member is an array, the loop
    [for i, item in enumerate(data)] takes the keys of the relationship
    object for resource identifiers, and the first key, a str, is
    rejected with InvalidType at [/data/0] unless the source pointer to it
    cannot be formed. *)
Theorem to_many_linkage_is_rejected
    (div_index : pointer -> Z -> result pointer)
    (InvalidType_sp : detail -> pointer -> exn) (self : Relationship.t)
    (d : list (string * value)) (sp : pointer) (w : world) :
  (dict_in "data" d = false ->
   ToManyRelationship_validate_relationship_object div_index InvalidType_sp
     self (VDict d) sp w = (Ok tt, w))
  /\ (dict_in "data" d = true ->
      exists e,
        ToManyRelationship_validate_relationship_object div_index
          InvalidType_sp self (VDict d) sp w = (Raise e, w)
        /\ forall linkage item_sp,
             dict_get d "data" = Some linkage ->
             is_sequence linkage = true ->
             div_index (sp // "data") 0 = Ok item_sp ->
             e = InvalidType (Lit "Must be an object.") (Some item_sp)).
Proof.
  unfold ToManyRelationship_validate_relationship_object.
  rewrite bind_lift. cbn [contains_data].
  split; intros Hdata; rewrite Hdata; [reflexivity|].
  unfold dict_in in Hdata.
  destruct (dict_get d "data") as [linkage|] eqn:E; [|discriminate].
  rewrite bind_lift. cbn [subscript_data]. rewrite E.
  destruct (is_sequence linkage) eqn:Hseq; cbn [negb].
  2: { eexists. split; [reflexivity|].
       intros linkage' item_sp [= <-] H. rewrite Hseq in H. discriminate. }
  rewrite bind_lift. cbn [iterate].
  destruct (dict_items d) as [|[k v] items] eqn:Eitems.
  { apply dict_get_items in E. rewrite Eitems in E. destruct E. }
  cbn [List.map enumerate for_each fst].
  unfold mbind at 1. unfold ST_bind at 1. rewrite bind_lift.
  destruct (div_index (sp // "data") 0) as [item_sp|e].
  - eexists. split; [reflexivity|].
    intros linkage' item_sp' _ _ [= <-]. reflexivity.
  - eexists. split; [reflexivity|]. intros linkage' item_sp' _ _ [=].
Qed.

Lemma to_many_linkage_is_rejected_witness :
  exists e,
    ToManyRelationship_validate_relationship_object
      (fun sp i => Ok (sp // "0")) (fun d sp => InvalidType d (Some sp))
      (author_relationship true "always")
      (VDict [("data", VList [VDict [("type", VStr "people");
                                     ("id", VStr "9")]])])
      ["data"; "relationships"; "authors"] ∅ = (Raise e, ∅)
    /\ forall linkage item_sp,
         dict_get
           [("data", VList [VDict [("type", VStr "people");
                                   ("id", VStr "9")]])] "data"
         = Some linkage ->
         is_sequence linkage = true ->
         Ok (["data"; "relationships"; "authors"] // "data" // "0")
         = Ok item_sp ->
         e = InvalidType (Lit "Must be an object.") (Some item_sp).
Proof.
  apply (proj2 (to_many_linkage_is_rejected
                  (fun sp i => Ok (sp // "0"))
                  (fun d sp => InvalidType d (Some sp))
                  (author_relationship true "always")
                  [("data", VList [VDict [("type", VStr "people");
                                          ("id", VStr "9")]])]
                  ["data"; "relationships"; "authors"] ∅)).
  reflexivity.
Defined.

(** ** The update of a field that is never writable *)

(** The loop over a partition of fields does not return when a value is
    supplied for a field of the partition that is never writable. *)
Lemma never_writable_member_is_not_accepted (self : Schema.t)
    (field : Field.t) (key : string) (before after : list (string * Field.t))
    (members : list (string * value)) (members_sp : pointer) (w w' : world) :
  Field.writable field = PStr "never" ->
  Schema.context_crud self <> Some "never" ->
  dict_in (Field.name field) members = true ->
  Schema.validate_members self (before ++ (key, field) :: after) members
    members_sp w <> (Ok tt, w').
Proof.
  intros Hnever Hctx Hin H.
  destruct (Schema.validate_members self before members members_sp w)
    as [[[]|e] w1] eqn:Hbefore.
  - rewrite (proj2 (never_writable_field_is_rejected self field Hnever)
               before after key members members_sp w w1 Hctx Hin Hbefore)
      in H.
    discriminate H.
  - unfold Schema.validate_members in H, Hbefore.
    rewrite map_app, for_each_app in H.
    rewrite (bind_eq_Raise _ _ _ _ _ Hbefore) in H. discriminate H.
Qed.

(** The pre-decode validation of a resource object does not return when
    the object supplies a value for an attribute that is never writable. *)
Lemma never_writable_attribute_is_not_accepted (self : Schema.t)
    (field : Field.t) (key : string) (before after : list (string * Field.t))
    (d attrs : list (string * value)) (sp : pointer)
    (context : option string) (expected_id : value) (w w' : world) :
  Field.writable field = PStr "never" ->
  Schema._japi_attributes self = before ++ (key, field) :: after ->
  Schema.context_crud self <> Some "never" ->
  dict_get d "attributes" = Some (VDict attrs) ->
  dict_in (Field.name field) attrs = true ->
  Schema.validate_resource_pre_decode self (VDict d) sp context expected_id w
  <> (Ok tt, w').
Proof.
  intros Hnever Hattrs Hctx Hd Hin H.
  unfold Schema.validate_resource_pre_decode in H.
  case_if_in H; [discriminate H|].
  apply bind_Ok in H as (? & w1 & _ & H).
  apply bind_Ok in H as (japi_id & w2 & _ & H).
  apply bind_Ok in H as (id & w3 & _ & H).
  apply bind_Ok in H as (? & w4 & _ & H).
  apply bind_Ok in H as ([] & w5 & H & _).
  rewrite Hd in H. simpl in H. rewrite Hattrs in H.
  exact (never_writable_member_is_not_accepted self field key before after
           attrs _ w4 w5 Hnever Hctx Hin H).
Qed.

(** C4: an update whose document supplies a value for an attribute whose
    [writable] is ["never"] does not return, whatever the resource and the
    rest of the document are.  For a resource named by its id and a
    document with that id, [update_resource] raises AttributeError for
    [_japi_id] on a schema that has no such attribute, as the metaclass and
    the class [Schema] leave it, before it looks at the attributes; on a
    schema that has an id field it raises the error for read-only fields
    (the source's ValidationError) with the pointer of the supplied member,
    [sp/attributes/name], when the id and the attributes before that one
    pass their validation. *)
Theorem update_of_never_writable_field (globals : list string)
    (self : Schema.t) (field : Field.t) (key : string)
    (before after : list (string * Field.t)) (resource : value)
    (d attrs : list (string * value)) (sp : pointer) (w : world) :
  Field.writable field = PStr "never" ->
  Schema._japi_attributes self = before ++ (key, field) :: after ->
  Schema.context_crud self <> Some "never" ->
  dict_get d "attributes" = Some (VDict attrs) ->
  dict_in (Field.name field) attrs = true ->
  (forall r w',
     Schema.update_resource globals self resource (VDict d) sp w = (r, w') ->
     exists e, r = Raise e)
  /\ (forall rc doc_id,
        Schema.resource_class self = Some rc ->
        (forall a, resource <> VObj a) ->
        truthy resource = true ->
        dict_get d "id" = Some doc_id ->
        py_eq doc_id resource = true ->
        match Schema._japi_id self with
        | None =>
            Schema.update_resource globals self resource (VDict d) sp w
            = (Raise (AttributeError "_japi_id"), w)
        | Some japi_id =>
            forall w1 w2,
              Schema._validate_field_pre_decode self japi_id doc_id
                (Some (sp // "id")) None w = (Ok tt, w1) ->
              Schema.validate_members self before attrs (sp // "attributes")
                w1 = (Ok tt, w2) ->
              Schema.update_resource globals self resource (VDict d) sp w
              = (Raise (ValidationError (Lit "The field '{}' is readonly.")
                          (Some (sp // "attributes" // Field.name field))),
                 w2)
        end).
Proof.
  intros Hnever Hattrs Hctx Hd Hin. split.
  - intros [u|e] w' H; [exfalso|eauto].
    unfold Schema.update_resource in H.
    apply bind_Ok in H as (is_instance & w1 & _ & H).
    apply bind_Ok in H as (resource_id & w2 & _ & H).
    apply bind_Ok in H as ([] & w3 & H & _).
    exact (never_writable_attribute_is_not_accepted self field key before
             after d attrs sp _ _ w2 w3 Hnever Hattrs Hctx Hd Hin H).
  - intros rc doc_id Hrc Hid Ht Hdoc Heq.
    assert (Hrun : forall r,
               Schema.validate_resource_pre_decode self (VDict d) sp
                 (Some "update") resource w = r ->
               Schema.update_resource globals self resource (VDict d) sp w
               = match r with
                 | (Raise e, w') => (Raise e, w')
                 | (Ok _, w') =>
                     Schema.update_resource globals self resource (VDict d)
                       sp w
                 end).
    { intros [[[]|e] w'] Hr; [reflexivity|].
      unfold Schema.update_resource. rewrite Hrc.
      erewrite bind_eq_Ok by (apply isinstance_of_id; assumption).
      erewrite bind_eq_Ok by reflexivity.
      erewrite bind_eq_Raise by exact Hr. reflexivity. }
    assert (Hvalidate :
              Schema.validate_resource_pre_decode self (VDict d) sp
                (Some "update") resource w
              = (japi_id ← Schema.attribute "_japi_id" (Schema._japi_id self);
                 Schema._validate_field_pre_decode self japi_id doc_id
                   (Some (sp // "id")) None;;
                 Schema.validate_members self (Schema._japi_attributes self)
                   attrs (sp // "attributes");;
                 match default (VDict []) (dict_get d "relationships") with
                 | VDict rels =>
                     Schema.validate_members self
                       (Schema._japi_relationships self) rels
                       (sp // "relationships")
                 | _ => raise (InvalidType (Lit "Must be an object.")
                                 (Some (sp // "relationships")))
                 end;;
                 match default (VDict []) (dict_get d "meta") with
                 | VDict meta =>
                     Schema.validate_members self (Schema._japi_meta self)
                       meta (sp // "meta")
                 | _ => raise (InvalidType (Lit "Must be an object.")
                                 (Some (sp // "meta")))
                 end) w).
    { unfold Schema.validate_resource_pre_decode.
      rewrite Ht, (dict_get_in _ _ _ Hdoc), Hd. simpl.
      unfold mbind at 1. unfold ST_bind.
      unfold mbind at 1. unfold ST_bind, lift at 1. rewrite Hdoc, Heq. simpl.
      unfold mbind, ST_bind, lift, mret, ST_ret.
      destruct (Schema.attribute "_japi_id" (Schema._japi_id self) w)
        as [[japi_id|e] w0]; reflexivity. }
    destruct (Schema._japi_id self) as [japi_id|] eqn:Hjapi.
    + intros w1 w2 Hidf Hbefore.
      rewrite (Hrun _ eq_refl), Hvalidate.
      simpl Schema.attribute. erewrite bind_eq_Ok by reflexivity.
      erewrite bind_eq_Ok by exact Hidf.
      rewrite Hattrs.
      erewrite bind_eq_Raise; [reflexivity|].
      apply (proj2 (never_writable_field_is_rejected self field Hnever));
        assumption.
    + rewrite (Hrun _ eq_refl), Hvalidate. reflexivity.
Qed.

Lemma update_of_never_writable_field_witness :
  (forall r w',
     Schema.update_resource schema_py
       (articles_schema (title_field (PStr "never") "never")) (VStr "5")
       (VDict update_document) ["data"] ∅ = (r, w') ->
     exists e, r = Raise e)
  /\ Schema.update_resource schema_py
       (articles_schema (title_field (PStr "never") "never")) (VStr "5")
       (VDict update_document) ["data"] ∅
     = (Raise (AttributeError "_japi_id"), ∅)
  /\ Schema.update_resource schema_py
       (articles_schema_with_id_and (title_field (PStr "never") "never"))
       (VStr "5") (VDict update_document) ["data"] ∅
     = (Raise (ValidationError (Lit "The field '{}' is readonly.")
                 (Some ["data"; "attributes"; "title"])), ∅).
Proof.
  destruct (update_of_never_writable_field schema_py
              (articles_schema (title_field (PStr "never") "never"))
              (title_field (PStr "never") "never") "title" [] [] (VStr "5")
              update_document [("title", VStr "Hello")] ["data"] ∅)
    as [Hraises Hclass];
    [reflexivity | reflexivity | discriminate | reflexivity | reflexivity |].
  destruct (update_of_never_writable_field schema_py
              (articles_schema_with_id_and
                 (title_field (PStr "never") "never"))
              (title_field (PStr "never") "never") "title" [] [] (VStr "5")
              update_document [("title", VStr "Hello")] ["data"] ∅)
    as [_ Hid];
    [reflexivity | reflexivity | discriminate | reflexivity | reflexivity |].
  split; [exact Hraises|]. split.
  - apply (Hclass Article (VStr "5")); try reflexivity. discriminate.
  - apply (Hid Article (VStr "5") ltac:(reflexivity) ltac:(discriminate)
             ltac:(reflexivity) ltac:(reflexivity) ltac:(reflexivity) ∅ ∅);
      reflexivity.
Defined.
